(** * OrmerodLedSensor: differential IR sensor and fan controller firmware

    A shallow embedding of [Firmware/Version2-differential-IR/OrmerodLedSensor.cpp]
    (ATtiny, avr-gcc: [int] is 16 bits wide, so [uint16_t] arithmetic wraps
    modulo 2^16 and [uint8_t] values are promoted before they are combined).

    The global variables of the firmware and the three I/O registers it
    drives become one record [State]; the timer interrupt handler, the fan
    check and the body of the foreground loop become functions on it.  The
    inputs the program samples (the ADC data register, the PINA input
    register) are arguments of the function that reads them. *)

From Stdlib Require Import ZArith Lia Bool List.
From stdpp Require Import base tactics list.

Local Open Scope Z_scope.

(** ** Machine arithmetic *)

Definition wrap8 (x : Z) : Z := x mod 2 ^ 8.
Definition wrap16 (x : Z) : Z := x mod 2 ^ 16.
Definition wrap32 (x : Z) : Z := x mod 2 ^ 32.

(** [#define BITVAL(_x) (1u << (_x))] *)
Definition BITVAL (x : Z) : Z := Z.shiftl 1 x.

(** Arrays are lists; an element is read and written at an index held in an
    unsigned variable.  The index types of the source carry the invariant
    [value < N], so an access out of range (undefined in C) does not occur;
    here such a read gives 0 and such a write changes nothing. *)
Definition readAt (a : list Z) (i : Z) : Z := default 0 (a !! Z.to_nat i).
Definition writeAt (a : list Z) (i : Z) (v : Z) : list Z := <[Z.to_nat i := v]> a.

(** ** Pin assignments and parameters *)

Definition PortADuetInputBit : Z := 0.
Definition AdcPhototransistorChan : Z := 1.
Definition PortADuet13KOutputBit : Z := 2.
Definition AdcThermistorChan : Z := 3.
Definition PortASeriesResistorSenseBit : Z := 4.
Definition PortAFanControlBit : Z := 5.
Definition PortANearLedBit : Z := 6.
Definition PortADuet10KOutputBit : Z := 7.

Definition PortAUnusedBitMask : Z := 0.
Definition PortBFarLedMask : Z := Z.lor (BITVAL 0) (BITVAL 1).
Definition PortBUnusedBitMask : Z := BITVAL 2.

(** Modelled from the spec: the bit numbers [MUX0] and [MUX1] of the ADMUX
    register come from [<avr/io.h>], which is not part of the sources.  The
    spec calls [BITVAL(MUX0)] the primary phototransistor input (ADC channel
    [AdcPhototransistorChan] = 1) and [BITVAL(MUX1) | BITVAL(MUX0)] the
    single-ended thermistor input (ADC channel [AdcThermistorChan] = 3). *)
Definition MUX0 : Z := 0.
Definition MUX1 : Z := 1.

Definition interruptFreq : Z := 8000.
Definition cyclesAveragedIR : Z := 8.

Definition farThreshold : Z := 10 * cyclesAveragedIR.
Definition simpleNearThreshold : Z := 30 * cyclesAveragedIR.
Definition saturatedThreshold : Z := 870 * cyclesAveragedIR.

Definition fanSampleFreq : Z := 16.
Definition fanSampleIntervalTicks : Z := interruptFreq / fanSampleFreq.
Definition fanSamplesAveraged : Z := 16.

Definition thermistorConnectedThreshold1K : Z := 30.
Definition thermistorOffThreshold1K : Z := 340.
Definition thermistorOnThreshold1K : Z := 400.

Definition thermistorConnectedThreshold4K7 : Z := 7.
Definition thermistorOffThreshold4K7 : Z := 78.
Definition thermistorOnThreshold4K7 : Z := 92.

Definition fanOnSeconds : Z := 2.

(** ** The variables of the program

    IR variables, fan variables and general variables as the source declares
    them, followed by the output registers PORTA, PORTB and ADMUX. *)

Record State : Type := mkState {
  nearSumIR : Z;
  farSumIR : Z;
  offSumIR : Z;
  nearLedReadings : list Z;
  farLedReadings : list Z;
  offReadings : list Z;
  nearLedIndex : Z;
  farLedIndex : Z;
  offIndex : Z;
  fanReadings : list Z;
  fanOffsets : list Z;
  fanReadingSum : Z;
  fanOffsetSum : Z;
  thermistorConnectedThreshold : Z;
  thermistorOnThreshold : Z;
  thermistorOffThreshold : Z;
  fanIndex : Z;
  fan1Kmode : bool;
  lastFanSampleTicks : Z;
  fanChangeCount : Z;
  tickCounter : Z;
  running : bool;
  PORTA : Z;
  PORTB : Z;
  ADMUX : Z
}.

Definition set_nearSumIR (v : Z) (s : State) : State :=
  mkState v (farSumIR s) (offSumIR s) (nearLedReadings s) (farLedReadings s)
    (offReadings s) (nearLedIndex s) (farLedIndex s) (offIndex s) (fanReadings s)
    (fanOffsets s) (fanReadingSum s) (fanOffsetSum s) (thermistorConnectedThreshold s)
    (thermistorOnThreshold s) (thermistorOffThreshold s) (fanIndex s) (fan1Kmode s)
    (lastFanSampleTicks s) (fanChangeCount s) (tickCounter s) (running s) (PORTA s)
    (PORTB s) (ADMUX s).

Definition set_farSumIR (v : Z) (s : State) : State :=
  mkState (nearSumIR s) v (offSumIR s) (nearLedReadings s) (farLedReadings s)
    (offReadings s) (nearLedIndex s) (farLedIndex s) (offIndex s) (fanReadings s)
    (fanOffsets s) (fanReadingSum s) (fanOffsetSum s) (thermistorConnectedThreshold s)
    (thermistorOnThreshold s) (thermistorOffThreshold s) (fanIndex s) (fan1Kmode s)
    (lastFanSampleTicks s) (fanChangeCount s) (tickCounter s) (running s) (PORTA s)
    (PORTB s) (ADMUX s).

Definition set_offSumIR (v : Z) (s : State) : State :=
  mkState (nearSumIR s) (farSumIR s) v (nearLedReadings s) (farLedReadings s)
    (offReadings s) (nearLedIndex s) (farLedIndex s) (offIndex s) (fanReadings s)
    (fanOffsets s) (fanReadingSum s) (fanOffsetSum s) (thermistorConnectedThreshold s)
    (thermistorOnThreshold s) (thermistorOffThreshold s) (fanIndex s) (fan1Kmode s)
    (lastFanSampleTicks s) (fanChangeCount s) (tickCounter s) (running s) (PORTA s)
    (PORTB s) (ADMUX s).

Definition set_nearLedReadings (v : list Z) (s : State) : State :=
  mkState (nearSumIR s) (farSumIR s) (offSumIR s) v (farLedReadings s) (offReadings s)
    (nearLedIndex s) (farLedIndex s) (offIndex s) (fanReadings s) (fanOffsets s)
    (fanReadingSum s) (fanOffsetSum s) (thermistorConnectedThreshold s)
    (thermistorOnThreshold s) (thermistorOffThreshold s) (fanIndex s) (fan1Kmode s)
    (lastFanSampleTicks s) (fanChangeCount s) (tickCounter s) (running s) (PORTA s)
    (PORTB s) (ADMUX s).

Definition set_farLedReadings (v : list Z) (s : State) : State :=
  mkState (nearSumIR s) (farSumIR s) (offSumIR s) (nearLedReadings s) v (offReadings s)
    (nearLedIndex s) (farLedIndex s) (offIndex s) (fanReadings s) (fanOffsets s)
    (fanReadingSum s) (fanOffsetSum s) (thermistorConnectedThreshold s)
    (thermistorOnThreshold s) (thermistorOffThreshold s) (fanIndex s) (fan1Kmode s)
    (lastFanSampleTicks s) (fanChangeCount s) (tickCounter s) (running s) (PORTA s)
    (PORTB s) (ADMUX s).

Definition set_offReadings (v : list Z) (s : State) : State :=
  mkState (nearSumIR s) (farSumIR s) (offSumIR s) (nearLedReadings s) (farLedReadings s) v
    (nearLedIndex s) (farLedIndex s) (offIndex s) (fanReadings s) (fanOffsets s)
    (fanReadingSum s) (fanOffsetSum s) (thermistorConnectedThreshold s)
    (thermistorOnThreshold s) (thermistorOffThreshold s) (fanIndex s) (fan1Kmode s)
    (lastFanSampleTicks s) (fanChangeCount s) (tickCounter s) (running s) (PORTA s)
    (PORTB s) (ADMUX s).

Definition set_nearLedIndex (v : Z) (s : State) : State :=
  mkState (nearSumIR s) (farSumIR s) (offSumIR s) (nearLedReadings s) (farLedReadings s)
    (offReadings s) v (farLedIndex s) (offIndex s) (fanReadings s) (fanOffsets s)
    (fanReadingSum s) (fanOffsetSum s) (thermistorConnectedThreshold s)
    (thermistorOnThreshold s) (thermistorOffThreshold s) (fanIndex s) (fan1Kmode s)
    (lastFanSampleTicks s) (fanChangeCount s) (tickCounter s) (running s) (PORTA s)
    (PORTB s) (ADMUX s).

Definition set_farLedIndex (v : Z) (s : State) : State :=
  mkState (nearSumIR s) (farSumIR s) (offSumIR s) (nearLedReadings s) (farLedReadings s)
    (offReadings s) (nearLedIndex s) v (offIndex s) (fanReadings s) (fanOffsets s)
    (fanReadingSum s) (fanOffsetSum s) (thermistorConnectedThreshold s)
    (thermistorOnThreshold s) (thermistorOffThreshold s) (fanIndex s) (fan1Kmode s)
    (lastFanSampleTicks s) (fanChangeCount s) (tickCounter s) (running s) (PORTA s)
    (PORTB s) (ADMUX s).

Definition set_offIndex (v : Z) (s : State) : State :=
  mkState (nearSumIR s) (farSumIR s) (offSumIR s) (nearLedReadings s) (farLedReadings s)
    (offReadings s) (nearLedIndex s) (farLedIndex s) v (fanReadings s) (fanOffsets s)
    (fanReadingSum s) (fanOffsetSum s) (thermistorConnectedThreshold s)
    (thermistorOnThreshold s) (thermistorOffThreshold s) (fanIndex s) (fan1Kmode s)
    (lastFanSampleTicks s) (fanChangeCount s) (tickCounter s) (running s) (PORTA s)
    (PORTB s) (ADMUX s).

Definition set_fanReadings (v : list Z) (s : State) : State :=
  mkState (nearSumIR s) (farSumIR s) (offSumIR s) (nearLedReadings s) (farLedReadings s)
    (offReadings s) (nearLedIndex s) (farLedIndex s) (offIndex s) v (fanOffsets s)
    (fanReadingSum s) (fanOffsetSum s) (thermistorConnectedThreshold s)
    (thermistorOnThreshold s) (thermistorOffThreshold s) (fanIndex s) (fan1Kmode s)
    (lastFanSampleTicks s) (fanChangeCount s) (tickCounter s) (running s) (PORTA s)
    (PORTB s) (ADMUX s).

Definition set_fanOffsets (v : list Z) (s : State) : State :=
  mkState (nearSumIR s) (farSumIR s) (offSumIR s) (nearLedReadings s) (farLedReadings s)
    (offReadings s) (nearLedIndex s) (farLedIndex s) (offIndex s) (fanReadings s) v
    (fanReadingSum s) (fanOffsetSum s) (thermistorConnectedThreshold s)
    (thermistorOnThreshold s) (thermistorOffThreshold s) (fanIndex s) (fan1Kmode s)
    (lastFanSampleTicks s) (fanChangeCount s) (tickCounter s) (running s) (PORTA s)
    (PORTB s) (ADMUX s).

Definition set_fanReadingSum (v : Z) (s : State) : State :=
  mkState (nearSumIR s) (farSumIR s) (offSumIR s) (nearLedReadings s) (farLedReadings s)
    (offReadings s) (nearLedIndex s) (farLedIndex s) (offIndex s) (fanReadings s)
    (fanOffsets s) v (fanOffsetSum s) (thermistorConnectedThreshold s)
    (thermistorOnThreshold s) (thermistorOffThreshold s) (fanIndex s) (fan1Kmode s)
    (lastFanSampleTicks s) (fanChangeCount s) (tickCounter s) (running s) (PORTA s)
    (PORTB s) (ADMUX s).

Definition set_fanOffsetSum (v : Z) (s : State) : State :=
  mkState (nearSumIR s) (farSumIR s) (offSumIR s) (nearLedReadings s) (farLedReadings s)
    (offReadings s) (nearLedIndex s) (farLedIndex s) (offIndex s) (fanReadings s)
    (fanOffsets s) (fanReadingSum s) v (thermistorConnectedThreshold s)
    (thermistorOnThreshold s) (thermistorOffThreshold s) (fanIndex s) (fan1Kmode s)
    (lastFanSampleTicks s) (fanChangeCount s) (tickCounter s) (running s) (PORTA s)
    (PORTB s) (ADMUX s).

Definition set_thermistorConnectedThreshold (v : Z) (s : State) : State :=
  mkState (nearSumIR s) (farSumIR s) (offSumIR s) (nearLedReadings s) (farLedReadings s)
    (offReadings s) (nearLedIndex s) (farLedIndex s) (offIndex s) (fanReadings s)
    (fanOffsets s) (fanReadingSum s) (fanOffsetSum s) v (thermistorOnThreshold s)
    (thermistorOffThreshold s) (fanIndex s) (fan1Kmode s) (lastFanSampleTicks s)
    (fanChangeCount s) (tickCounter s) (running s) (PORTA s) (PORTB s) (ADMUX s).

Definition set_thermistorOnThreshold (v : Z) (s : State) : State :=
  mkState (nearSumIR s) (farSumIR s) (offSumIR s) (nearLedReadings s) (farLedReadings s)
    (offReadings s) (nearLedIndex s) (farLedIndex s) (offIndex s) (fanReadings s)
    (fanOffsets s) (fanReadingSum s) (fanOffsetSum s) (thermistorConnectedThreshold s) v
    (thermistorOffThreshold s) (fanIndex s) (fan1Kmode s) (lastFanSampleTicks s)
    (fanChangeCount s) (tickCounter s) (running s) (PORTA s) (PORTB s) (ADMUX s).

Definition set_thermistorOffThreshold (v : Z) (s : State) : State :=
  mkState (nearSumIR s) (farSumIR s) (offSumIR s) (nearLedReadings s) (farLedReadings s)
    (offReadings s) (nearLedIndex s) (farLedIndex s) (offIndex s) (fanReadings s)
    (fanOffsets s) (fanReadingSum s) (fanOffsetSum s) (thermistorConnectedThreshold s)
    (thermistorOnThreshold s) v (fanIndex s) (fan1Kmode s) (lastFanSampleTicks s)
    (fanChangeCount s) (tickCounter s) (running s) (PORTA s) (PORTB s) (ADMUX s).

Definition set_fanIndex (v : Z) (s : State) : State :=
  mkState (nearSumIR s) (farSumIR s) (offSumIR s) (nearLedReadings s) (farLedReadings s)
    (offReadings s) (nearLedIndex s) (farLedIndex s) (offIndex s) (fanReadings s)
    (fanOffsets s) (fanReadingSum s) (fanOffsetSum s) (thermistorConnectedThreshold s)
    (thermistorOnThreshold s) (thermistorOffThreshold s) v (fan1Kmode s)
    (lastFanSampleTicks s) (fanChangeCount s) (tickCounter s) (running s) (PORTA s)
    (PORTB s) (ADMUX s).

Definition set_fan1Kmode (v : bool) (s : State) : State :=
  mkState (nearSumIR s) (farSumIR s) (offSumIR s) (nearLedReadings s) (farLedReadings s)
    (offReadings s) (nearLedIndex s) (farLedIndex s) (offIndex s) (fanReadings s)
    (fanOffsets s) (fanReadingSum s) (fanOffsetSum s) (thermistorConnectedThreshold s)
    (thermistorOnThreshold s) (thermistorOffThreshold s) (fanIndex s) v
    (lastFanSampleTicks s) (fanChangeCount s) (tickCounter s) (running s) (PORTA s)
    (PORTB s) (ADMUX s).

Definition set_lastFanSampleTicks (v : Z) (s : State) : State :=
  mkState (nearSumIR s) (farSumIR s) (offSumIR s) (nearLedReadings s) (farLedReadings s)
    (offReadings s) (nearLedIndex s) (farLedIndex s) (offIndex s) (fanReadings s)
    (fanOffsets s) (fanReadingSum s) (fanOffsetSum s) (thermistorConnectedThreshold s)
    (thermistorOnThreshold s) (thermistorOffThreshold s) (fanIndex s) (fan1Kmode s) v
    (fanChangeCount s) (tickCounter s) (running s) (PORTA s) (PORTB s) (ADMUX s).

Definition set_fanChangeCount (v : Z) (s : State) : State :=
  mkState (nearSumIR s) (farSumIR s) (offSumIR s) (nearLedReadings s) (farLedReadings s)
    (offReadings s) (nearLedIndex s) (farLedIndex s) (offIndex s) (fanReadings s)
    (fanOffsets s) (fanReadingSum s) (fanOffsetSum s) (thermistorConnectedThreshold s)
    (thermistorOnThreshold s) (thermistorOffThreshold s) (fanIndex s) (fan1Kmode s)
    (lastFanSampleTicks s) v (tickCounter s) (running s) (PORTA s) (PORTB s) (ADMUX s).

Definition set_tickCounter (v : Z) (s : State) : State :=
  mkState (nearSumIR s) (farSumIR s) (offSumIR s) (nearLedReadings s) (farLedReadings s)
    (offReadings s) (nearLedIndex s) (farLedIndex s) (offIndex s) (fanReadings s)
    (fanOffsets s) (fanReadingSum s) (fanOffsetSum s) (thermistorConnectedThreshold s)
    (thermistorOnThreshold s) (thermistorOffThreshold s) (fanIndex s) (fan1Kmode s)
    (lastFanSampleTicks s) (fanChangeCount s) v (running s) (PORTA s) (PORTB s) (ADMUX s).

Definition set_running (v : bool) (s : State) : State :=
  mkState (nearSumIR s) (farSumIR s) (offSumIR s) (nearLedReadings s) (farLedReadings s)
    (offReadings s) (nearLedIndex s) (farLedIndex s) (offIndex s) (fanReadings s)
    (fanOffsets s) (fanReadingSum s) (fanOffsetSum s) (thermistorConnectedThreshold s)
    (thermistorOnThreshold s) (thermistorOffThreshold s) (fanIndex s) (fan1Kmode s)
    (lastFanSampleTicks s) (fanChangeCount s) (tickCounter s) v (PORTA s) (PORTB s)
    (ADMUX s).

Definition set_PORTA (v : Z) (s : State) : State :=
  mkState (nearSumIR s) (farSumIR s) (offSumIR s) (nearLedReadings s) (farLedReadings s)
    (offReadings s) (nearLedIndex s) (farLedIndex s) (offIndex s) (fanReadings s)
    (fanOffsets s) (fanReadingSum s) (fanOffsetSum s) (thermistorConnectedThreshold s)
    (thermistorOnThreshold s) (thermistorOffThreshold s) (fanIndex s) (fan1Kmode s)
    (lastFanSampleTicks s) (fanChangeCount s) (tickCounter s) (running s) v (PORTB s)
    (ADMUX s).

Definition set_PORTB (v : Z) (s : State) : State :=
  mkState (nearSumIR s) (farSumIR s) (offSumIR s) (nearLedReadings s) (farLedReadings s)
    (offReadings s) (nearLedIndex s) (farLedIndex s) (offIndex s) (fanReadings s)
    (fanOffsets s) (fanReadingSum s) (fanOffsetSum s) (thermistorConnectedThreshold s)
    (thermistorOnThreshold s) (thermistorOffThreshold s) (fanIndex s) (fan1Kmode s)
    (lastFanSampleTicks s) (fanChangeCount s) (tickCounter s) (running s) (PORTA s) v
    (ADMUX s).

Definition set_ADMUX (v : Z) (s : State) : State :=
  mkState (nearSumIR s) (farSumIR s) (offSumIR s) (nearLedReadings s) (farLedReadings s)
    (offReadings s) (nearLedIndex s) (farLedIndex s) (offIndex s) (fanReadings s)
    (fanOffsets s) (fanReadingSum s) (fanOffsetSum s) (thermistorConnectedThreshold s)
    (thermistorOnThreshold s) (thermistorOffThreshold s) (fanIndex s) (fan1Kmode s)
    (lastFanSampleTicks s) (fanChangeCount s) (tickCounter s) (running s) (PORTA s)
    (PORTB s) v.

(** ** The timer interrupt handler

    The five rolling sums the handler maintains. *)
Inductive Accumulator : Type :=
  | AccNear | AccFar | AccOff | AccFanReading | AccFanOffset.

Global Instance Accumulator_eq_dec : EqDecision Accumulator.
Proof. solve_decision. Defined.

(** [ISR adc s] is one firing of [ISR(TIM1_COMPB_vect)] with [adc] in the ADC
    data register.  Next to the new state it reports the store it made into a
    rolling sum, if it made one: the accumulator and the sample.  The wait on
    TCNT1 touches no variable and is left out. *)
Definition ISR (adc : Z) (s : State) : option (Accumulator * Z) * State :=
  let adcVal := Z.land adc 1023 in
  let locTickCounter := wrap8 (tickCounter s) in
  let '(w, s) :=
    match Z.land locTickCounter 15 with
    | 0 =>
        let '(w, s) :=
          if running s then
            if fan1Kmode s then
              let adcVal := Z.lxor adcVal 512 in
              if Z.land locTickCounter 16 =? 0 then
                let s := set_fanReadingSum
                  (wrap16 (fanReadingSum s - readAt (fanReadings s) (fanIndex s) + adcVal)) s in
                let s := set_fanReadings (writeAt (fanReadings s) (fanIndex s) adcVal) s in
                let s := set_fanIndex (Z.land (fanIndex s + 1) (fanSamplesAveraged - 1)) s in
                (Some (AccFanReading, adcVal), s)
              else
                let s := set_fanOffsetSum
                  (wrap16 (fanOffsetSum s - readAt (fanOffsets s) (fanIndex s) + adcVal)) s in
                let s := set_fanOffsets (writeAt (fanOffsets s) (fanIndex s) adcVal) s in
                (Some (AccFanOffset, adcVal), s)
            else
              let s := set_fanReadingSum
                (wrap16 (fanReadingSum s - readAt (fanReadings s) (fanIndex s) + adcVal)) s in
              let s := set_fanReadings (writeAt (fanReadings s) (fanIndex s) adcVal) s in
              let s := set_fanIndex (Z.land (fanIndex s + 1) (fanSamplesAveraged - 1)) s in
              (Some (AccFanReading, adcVal), s)
          else (None, s) in
        (w, set_PORTB (Z.lor (PORTB s) PortBFarLedMask) s)
    | 3 | 6 | 9 =>
        let '(w, s) :=
          if running s then
            let s := set_nearSumIR
              (wrap16 (nearSumIR s - readAt (nearLedReadings s) (nearLedIndex s) + adcVal)) s in
            let s := set_nearLedReadings (writeAt (nearLedReadings s) (nearLedIndex s) adcVal) s in
            let s := set_nearLedIndex (Z.land (nearLedIndex s + 1) (cyclesAveragedIR - 1)) s in
            (Some (AccNear, adcVal), s)
          else (None, s) in
        (w, set_PORTB (Z.lor (PORTB s) PortBFarLedMask) s)
    | 1 | 4 | 7 | 10 =>
        let '(w, s) :=
          if running s then
            let s := set_offSumIR
              (wrap16 (offSumIR s - readAt (offReadings s) (offIndex s) + adcVal)) s in
            let s := set_offReadings (writeAt (offReadings s) (offIndex s) adcVal) s in
            let s := set_offIndex (Z.land (offIndex s + 1) (cyclesAveragedIR - 1)) s in
            (Some (AccOff, adcVal), s)
          else (None, s) in
        let s := set_PORTB (Z.land (PORTB s) (Z.lnot PortBFarLedMask)) s in
        (w, set_PORTA (Z.lor (PORTA s) (BITVAL PortANearLedBit)) s)
    | 2 | 5 | 8 =>
        let '(w, s) :=
          if running s then
            let s := set_farSumIR
              (wrap16 (farSumIR s - readAt (farLedReadings s) (farLedIndex s) + adcVal)) s in
            let s := set_farLedReadings (writeAt (farLedReadings s) (farLedIndex s) adcVal) s in
            let s := set_farLedIndex (Z.land (farLedIndex s + 1) (cyclesAveragedIR - 1)) s in
            (Some (AccFar, adcVal), s)
          else (None, s) in
        (w, set_PORTA (Z.land (PORTA s) (Z.lnot (BITVAL PortANearLedBit))) s)
    | 11 =>
        let '(w, s) :=
          if running s then
            let s := set_farSumIR
              (wrap16 (farSumIR s - readAt (farLedReadings s) (farLedIndex s) + adcVal)) s in
            let s := set_farLedReadings (writeAt (farLedReadings s) (farLedIndex s) adcVal) s in
            let s := set_farLedIndex (Z.land (farLedIndex s + 1) (cyclesAveragedIR - 1)) s in
            (Some (AccFar, adcVal), s)
          else (None, s) in
        let s := set_PORTA (Z.land (PORTA s) (Z.lnot (BITVAL PortANearLedBit))) s in
        if fan1Kmode s then
          (w, set_ADMUX (if negb (Z.land locTickCounter 16 =? 0) then 19 else 51) s)
        else
          (w, set_ADMUX (Z.lor (BITVAL MUX1) (BITVAL MUX0)) s)
    | 12 =>
        if running s then
          let s := set_nearSumIR
            (wrap16 (nearSumIR s - readAt (nearLedReadings s) (nearLedIndex s) + adcVal)) s in
          let s := set_nearLedReadings (writeAt (nearLedReadings s) (nearLedIndex s) adcVal) s in
          let s := set_nearLedIndex (Z.land (nearLedIndex s + 1) (cyclesAveragedIR - 1)) s in
          (Some (AccNear, adcVal), s)
        else (None, s)
    | 13 | 14 => (None, s)
    | 15 => (None, set_ADMUX (BITVAL MUX0) s)
    | _ => (None, s)
    end in
  (w, set_tickCounter (wrap16 (tickCounter s + 1)) s).

(** ** The fan check

    [checkFan] reads the volatile sums [fanReadingSum] and [fanOffsetSum]
    twice each with interrupts enabled: once for the comparison and once for
    the difference.  [FanReads] holds the four values in program order. *)
Record FanReads : Type := mkFanReads {
  cmpReading : Z;
  cmpOffset : Z;
  diffOffset : Z;
  diffReading : Z
}.

(** The reads when no interrupt arrives during the check. *)
Definition readsOf (s : State) : FanReads :=
  mkFanReads (fanReadingSum s) (fanOffsetSum s) (fanOffsetSum s) (fanReadingSum s).

Definition fanIsOn (s : State) : bool :=
  negb (Z.land (PORTA s) (BITVAL PortAFanControlBit) =? 0).

(** [checkFan()]; the watchdog reset at its end is not modelled. *)
Definition checkFanWith (r : FanReads) (s : State) : State :=
  if negb (Z.land (PORTA s) (BITVAL PortAFanControlBit) =? 0) then
    if cmpReading r <? cmpOffset r then
      let fanDiff := wrap16 (diffOffset r - diffReading r) in
      if (fanDiff >=? thermistorConnectedThreshold s) && (fanDiff <=? thermistorOffThreshold s)
      then
        if fanChangeCount s =? 0 then
          set_PORTA (Z.land (PORTA s) (wrap8 (Z.lnot (BITVAL PortAFanControlBit)))) s
        else
          set_fanChangeCount (wrap8 (fanChangeCount s - 1)) s
      else s
    else s
  else
    if (cmpReading r >=? cmpOffset r)
       || (let fanDiff := wrap16 (diffOffset r - diffReading r) in
           (fanDiff <? thermistorConnectedThreshold s) || (fanDiff >=? thermistorOnThreshold s))
    then
      let s := set_PORTA (Z.lor (PORTA s) (BITVAL PortAFanControlBit)) s in
      set_fanChangeCount (wrap8 (wrap16 (fanOnSeconds * fanSampleFreq - 1))) s
    else s.

Definition checkFan (s : State) : State := checkFanWith (readsOf s) s.

(** ** The output to the Duet *)

Definition SetOutputOff (s : State) : State :=
  let s := set_PORTA (Z.land (PORTA s) (Z.lnot (BITVAL PortADuet10KOutputBit))) s in
  set_PORTA (Z.land (PORTA s) (Z.lnot (BITVAL PortADuet13KOutputBit))) s.

Definition SetOutputApproaching (s : State) : State :=
  let s := set_PORTA (Z.land (PORTA s) (Z.lnot (BITVAL PortADuet10KOutputBit))) s in
  set_PORTA (Z.lor (PORTA s) (BITVAL PortADuet13KOutputBit)) s.

Definition SetOutputOn (s : State) : State :=
  let s := set_PORTA (Z.land (PORTA s) (Z.lnot (BITVAL PortADuet13KOutputBit))) s in
  set_PORTA (Z.lor (PORTA s) (BITVAL PortADuet10KOutputBit)) s.

Definition SetOutputSaturated (s : State) : State :=
  let s := set_PORTA (Z.lor (PORTA s) (BITVAL PortADuet10KOutputBit)) s in
  set_PORTA (Z.lor (PORTA s) (BITVAL PortADuet13KOutputBit)) s.

(** The four levels the Duet reads from the resistor pair on PA2 (13K) and
    PA7 (10K). *)
Inductive Level : Type := Off | Approaching | On | Saturated.

Definition outputLevel (s : State) : Level :=
  match Z.testbit (PORTA s) PortADuet13KOutputBit,
        Z.testbit (PORTA s) PortADuet10KOutputBit with
  | false, false => Off
  | true, false => Approaching
  | false, true => On
  | true, true => Saturated
  end.

(** ** The foreground loop of [runIRsensorAndFan] *)

(** [(x > off) ? x - off : 0] on [uint16_t] operands. *)
Definition subtractOff (x off : Z) : Z :=
  if x >? off then wrap16 (x - off) else 0.

(** Lines 432-471: the decision on the three sums read under [cli()], with
    [pina] the value of the PINA register. *)
Definition sensorOutput (pina locNearSum locFarSum locOffSum : Z) (s : State) : State :=
  if (locNearSum >=? saturatedThreshold) || (locFarSum >=? saturatedThreshold) then
    SetOutputSaturated s
  else
    let locNearSum := subtractOff locNearSum locOffSum in
    let locFarSum := subtractOff locFarSum locOffSum in
    if Z.land pina (BITVAL PortADuetInputBit) =? 0 then
      if locNearSum >=? simpleNearThreshold then SetOutputOn s else SetOutputOff s
    else
      if (locNearSum >? locFarSum) && (locFarSum >=? farThreshold) then
        SetOutputOn s
      else if (locFarSum >=? farThreshold)
              && (wrap32 (locNearSum * 6) >=? wrap32 (locFarSum * 5)) then
        SetOutputApproaching s
      else
        SetOutputOff s.

(** Lines 479-480, taken when the test of line 477 succeeds. *)
Definition fanCheckCycle (r : FanReads) (s : State) : State :=
  let s := checkFanWith r s in
  set_lastFanSampleTicks (wrap16 (lastFanSampleTicks s + fanSampleIntervalTicks)) s.

(** Lines 474-481: the poll that ends an iteration of the loop, with
    [locTickCounter] the tick counter it reads under [cli()]. *)
Definition pollDue (locTickCounter : Z) (s : State) : bool :=
  wrap16 (locTickCounter - lastFanSampleTicks s) >=? fanSampleIntervalTicks.

Definition pollFan (locTickCounter : Z) (r : FanReads) (s : State) : State :=
  if pollDue locTickCounter s then fanCheckCycle r s else s.

(** ** Start-up *)

(** The state after reset: variables in static storage and the I/O registers
    hold zero. *)
Definition resetState : State :=
  mkState 0 0 0
    (replicate (Z.to_nat cyclesAveragedIR) 0) (replicate (Z.to_nat cyclesAveragedIR) 0)
    (replicate (Z.to_nat cyclesAveragedIR) 0)
    0 0 0
    (replicate (Z.to_nat fanSamplesAveraged) 0) (replicate (Z.to_nat fanSamplesAveraged) 0)
    0 0 0 0 0 0 false 0 0 0 false 0 0 0.

(** [main()] up to the call of [runIRsensorAndFan]; [pina] is the value of PINA
    when the series resistor sense pin is read. *)
Definition mainInit (pina : Z) (s : State) : State :=
  let s := set_PORTA (Z.lor (Z.lor (BITVAL PortADuetInputBit) (BITVAL PortASeriesResistorSenseBit))
                            PortAUnusedBitMask) s in
  let s := set_PORTB PortBUnusedBitMask s in
  let s := set_fan1Kmode (negb (Z.land pina (BITVAL PortASeriesResistorSenseBit) =? 0)) s in
  let '(readingInit, offsetInit, s) :=
    if fan1Kmode s then
      let s := set_thermistorConnectedThreshold
                 (wrap16 (thermistorConnectedThreshold1K * fanSamplesAveraged)) s in
      let s := set_thermistorOffThreshold
                 (wrap16 (thermistorOffThreshold1K * fanSamplesAveraged)) s in
      let s := set_thermistorOnThreshold
                 (wrap16 (thermistorOnThreshold1K * fanSamplesAveraged)) s in
      let offsetInit := 512 in
      (wrap16 (offsetInit - thermistorConnectedThreshold1K), offsetInit, s)
    else
      let s := set_thermistorConnectedThreshold
                 (wrap16 (thermistorConnectedThreshold4K7 * fanSamplesAveraged)) s in
      let s := set_thermistorOffThreshold
                 (wrap16 (thermistorOffThreshold4K7 * fanSamplesAveraged)) s in
      let s := set_thermistorOnThreshold
                 (wrap16 (thermistorOnThreshold4K7 * fanSamplesAveraged)) s in
      let offsetInit := 1023 in
      (wrap16 (offsetInit - thermistorConnectedThreshold4K7), offsetInit, s) in
  let s := set_fanReadingSum 0 s in
  let s := set_fanOffsetSum 0 s in
  let s :=
    foldl (fun s i =>
             let s := set_fanReadings (writeAt (fanReadings s) i readingInit) s in
             let s := set_fanReadingSum (wrap16 (fanReadingSum s + readingInit)) s in
             let s := set_fanOffsets (writeAt (fanOffsets s) i offsetInit) s in
             set_fanOffsetSum (wrap16 (fanOffsetSum s + offsetInit)) s)
          s (seqZ 0 fanSamplesAveraged) in
  set_fanIndex 0 s.

(** [runIRsensorAndFan()] from its entry to the [sei()] of line 416. *)
Definition sensorInit (s : State) : State :=
  let s := set_running false s in
  let s :=
    foldl (fun s i =>
             let s := set_offReadings (writeAt (offReadings s) i 0) s in
             let s := set_farLedReadings (writeAt (farLedReadings s) i 0) s in
             set_nearLedReadings (writeAt (nearLedReadings s) i 0) s)
          s (seqZ 0 cyclesAveragedIR) in
  let s := set_offIndex 0 s in
  let s := set_farLedIndex 0 s in
  let s := set_nearLedIndex 0 s in
  let s := set_offSumIR 0 s in
  let s := set_farSumIR 0 s in
  let s := set_nearSumIR 0 s in
  let s := set_ADMUX (BITVAL MUX0) s in
  set_tickCounter 0 s.

(** The state in which the timer interrupt is first enabled. *)
Definition initialState (pina : Z) : State := sensorInit (mainInit pina resetState).

(** Lines 418-420: the wait for the fourth tick, then the start of sampling. *)
Definition startRunning (s : State) : State :=
  if tickCounter s <? 4 then s
  else
    let s := set_running true s in
    set_lastFanSampleTicks 0 s.

(** ** Runs of the program

    What happens after start-up, in the order it happens: the timer interrupt
    fires with some value in the ADC register, or the foreground code takes
    one of its steps: it ends the wait for the fourth tick, it sets the output
    from the three sums it has read and from PINA, or it polls the fan, the
    check reading the values [r] if it is due.  The foreground steps may come
    in any order and the values read are arbitrary, which covers every
    interleaving with the interrupt. *)
Inductive Step : Type :=
  | StISR (adc : Z)
  | StStart
  | StOutput (pina locNearSum locFarSum locOffSum : Z)
  | StPollFan (r : FanReads).

Definition step (e : Step) (s : State) : State :=
  match e with
  | StISR adc => snd (ISR adc s)
  | StStart => startRunning s
  | StOutput pina n f o => sensorOutput pina n f o s
  | StPollFan r => pollFan (tickCounter s) r s
  end.

Definition run (es : list Step) (s : State) : State := foldl (fun s e => step e s) s es.

(** A state is reachable when a run from the initial state ends in it. *)
Definition reachable (s : State) : Prop :=
  exists pina es, s = run es (initialState pina).

(** A sequence of interrupts with the given ADC values, and the samples it
    stores into the accumulator [a], oldest first. *)
Definition runISR (adcs : list Z) (s : State) : State :=
  foldl (fun s adc => snd (ISR adc s)) s adcs.

Fixpoint pushed (a : Accumulator) (adcs : list Z) (s : State) : list Z :=
  match adcs with
  | [] => []
  | adc :: adcs =>
      let '(w, s') := ISR adc s in
      match w with
      | Some (a', v) => if decide (a' = a) then v :: pushed a adcs s' else pushed a adcs s'
      | None => pushed a adcs s'
      end
  end.

Arguments wrap8 : simpl never.
Arguments wrap16 : simpl never.

(** ** The invariants of the source *)

(** [+ over a]: the arithmetic sum of an array. *)
Fixpoint sumZ (l : list Z) : Z :=
  match l with
  | [] => 0
  | x :: l => x + sumZ l
  end.

(** The ghost function [irInvariant()], lines 90-99. *)
Definition irInvariant (s : State) : Prop :=
  Forall (fun r => r <= 1023) (nearLedReadings s)
  /\ Forall (fun r => r <= 1023) (farLedReadings s)
  /\ Forall (fun r => r <= 1023) (offReadings s)
  /\ nearSumIR s = sumZ (nearLedReadings s)
  /\ farSumIR s = sumZ (farLedReadings s)
  /\ offSumIR s = sumZ (offReadings s).

(** The ghost function [fanInvariant()], lines 131-138. *)
Definition fanInvariant (s : State) : Prop :=
  Forall (fun r => r <= 1023) (fanReadings s)
  /\ Forall (fun r => r <= 1023) (fanOffsets s)
  /\ fanReadingSum s = sumZ (fanReadings s)
  /\ fanOffsetSum s = sumZ (fanOffsets s).

(** What the declarations of the source say of the arrays and their indices:
    the array sizes, elements of an unsigned type, and the invariants
    [value < cyclesAveragedIR] of [irIndex_t] and [value < fanSamplesAveraged]
    of [fanIndex_t]. *)
Definition wellTyped (s : State) : Prop :=
  (length (nearLedReadings s) = Z.to_nat cyclesAveragedIR
   /\ length (farLedReadings s) = Z.to_nat cyclesAveragedIR
   /\ length (offReadings s) = Z.to_nat cyclesAveragedIR
   /\ length (fanReadings s) = Z.to_nat fanSamplesAveraged
   /\ length (fanOffsets s) = Z.to_nat fanSamplesAveraged)
  /\ (Forall (fun r => 0 <= r) (nearLedReadings s)
      /\ Forall (fun r => 0 <= r) (farLedReadings s)
      /\ Forall (fun r => 0 <= r) (offReadings s)
      /\ Forall (fun r => 0 <= r) (fanReadings s)
      /\ Forall (fun r => 0 <= r) (fanOffsets s))
  /\ (0 <= nearLedIndex s < cyclesAveragedIR
      /\ 0 <= farLedIndex s < cyclesAveragedIR
      /\ 0 <= offIndex s < cyclesAveragedIR
      /\ 0 <= fanIndex s < fanSamplesAveraged).

(** The same facts accumulator by accumulator: a ring of [N] samples in
    0 .. 1023 with its sum. *)
Definition ringOK (N : Z) (slots : list Z) (sum : Z) : Prop :=
  length slots = Z.to_nat N
  /\ Forall (fun r => 0 <= r <= 1023) slots
  /\ sum = sumZ slots.

Record Inv (s : State) : Prop := mkInv {
  inv_near : ringOK cyclesAveragedIR (nearLedReadings s) (nearSumIR s);
  inv_far : ringOK cyclesAveragedIR (farLedReadings s) (farSumIR s);
  inv_off : ringOK cyclesAveragedIR (offReadings s) (offSumIR s);
  inv_fanReading : ringOK fanSamplesAveraged (fanReadings s) (fanReadingSum s);
  inv_fanOffset : ringOK fanSamplesAveraged (fanOffsets s) (fanOffsetSum s);
  inv_nearLedIndex : 0 <= nearLedIndex s < cyclesAveragedIR;
  inv_farLedIndex : 0 <= farLedIndex s < cyclesAveragedIR;
  inv_offIndex : 0 <= offIndex s < cyclesAveragedIR;
  inv_fanIndex : 0 <= fanIndex s < fanSamplesAveraged
}.

(** ** The accumulators one by one

    The sum, the array and the capacity of an accumulator. *)
Definition accSum (a : Accumulator) (s : State) : Z :=
  match a with
  | AccNear => nearSumIR s
  | AccFar => farSumIR s
  | AccOff => offSumIR s
  | AccFanReading => fanReadingSum s
  | AccFanOffset => fanOffsetSum s
  end.

Definition accSlots (a : Accumulator) (s : State) : list Z :=
  match a with
  | AccNear => nearLedReadings s
  | AccFar => farLedReadings s
  | AccOff => offReadings s
  | AccFanReading => fanReadings s
  | AccFanOffset => fanOffsets s
  end.

Definition accSize (a : Accumulator) : Z :=
  match a with
  | AccNear | AccFar | AccOff => cyclesAveragedIR
  | AccFanReading | AccFanOffset => fanSamplesAveraged
  end.

(** The index variable through which a store into the accumulator goes. *)
Definition accIndex (a : Accumulator) (s : State) : Z :=
  match a with
  | AccNear => nearLedIndex s
  | AccFar => farLedIndex s
  | AccOff => offIndex s
  | AccFanReading | AccFanOffset => fanIndex s
  end.

(** The last [n] elements of a list, all of it when it is shorter. *)
Definition lastn {A} (n : nat) (l : list A) : list A := drop (length l - n) l.

(** The phase the handler dispatches on, [locTickCounter & 0x0f], and the
    bit it tests at phases 0 and 11, [(locTickCounter & 0x10) != 0]. *)
Definition phaseOf (s : State) : Z := Z.land (wrap8 (tickCounter s)) 15.
Definition bit4Of (s : State) : bool := negb (Z.land (wrap8 (tickCounter s)) 16 =? 0).

(** Whether, in 1K mode, the next store into a fan accumulator goes to
    [fanOffsets]: the handler alternates by bit 4 of the tick at phase 0. *)
Definition nextFanIsOffset (s : State) : bool :=
  if phaseOf s =? 0 then bit4Of s else negb (bit4Of s).

(** The slot that the next store into the accumulator overwrites.  The fan
    offsets are written through [fanIndex], which the store of a fan reading
    advances: the offset that follows a reading goes one slot further.  In
    4K7 mode and before sampling starts the offsets are not written. *)
Definition accCursor (a : Accumulator) (s : State) : Z :=
  match a with
  | AccNear => nearLedIndex s
  | AccFar => farLedIndex s
  | AccOff => offIndex s
  | AccFanReading => fanIndex s
  | AccFanOffset =>
      if running s && fan1Kmode s then
        if nextFanIsOffset s then fanIndex s
        else Z.land (fanIndex s + 1) (fanSamplesAveraged - 1)
      else 0
  end.

(** The slots of an accumulator from the oldest sample to the newest. *)
Definition window (a : Accumulator) (s : State) : list Z :=
  rotate (Z.to_nat (accCursor a s)) (accSlots a s).

(** ** The phase table

    What one firing of the handler does, as a function of the low five bits
    of the tick counter and of the two mode flags. *)
Inductive LedAction : Type := LedKeep | LedFarOn | LedFarOffNearOn | LedNearOff.

Record PhaseEntry : Type := mkEntry {
  target : option Accumulator;
  leds : LedAction;
  mux : option Z
}.

Definition gate (run : bool) (a : Accumulator) : option Accumulator :=
  if run then Some a else None.

(** The ADMUX value for a fan conversion: differential with gain 20 in 1K
    mode, the polarity given by bit 4 of the tick; single-ended otherwise. *)
Definition fanMux (bit4 fan1K : bool) : Z :=
  if fan1K then (if bit4 then 19 else 51) else Z.lor (BITVAL MUX1) (BITVAL MUX0).

Definition phaseTable (phase : Z) (bit4 run fan1K : bool) : PhaseEntry :=
  match phase with
  | 0 => mkEntry (gate run (if fan1K && bit4 then AccFanOffset else AccFanReading)) LedFarOn None
  | 3 | 6 | 9 => mkEntry (gate run AccNear) LedFarOn None
  | 1 | 4 | 7 | 10 => mkEntry (gate run AccOff) LedFarOffNearOn None
  | 2 | 5 | 8 => mkEntry (gate run AccFar) LedNearOff None
  | 11 => mkEntry (gate run AccFar) LedNearOff (Some (fanMux bit4 fan1K))
  | 12 => mkEntry (gate run AccNear) LedKeep None
  | 15 => mkEntry None LedKeep (Some (BITVAL MUX0))
  | _ => mkEntry None LedKeep None
  end.

(** The sample stored for an ADC value: the low ten bits, in 1K mode biased
    by 512 for the fan accumulators. *)
Definition sampleFor (a : Accumulator) (fan1K : bool) (adc : Z) : Z :=
  match a with
  | AccFanReading | AccFanOffset =>
      if fan1K then Z.lxor (Z.land adc 1023) 512 else Z.land adc 1023
  | _ => Z.land adc 1023
  end.

(** Replace the oldest sample of an accumulator by [v]. *)
Definition store (a : Accumulator) (v : Z) (s : State) : State :=
  match a with
  | AccNear =>
      let s := set_nearSumIR
        (wrap16 (nearSumIR s - readAt (nearLedReadings s) (nearLedIndex s) + v)) s in
      let s := set_nearLedReadings (writeAt (nearLedReadings s) (nearLedIndex s) v) s in
      set_nearLedIndex (Z.land (nearLedIndex s + 1) (cyclesAveragedIR - 1)) s
  | AccFar =>
      let s := set_farSumIR
        (wrap16 (farSumIR s - readAt (farLedReadings s) (farLedIndex s) + v)) s in
      let s := set_farLedReadings (writeAt (farLedReadings s) (farLedIndex s) v) s in
      set_farLedIndex (Z.land (farLedIndex s + 1) (cyclesAveragedIR - 1)) s
  | AccOff =>
      let s := set_offSumIR
        (wrap16 (offSumIR s - readAt (offReadings s) (offIndex s) + v)) s in
      let s := set_offReadings (writeAt (offReadings s) (offIndex s) v) s in
      set_offIndex (Z.land (offIndex s + 1) (cyclesAveragedIR - 1)) s
  | AccFanReading =>
      let s := set_fanReadingSum
        (wrap16 (fanReadingSum s - readAt (fanReadings s) (fanIndex s) + v)) s in
      let s := set_fanReadings (writeAt (fanReadings s) (fanIndex s) v) s in
      set_fanIndex (Z.land (fanIndex s + 1) (fanSamplesAveraged - 1)) s
  | AccFanOffset =>
      let s := set_fanOffsetSum
        (wrap16 (fanOffsetSum s - readAt (fanOffsets s) (fanIndex s) + v)) s in
      set_fanOffsets (writeAt (fanOffsets s) (fanIndex s) v) s
  end.

Definition setLeds (l : LedAction) (s : State) : State :=
  match l with
  | LedKeep => s
  | LedFarOn => set_PORTB (Z.lor (PORTB s) PortBFarLedMask) s
  | LedFarOffNearOn =>
      let s := set_PORTB (Z.land (PORTB s) (Z.lnot PortBFarLedMask)) s in
      set_PORTA (Z.lor (PORTA s) (BITVAL PortANearLedBit)) s
  | LedNearOff => set_PORTA (Z.land (PORTA s) (Z.lnot (BITVAL PortANearLedBit))) s
  end.

Definition setMux (m : option Z) (s : State) : State :=
  match m with
  | Some v => set_ADMUX v s
  | None => s
  end.

Definition logOf (e : PhaseEntry) (adc : Z) (s : State) : option (Accumulator * Z) :=
  match target e with
  | Some a => Some (a, sampleFor a (fan1Kmode s) adc)
  | None => None
  end.

Definition storeLog (w : option (Accumulator * Z)) (s : State) : State :=
  match w with
  | Some (a, v) => store a v s
  | None => s
  end.

Definition applyEntry (e : PhaseEntry) (adc : Z) (s : State)
  : option (Accumulator * Z) * State :=
  let w := logOf e adc s in
  let s := storeLog w s in
  let s := setLeds (leds e) s in
  let s := setMux (mux e) s in
  (w, set_tickCounter (wrap16 (tickCounter s + 1)) s).

(** The window after one interrupt: a stored sample enters at the newest end
    and the oldest sample leaves. *)
Definition shift (a : Accumulator) (w : option (Accumulator * Z)) (l : list Z) : list Z :=
  match w with
  | Some (a', v) => if decide (a' = a) then tail l ++ [v] else l
  | None => l
  end.

(** The samples that a sequence of ADC values puts into the accumulator [a],
    oldest first, read off the phase table and the ADC values alone: the
    firings go through the phases in turn from [phase], bit 4 of the tick
    flipping after phase 15, and a firing whose table entry names [a] adds the
    sample for the ADC value it meets. *)
Fixpoint samplesStored (a : Accumulator) (adcs : list Z) (phase : Z) (bit4 run fan1K : bool)
  : list Z :=
  match adcs with
  | [] => []
  | adc :: adcs =>
      let rest := samplesStored a adcs (if phase =? 15 then 0 else phase + 1)
                    (if phase =? 15 then negb bit4 else bit4) run fan1K in
      match target (phaseTable phase bit4 run fan1K) with
      | Some a' => if decide (a' = a) then sampleFor a fan1K adc :: rest else rest
      | None => rest
      end
  end.

(** ** What an observer of the handler sees *)

(** The drive of the far LED (PB0 and PB1 in parallel: 3 is on, 0 is off)
    and of the near LED (PA6). *)
Definition farLed (s : State) : Z := Z.land (PORTB s) PortBFarLedMask.
Definition nearLed (s : State) : bool := Z.testbit (PORTA s) PortANearLedBit.

(** The accumulator stored into, the two LED drives and the ADC multiplexer
    after a firing. *)
Definition observe (r : option (Accumulator * Z) * State)
  : option Accumulator * Z * bool * Z :=
  (option_map fst (fst r), farLed (snd r), nearLed (snd r), ADMUX (snd r)).

Fixpoint isrTrace (adcs : list Z) (s : State) : list (option Accumulator * Z * bool * Z) :=
  match adcs with
  | [] => []
  | adc :: adcs => observe (ISR adc s) :: isrTrace adcs (snd (ISR adc s))
  end.

(** The LED drives and the multiplexer that the handler meets at a phase
    once it has run through the preceding one. *)
Definition hwBefore (phase : Z) (bit4 fan1K : bool) : Z * bool * Z :=
  match phase with
  | 1 | 4 | 7 | 10 => (PortBFarLedMask, false, BITVAL MUX0)
  | 2 | 5 | 8 | 11 => (0, true, BITVAL MUX0)
  | 12 | 13 | 14 | 15 => (0, false, fanMux bit4 fan1K)
  | _ => (0, false, BITVAL MUX0)
  end.

Definition hwSync (s : State) : Prop :=
  (farLed s, nearLed s, ADMUX s) = hwBefore (phaseOf s) (bit4Of s) (fan1Kmode s).

(** ** What the foreground code leaves alone

    The foreground steps write PORTA, [fanChangeCount], [lastFanSampleTicks]
    and [running] only. *)
Record sameData (s s' : State) : Prop := mkSameData {
  same_nearSumIR : nearSumIR s' = nearSumIR s;
  same_farSumIR : farSumIR s' = farSumIR s;
  same_offSumIR : offSumIR s' = offSumIR s;
  same_nearLedReadings : nearLedReadings s' = nearLedReadings s;
  same_farLedReadings : farLedReadings s' = farLedReadings s;
  same_offReadings : offReadings s' = offReadings s;
  same_nearLedIndex : nearLedIndex s' = nearLedIndex s;
  same_farLedIndex : farLedIndex s' = farLedIndex s;
  same_offIndex : offIndex s' = offIndex s;
  same_fanReadings : fanReadings s' = fanReadings s;
  same_fanOffsets : fanOffsets s' = fanOffsets s;
  same_fanReadingSum : fanReadingSum s' = fanReadingSum s;
  same_fanOffsetSum : fanOffsetSum s' = fanOffsetSum s;
  same_thresholds :
    thermistorConnectedThreshold s' = thermistorConnectedThreshold s
    /\ thermistorOnThreshold s' = thermistorOnThreshold s
    /\ thermistorOffThreshold s' = thermistorOffThreshold s;
  same_fanIndex : fanIndex s' = fanIndex s;
  same_fan1Kmode : fan1Kmode s' = fan1Kmode s;
  same_tickCounter : tickCounter s' = tickCounter s;
  same_PORTB : PORTB s' = PORTB s;
  same_ADMUX : ADMUX s' = ADMUX s
}.

(** ** The fan checks of a run *)

(** The number of fan check cycles in a run from [s]: the polls that are
    due when they are made. *)
Fixpoint checkCycles (es : list Step) (s : State) : Z :=
  match es with
  | [] => 0
  | e :: es =>
      match e with
      | StPollFan _ => if pollDue (tickCounter s) s then 1 else 0
      | _ => 0
      end + checkCycles es (step e s)
  end.

(** The off-eligible range of [checkFan]: the thermistor connected and not
    above the off threshold. *)
Definition fanEligible (s : State) : bool :=
  (fanReadingSum s <? fanOffsetSum s)
  && (thermistorConnectedThreshold s <=? wrap16 (fanOffsetSum s - fanReadingSum s))
  && (wrap16 (fanOffsetSum s - fanReadingSum s) <=? thermistorOffThreshold s).

(** ** Preemption of the foreground code

    The foreground code as the sequence of its interrupt-control calls and
    of its reads of the variables it shares with the handler. *)
Inductive Var : Type :=
  | VNearSum | VFarSum | VOffSum | VFanReadingSum | VFanOffsetSum | VTickCounter.

Definition readVar (x : Var) (s : State) : Z :=
  match x with
  | VNearSum => nearSumIR s
  | VFarSum => farSumIR s
  | VOffSum => offSumIR s
  | VFanReadingSum => fanReadingSum s
  | VFanOffsetSum => fanOffsetSum s
  | VTickCounter => tickCounter s
  end.

Inductive Op : Type :=
  | OpCli
  | OpSei
  | OpRead (x : Var).

(** Lines 426-430. *)
Definition snapshotOps : list Op :=
  [OpCli; OpRead VNearSum; OpRead VFarSum; OpRead VOffSum; OpSei].

(** Lines 474-476. *)
Definition tickReadOps : list Op := [OpCli; OpRead VTickCounter; OpSei].

(** [checkFan], lines 311 and 313 (fan on) or 331 and 332 (fan off). *)
Definition checkFanOps : list Op :=
  [OpRead VFanReadingSum; OpRead VFanOffsetSum; OpRead VFanOffsetSum; OpRead VFanReadingSum].

(** Whether every read in [ops] happens with interrupts disabled, [ien]
    telling whether they are enabled on entry. *)
Fixpoint bracketed (ien : bool) (ops : list Op) : bool :=
  match ops with
  | [] => true
  | OpCli :: ops => bracketed false ops
  | OpSei :: ops => bracketed true ops
  | OpRead _ :: ops => negb ien && bracketed ien ops
  end.

(** [exec ops sched pending ien s] runs [ops] from [s].  The schedule gives,
    for each operation, the ADC values of the timer interrupts that arrive
    just before it; they are served at once when interrupts are enabled and
    stay pending otherwise.  The result is the list of values read and the
    final state. *)
Fixpoint exec (ops : list Op) (sched : list (list Z)) (pending : list Z) (ien : bool)
    (s : State) : list Z * State :=
  match ops with
  | [] => ([], s)
  | op :: ops =>
      let arrivals := pending ++ hd [] sched in
      let s := if ien then runISR arrivals s else s in
      let pending := if ien then [] else arrivals in
      match op with
      | OpCli => exec ops (tl sched) pending false s
      | OpSei => exec ops (tl sched) pending true s
      | OpRead x =>
          let '(vs, s') := exec ops (tl sched) pending ien s in
          (readVar x s :: vs, s')
      end
  end.

(** ** Runs used as examples

    [ticks adcAt t n] is the run of the [n] interrupts at ticks [t], [t + 1],
    ..., with [adcAt t'] in the ADC register at tick [t']. *)
Definition ticks (adcAt : Z -> Z) (t n : Z) : list Step :=
  map (fun t' => StISR (adcAt t')) (seqZ t n).

(** Start-up: four ticks, then sampling starts. *)
Definition startUp : list Step := ticks (fun _ => 0) 0 4 ++ [StStart].

(** The run up to tick 500, where the first fan poll is due. *)
Definition upTo500 (adcAt : Z -> Z) : list Step :=
  ticks adcAt 0 4 ++ [StStart] ++ ticks adcAt 4 496.

(** The poll at tick [500 * k], its check reading [r], and the 500 ticks that
    follow it. *)
Definition period (adcAt : Z -> Z) (r : FanReads) (k : Z) : list Step :=
  [StPollFan r] ++ ticks adcAt (500 * k) 500.

(** A run in which the foreground code is not preempted between its reads:
    every poll that is due reads the fan sums of the state it is made in,
    every output step the IR sums of that state. *)
Fixpoint unpreempted (es : list Step) (s : State) : bool :=
  match es with
  | [] => true
  | e :: es =>
      match e with
      | StPollFan r =>
          pollDue (tickCounter s) s
          && (cmpReading r =? fanReadingSum s) && (cmpOffset r =? fanOffsetSum s)
          && (diffOffset r =? fanOffsetSum s) && (diffReading r =? fanReadingSum s)
      | StOutput _ n f o => (n =? nearSumIR s) && (f =? farSumIR s) && (o =? offSumIR s)
      | _ => true
      end && unpreempted es (step e s)
  end.

(** 600 interrupts in 1K mode from the start of sampling. *)
Definition sampleRun : list Z := seqZ 100 600.
Definition sampleStart : State := run startUp (initialState 16).

(** Sampling at ticks 16 and 32 in 4K7 mode, at ticks 16 and 48 in 1K mode. *)
Definition tick16_4K7 : State := run (startUp ++ ticks (fun _ => 0) 4 12) (initialState 0).
Definition tick32_4K7 : State := run (startUp ++ ticks (fun _ => 0) 4 28) (initialState 0).
Definition tick16_1K : State := run (startUp ++ ticks (fun _ => 0) 4 12) (initialState 16).
Definition tick48_1K : State := run (startUp ++ ticks (fun _ => 5) 4 44) (initialState 16).

(** The phase 0 clause of the table as the specification words it: the fan
    accumulator is chosen by bit 4 of the tick alone. *)
Definition phase0_gated_by_bit4 : Prop :=
  exists onClear onSet : Accumulator,
    onClear <> onSet
    /\ forall adc s,
        reachable s -> running s = true -> tickCounter s mod 16 = 0 ->
        option_map fst (fst (ISR adc s))
        = Some (if Z.testbit (tickCounter s) 4 then onSet else onClear).

(** 4K7 mode with the ADC at 900 up to tick 500 and at 1000 from then on.
    At tick 500 the reading sum is 16 * 900, 1968 below the reference
    16 * 1023, above the on threshold 1472: the first check turns the fan on.
    At tick 1000 the reading sum is 16 * 1000, 368 below the reference,
    between the connected threshold 112 and the off threshold 1248. *)
Definition adcHotCool (t : Z) : Z := if t <? 500 then 900 else 1000.
Definition hotState : State := run (upTo500 adcHotCool) (initialState 0).
Definition hotReads : FanReads := mkFanReads 14400 16368 16368 14400.
Definition coolRun : list Step := upTo500 adcHotCool ++ period adcHotCool hotReads 1.
Definition coolState : State := run coolRun (initialState 0).
Definition coolReads : FanReads := mkFanReads 16000 16368 16368 16000.

(** After the poll at tick 500: the polls at ticks 1000, 1500, ..., 16000,
    each after 500 ticks; then the poll at tick 16500. *)
Definition coolChecks : list Step :=
  concat (map (fun k => ticks adcHotCool (500 * k) 500 ++ [StPollFan coolReads])
              (seqZ 1 31)).
Definition nextCoolCheck : list Step := ticks adcHotCool 16000 500 ++ [StPollFan coolReads].

(** 1K mode with fan readings of 1023 and offset readings of 512: at tick 500
    the reading sum 15 * 1023 + 482 is above the offset sum 16 * 512. *)
Definition adcDisconnected (t : Z) : Z := if t mod 32 =? 0 then 511 else 0.
Definition disconnectedState : State := run (upTo500 adcDisconnected) (initialState 16).

(** 1K mode with fan readings of 488 and offset readings of 512, and a fan
    reading of 1023 at tick 4000.  The polls at ticks 500, ..., 3500 are made;
    at tick 4000 the eighth poll is due, the reading sum is 16 * 488 = 7808
    and the offset sum 16 * 512 = 8192.  In [tornSchedule] the interrupt of
    tick 4000 arrives before the third of the four reads of [checkFan]. *)
Definition adcTorn (t : Z) : Z :=
  if t =? 4000 then 511 else if t mod 32 =? 0 then 1000 else 0.
Definition tornRun : list Step :=
  upTo500 adcTorn
  ++ period adcTorn (mkFanReads 7802 8192 8192 7802) 1
  ++ concat (map (period adcTorn (mkFanReads 7808 8192 8192 7808)) (seqZ 2 6)).
Definition tornStart : State := run tornRun (initialState 16).
Definition tornSchedule : list (list Z) := [[]; []; [adcTorn 4000]; []].
Definition tornReads : FanReads := mkFanReads 7808 8192 8192 8343.

(** ** The registers [main()] writes once

    Lines 495 and 503-507: the digital input buffers of the two ADC pins are
    disabled, and the fan, near LED and Duet output pins of port A and the far
    LED pins of port B are made outputs.  No other code writes these
    registers. *)
Definition DIDR0 : Z := Z.lor (BITVAL AdcPhototransistorChan) (BITVAL AdcThermistorChan).
Definition DDRA : Z :=
  Z.lor (Z.lor (Z.lor (BITVAL PortAFanControlBit) (BITVAL PortANearLedBit))
               (BITVAL PortADuet10KOutputBit))
        (BITVAL PortADuet13KOutputBit).
Definition DDRB : Z := PortBFarLedMask.

(** ** The delay loop

    [shortDelay(n)]: a loop over a [uint8_t] counter whose body is four [nop]
    instructions.  The result is the number of [nop]s executed; [fuel] bounds
    the number of tests of the loop condition, and the result is [None] when
    it runs out. *)
Fixpoint shortDelayLoop (fuel : nat) (i n nops : Z) : option Z :=
  match fuel with
  | O => None
  | S fuel =>
      if i <? n then shortDelayLoop fuel (wrap8 (i + 1)) n (nops + 4)
      else Some nops
  end.

Definition shortDelay (fuel : nat) (n : Z) : option Z := shortDelayLoop fuel 0 n 0.

(** ** Pins and conversions *)

(** The bits of the two ports that no code writes after [main()] has set
    them: PORTA outside the two Duet pins, the fan pin and the near LED pin
    keeps the value 17 that line 498 gives it, PORTB outside the far LED pins
    the value 4 of line 500. *)
Definition pinsKept (s : State) : Prop :=
  (forall n, n <> PortADuet13KOutputBit -> n <> PortAFanControlBit ->
             n <> PortANearLedBit -> n <> PortADuet10KOutputBit ->
             Z.testbit (PORTA s) n = Z.testbit 17 n)
  /\ (forall n, 2 <= n -> Z.testbit (PORTB s) n = Z.testbit 4 n).

(** The far LED drive, the near LED drive and the ADMUX value under which a
    sample for the accumulator is to be converted: one LED or none with the
    phototransistor input for the IR accumulators; LEDs off for the fan, with
    the thermistor as the positive input for a reading (ADMUX 19 in 1K mode,
    the single-ended input in 4K7 mode) and the inputs exchanged (ADMUX 51)
    for an offset. *)
Definition configFor (a : Accumulator) (fan1K : bool) : Z * bool * Z :=
  match a with
  | AccNear => (0, true, BITVAL MUX0)
  | AccFar => (PortBFarLedMask, false, BITVAL MUX0)
  | AccOff => (0, false, BITVAL MUX0)
  | AccFanReading => (0, false, if fan1K then 19 else Z.lor (BITVAL MUX1) (BITVAL MUX0))
  | AccFanOffset => (0, false, 51)
  end.

(** A step of the foreground code. *)
Definition isForeground (e : Step) : bool :=
  match e with
  | StISR _ => false
  | _ => true
  end.

(** ** The two tests of [checkFan]

    With the fan on, lines 311-314: the thermistor is connected and the
    temperature is at or below the off threshold.  With the fan off, lines
    331-333: the thermistor is disconnected or the temperature is at or above
    the on threshold. *)
Definition fanOffCond (r : FanReads) (s : State) : bool :=
  (cmpReading r <? cmpOffset r)
  && (let fanDiff := wrap16 (diffOffset r - diffReading r) in
      (fanDiff >=? thermistorConnectedThreshold s) && (fanDiff <=? thermistorOffThreshold s)).

Definition fanOnCond (r : FanReads) (s : State) : bool :=
  (cmpReading r >=? cmpOffset r)
  || (let fanDiff := wrap16 (diffOffset r - diffReading r) in
      (fanDiff <? thermistorConnectedThreshold s) || (fanDiff >=? thermistorOnThreshold s)).

(** ** Runs before sampling starts *)

(** The number of interrupts in a run. *)
Fixpoint countISR (es : list Step) : Z :=
  match es with
  | [] => 0
  | StISR _ :: es => 1 + countISR es
  | _ :: es => countISR es
  end.

(** A run in which every fan poll reads the two fan sums as they are in the
    state it is made in, no interrupt arriving between its reads. *)
Fixpoint readsOwn (es : list Step) (s : State) : bool :=
  match es with
  | [] => true
  | e :: es =>
      match e with
      | StPollFan r =>
          (cmpReading r =? fanReadingSum s) && (cmpOffset r =? fanOffsetSum s)
          && (diffOffset r =? fanOffsetSum s) && (diffReading r =? fanReadingSum s)
      | _ => true
      end && readsOwn es (step e s)
  end.

(** ** The output levels as the Duet reads them *)

(** The G31 reading that the comments of [SetOutputOff], [SetOutputApproaching],
    [SetOutputOn] and [SetOutputSaturated] give for each level. *)
Definition g31Reading (l : Level) : Z :=
  match l with
  | Off => 0
  | Approaching => 445
  | On => 578
  | Saturated => 1023
  end.

(** The level that lines 432-471 choose, on the mathematical integers: [n]
    and [f] are the near and far sums less the off sum, not below zero. *)
Definition decide_level (differential : bool) (near far off : Z) : Level :=
  if (saturatedThreshold <=? near) || (saturatedThreshold <=? far) then Saturated
  else
    let n := Z.max 0 (near - off) in
    let f := Z.max 0 (far - off) in
    if differential then
      if (f <? n) && (farThreshold <=? f) then On
      else if (farThreshold <=? f) && (5 * f <=? 6 * n) then Approaching
      else Off
    else
      if simpleNearThreshold <=? n then On else Off.

(** ** The schedule of the fan polls *)

(** How far the tick counter read by a poll is ahead of the last fan sample,
    line 477, and a sequence of polls that all read the same tick, the check
    of each reading the values given for it. *)
Definition pollLag (locTickCounter : Z) (s : State) : Z :=
  wrap16 (locTickCounter - lastFanSampleTicks s).

Definition polls (locTickCounter : Z) (rs : list FanReads) (s : State) : State :=
  foldl (fun s r => pollFan locTickCounter r s) s rs.

(** ** How long a sample stays in a sum *)

(** Whether the firing at phase [p], with bit 4 of the tick [b], stores into
    the accumulator [a] while sampling runs, and the number of such stores in
    [n] consecutive firings from there. *)
Definition storesInto (a : Accumulator) (fan1K : bool) (p : Z) (b : bool) : bool :=
  match target (phaseTable p b true fan1K) with
  | Some a' => bool_decide (a' = a)
  | None => false
  end.

Fixpoint countStores (a : Accumulator) (fan1K : bool) (n : nat) (p : Z) (b : bool) : nat :=
  match n with
  | O => O
  | S n =>
      let p' := if p =? 15 then 0 else p + 1 in
      let b' := if p =? 15 then negb b else b in
      ((if storesInto a fan1K p b then 1 else 0) + countStores a fan1K n p' b')%nat
  end.

(** The number of interrupts after which every slot of an accumulator has
    been overwritten: two 16-tick cycles for the IR accumulators, sixteen
    cycles for the fan readings in 4K7 mode, thirty-two for the fan readings
    and offsets in 1K mode. *)
Definition refreshTicks (a : Accumulator) (fan1K : bool) : nat :=
  match a with
  | AccNear | AccFar | AccOff => 32
  | AccFanReading => if fan1K then 512 else 256
  | AccFanOffset => 512
  end.

(** ** The two operations of an output function

    Each of [SetOutputOff], [SetOutputApproaching], [SetOutputOn] and
    [SetOutputSaturated] is two statements, each one read-modify-write
    operation on PORTA that clears or sets one bit; the timer interrupt can
    be served between them. *)
Definition clearPORTA (bit : Z) (s : State) : State :=
  set_PORTA (Z.land (PORTA s) (Z.lnot (BITVAL bit))) s.

Definition setPORTA (bit : Z) (s : State) : State :=
  set_PORTA (Z.lor (PORTA s) (BITVAL bit)) s.

Definition SetOutput (l : Level) (s : State) : State :=
  match l with
  | Off => SetOutputOff s
  | Approaching => SetOutputApproaching s
  | On => SetOutputOn s
  | Saturated => SetOutputSaturated s
  end.

Definition firstOp (l : Level) : State -> State :=
  match l with
  | Off | Approaching => clearPORTA PortADuet10KOutputBit
  | On => clearPORTA PortADuet13KOutputBit
  | Saturated => setPORTA PortADuet10KOutputBit
  end.

Definition secondOp (l : Level) : State -> State :=
  match l with
  | Off => clearPORTA PortADuet13KOutputBit
  | Approaching => setPORTA PortADuet13KOutputBit
  | On => setPORTA PortADuet10KOutputBit
  | Saturated => setPORTA PortADuet13KOutputBit
  end.

(** An operation on the value of PORTA with which the handler's writes of
    the near LED pin commute. *)
Definition besideLed (f : Z -> Z) : Prop :=
  (forall p, f (Z.lor p (BITVAL PortANearLedBit)) = Z.lor (f p) (BITVAL PortANearLedBit))
  /\ (forall p, f (Z.land p (Z.lnot (BITVAL PortANearLedBit)))
                = Z.land (f p) (Z.lnot (BITVAL PortANearLedBit))).

(** * Properties *)

(** ** The example runs *)

(** In the example runs every poll is due when it is made and reads the sums
    as they are. *)
Example example_runs_unpreempted :
  unpreempted coolRun (initialState 0) = true
  /\ unpreempted ([StPollFan hotReads] ++ coolChecks ++ nextCoolCheck) hotState = true
  /\ unpreempted tornRun (initialState 16) = true
  /\ readsOf coolState = coolReads.
Proof. repeat split; vm_compute; reflexivity. Qed.

(** The first interrupt, in phase 0: sampling has not started, so nothing is
    stored; the far LED is switched on and the tick advances. *)
Example first_interrupt :
  fst (ISR 700 (initialState 16)) = None
  /\ farLed (initialState 16) = 0
  /\ farLed (snd (ISR 700 (initialState 16))) = PortBFarLedMask
  /\ tickCounter (snd (ISR 700 (initialState 16))) = 1.
Proof. repeat split; vm_compute; reflexivity. Qed.

(** The pre-filled fan accumulators: 16 * 482 and 16 * 512 in 1K mode,
    16 * 1016 and 16 * 1023 in 4K7 mode. *)
Example initial_fan_sums :
  readsOf (initialState 16) = mkFanReads 7712 8192 8192 7712
  /\ readsOf (initialState 0) = mkFanReads 16256 16368 16368 16256.
Proof. split; vm_compute; reflexivity. Qed.

(** ** Samples and sums *)

Lemma wrap16_small x : 0 <= x < 65536 -> wrap16 x = x.
Proof. intros H. unfold wrap16. apply Z.mod_small. lia. Qed.

Lemma adcVal_range adc : 0 <= Z.land adc 1023 <= 1023.
Proof.
  change 1023 with (Z.ones 10). rewrite Z.land_ones by lia.
  change (2 ^ 10) with 1024. pose proof (Z.mod_pos_bound adc 1024 ltac:(lia)).
  change (Z.ones 10) with 1023. lia.
Qed.

Lemma lxor_512_range x : 0 <= x <= 1023 -> 0 <= Z.lxor x 512 <= 1023.
Proof.
  intros H. split.
  - apply Z.lxor_nonneg. lia.
  - destruct (Z.eq_dec (Z.lxor x 512) 0) as [->|Hne]; [lia|].
    assert (0 < Z.lxor x 512) by (assert (0 <= Z.lxor x 512) by (apply Z.lxor_nonneg; lia); lia).
    assert (Z.lxor x 512 < 2 ^ 10); [|lia].
    apply Z.log2_lt_pow2; [lia|].
    pose proof (Z.log2_lxor x 512 ltac:(lia) ltac:(lia)) as Hl.
    assert (Z.log2 x < 10).
    { destruct (Z.eq_dec x 0) as [->|]; [cbn; lia|]. apply Z.log2_lt_pow2; lia. }
    change (Z.log2 512) with 9 in Hl. lia.
Qed.

Lemma next_index i k : 0 <= k -> 0 <= Z.land (i + 1) (Z.ones k) < 2 ^ k.
Proof. intros. rewrite Z.land_ones by lia. apply Z.mod_pos_bound. lia. Qed.

Lemma sumZ_app l1 l2 : sumZ (l1 ++ l2) = sumZ l1 + sumZ l2.
Proof. induction l1 as [|x l1 IH]; cbn; [|rewrite IH]; lia. Qed.

Lemma sumZ_writeAt l i v :
  (Z.to_nat i < length l)%nat -> sumZ (writeAt l i v) = sumZ l - readAt l i + v.
Proof.
  unfold writeAt, readAt. generalize (Z.to_nat i) as n. clear i.
  induction l as [|x l IH]; intros [|n] Hn; simpl in *; try lia.
  rewrite IH by lia. lia.
Qed.

Lemma sumZ_bounds l b :
  Forall (fun r => 0 <= r <= b) l -> 0 <= sumZ l <= b * Z.of_nat (length l).
Proof. induction 1; cbn [sumZ length]; lia. Qed.

Lemma readAt_bounds l i b :
  0 <= b -> Forall (fun r => 0 <= r <= b) l -> 0 <= readAt l i <= b.
Proof.
  intros Hb Hl. unfold readAt. destruct (l !! Z.to_nat i) as [x|] eqn:E; cbn; [|lia].
  eapply Forall_lookup_1 in Hl; eauto.
Qed.

(** ** The invariant of the rolling sums *)

Lemma Forall_range (l : list Z) :
  Forall (fun r => 0 <= r) l -> Forall (fun r => r <= 1023) l ->
  Forall (fun r => 0 <= r <= 1023) l.
Proof.
  intros H1 H2. rewrite Forall_forall in *. intros x Hx.
  specialize (H1 x Hx). specialize (H2 x Hx). lia.
Qed.

Lemma Forall_range_inv (l : list Z) :
  Forall (fun r => 0 <= r <= 1023) l ->
  Forall (fun r => 0 <= r) l /\ Forall (fun r => r <= 1023) l.
Proof.
  intros H. split; eapply Forall_impl; eauto; cbn; intros; lia.
Qed.

Lemma Inv_intro s : wellTyped s -> irInvariant s -> fanInvariant s -> Inv s.
Proof.
  intros [(?&?&?&?&?) [(?&?&?&?&?) (?&?&?&?)]] (?&?&?&?&?&?) (?&?&?&?).
  constructor; unfold ringOK; auto using Forall_range.
Qed.

Lemma Inv_elim s : Inv s -> wellTyped s /\ irInvariant s /\ fanInvariant s.
Proof.
  intros [(?&[??]%Forall_range_inv&?) (?&[??]%Forall_range_inv&?)
          (?&[??]%Forall_range_inv&?) (?&[??]%Forall_range_inv&?)
          (?&[??]%Forall_range_inv&?) ? ? ? ?].
  unfold wellTyped, irInvariant, fanInvariant. intuition.
Qed.

Lemma ringOK_push N slots sum i v :
  0 < N <= 64 -> ringOK N slots sum -> 0 <= i < N -> 0 <= v <= 1023 ->
  ringOK N (writeAt slots i v) (wrap16 (sum - readAt slots i + v)).
Proof.
  intros HN (Hlen & Hall & ->) Hi Hv. unfold ringOK.
  assert (Hi' : (Z.to_nat i < length slots)%nat) by lia.
  split; [|split].
  - unfold writeAt. rewrite length_insert. exact Hlen.
  - unfold writeAt. apply Forall_insert; auto.
  - rewrite sumZ_writeAt by exact Hi'.
    pose proof (sumZ_bounds _ _ Hall) as Hb.
    pose proof (readAt_bounds slots i 1023 ltac:(lia) Hall) as Hr.
    apply wrap16_small.
    assert (Hw : Forall (fun r => 0 <= r <= 1023) (writeAt slots i v))
      by (unfold writeAt; apply Forall_insert; auto).
    pose proof (sumZ_bounds _ _ Hw) as Hb'.
    rewrite sumZ_writeAt in Hb' by exact Hi'.
    unfold writeAt in Hb'. rewrite length_insert in Hb'. lia.
Qed.

Lemma phase_cases x :
  let p := Z.land x 15 in
  p = 0 \/ p = 1 \/ p = 2 \/ p = 3 \/ p = 4 \/ p = 5 \/ p = 6 \/ p = 7 \/
  p = 8 \/ p = 9 \/ p = 10 \/ p = 11 \/ p = 12 \/ p = 13 \/ p = 14 \/ p = 15.
Proof.
  intros p. subst p. pose proof (Z.land_ones x 4 ltac:(lia)) as H.
  change (Z.ones 4) with 15 in H. change (2 ^ 4) with 16 in H. rewrite H.
  pose proof (Z.mod_pos_bound x 16 ltac:(lia)). lia.
Qed.

Ltac on_phase s :=
  let p := fresh "p" in
  let Hp := fresh "Hp" in
  pose proof (phase_cases (wrap8 (tickCounter s))) as Hp;
  cbv zeta in Hp;
  remember (Z.land (wrap8 (tickCounter s)) 15) as p;
  destruct Hp as [Hp|[Hp|[Hp|[Hp|[Hp|[Hp|[Hp|[Hp|[Hp|[Hp|[Hp|[Hp|[Hp|[Hp|[Hp|Hp]]]]]]]]]]]]]]];
  rewrite Hp.

Lemma cursor8 i : 0 <= Z.land (i + 1) (cyclesAveragedIR - 1) < cyclesAveragedIR.
Proof. apply (next_index i 3). lia. Qed.

Lemma cursor16 i : 0 <= Z.land (i + 1) (fanSamplesAveraged - 1) < fanSamplesAveraged.
Proof. apply (next_index i 4). lia. Qed.

Ltac split_ifs :=
  repeat match goal with
         | |- context [if ?b then _ else _] => destruct b eqn:?; cbn
         end.

Lemma ISR_Inv adc s : Inv s -> Inv (snd (ISR adc s)).
Proof.
  intros [Hn Hf Ho Hr Hx In If Io Ix].
  pose proof (adcVal_range adc) as Ha.
  pose proof (lxor_512_range _ Ha) as Hax.
  unfold ISR. cbv zeta. on_phase s; cbn; split_ifs; constructor; cbn;
    solve [ assumption | apply cursor8 | apply cursor16
          | apply ringOK_push; (assumption || (unfold cyclesAveragedIR, fanSamplesAveraged; lia)) ].
Qed.

(** ** Rings as windows *)

(** A store at the cursor of a ring drops the oldest sample of the window and
    appends the new one. *)
Lemma rotate_writeAt (l : list Z) (c N v : Z) :
  0 < N -> length l = Z.to_nat N -> 0 <= c < N ->
  rotate (Z.to_nat ((c + 1) mod N)) (writeAt l c v)
  = tail (rotate (Z.to_nat c) l) ++ [v].
Proof.
  intros HN Hlen Hc. unfold rotate, writeAt. rewrite length_insert.
  assert (Hcl : (Z.to_nat c < length l)%nat) by lia.
  destruct (lookup_lt_is_Some_2 l _ Hcl) as [x Hx].
  rewrite (Nat.mod_small (Z.to_nat c)) by lia.
  rewrite (drop_S l x (Z.to_nat c)) by exact Hx. cbn [tail app].
  rewrite insert_take_drop by exact Hcl.
  assert (Ht : length (take (Z.to_nat c) l) = Z.to_nat c) by (rewrite length_take; lia).
  destruct (Z.eq_dec (c + 1) N) as [E|E].
  - rewrite E, Z.mod_same by lia. cbn [Z.to_nat]. rewrite Nat.Div0.mod_0_l.
    cbn [drop take app]. rewrite app_nil_r.
    rewrite (drop_ge l (S (Z.to_nat c))) by lia. reflexivity.
  - rewrite Z.mod_small by lia.
    rewrite (Nat.mod_small (Z.to_nat (c + 1))) by lia.
    replace (Z.to_nat (c + 1)) with (S (Z.to_nat c)) by lia.
    rewrite drop_app_ge by lia. rewrite take_app, Ht.
    replace (S (Z.to_nat c) - Z.to_nat c)%nat with 1%nat by lia.
    rewrite take_ge by lia. cbn [drop take]. rewrite <- app_assoc. reflexivity.
Qed.

Lemma sumZ_rotate n l : sumZ (rotate n l) = sumZ l.
Proof.
  unfold rotate. generalize (n mod length l)%nat as k. intros k.
  transitivity (sumZ (take k l ++ drop k l)).
  - rewrite !sumZ_app. lia.
  - rewrite take_drop. reflexivity.
Qed.

Lemma lastn_full {A} n (l : list A) : length l = n -> lastn n l = l.
Proof. intros <-. unfold lastn. rewrite Nat.sub_diag. reflexivity. Qed.

Lemma lastn_snoc {A} n (l : list A) x :
  length l = n -> (0 < n)%nat -> lastn n (l ++ [x]) = tail l ++ [x].
Proof.
  intros Hl Hn. unfold lastn. rewrite length_app. cbn [length].
  replace (length l + 1 - n)%nat with 1%nat by lia.
  destruct l; cbn in *; [lia|]. reflexivity.
Qed.

Lemma lastn_app_lastn {A} n (l r : list A) :
  lastn n (lastn n l ++ r) = lastn n (l ++ r).
Proof.
  unfold lastn. rewrite !length_app, length_drop.
  destruct (Nat.le_gt_cases (length l) n) as [H|H].
  - replace (length l - n)%nat with 0%nat by lia. cbn [drop].
    f_equal. lia.
  - rewrite <- (drop_app_le l r (length l - n)) by lia.
    rewrite drop_drop. f_equal. lia.
Qed.

Lemma lastn_app_long {A} n (l r : list A) :
  (n <= length r)%nat -> lastn n (l ++ r) = lastn n r.
Proof.
  intros H. unfold lastn. rewrite length_app.
  rewrite drop_app_ge by lia. f_equal. lia.
Qed.

(** ** The handler follows the phase table *)

Lemma ISR_phaseTable adc s :
  ISR adc s = applyEntry (phaseTable (phaseOf s) (bit4Of s) (running s) (fan1Kmode s)) adc s.
Proof.
  unfold ISR, applyEntry, phaseOf, bit4Of. cbv zeta.
  on_phase s; cbn;
    destruct (running s) eqn:Hrun; destruct (fan1Kmode s) eqn:Hfan;
    try destruct (Z.land (wrap8 (tickCounter s)) 16 =? 0);
    cbn; rewrite ?Hrun, ?Hfan; reflexivity.
Qed.

Lemma land_mod32 x m : Z.land 31 m = m -> Z.land x m = Z.land (x mod 32) m.
Proof.
  intros Hm. change 32 with (2 ^ 5). rewrite <- Z.land_ones by lia.
  rewrite <- Z.land_assoc. change (Z.ones 5) with 31. rewrite Hm. reflexivity.
Qed.

Lemma wrap8_mod32 t : wrap8 t mod 32 = t mod 32.
Proof. unfold wrap8. apply Z.mod_mod_divide. exists 8. reflexivity. Qed.

Lemma next_tick_mod32 t : wrap8 (wrap16 (t + 1)) mod 32 = (t mod 32 + 1) mod 32.
Proof.
  rewrite wrap8_mod32. unfold wrap16.
  rewrite Z.mod_mod_divide by (exists 2048; reflexivity).
  rewrite Z.add_mod_idemp_l by lia. reflexivity.
Qed.

Lemma q_cases q :
  0 <= q < 32 ->
  q = 0 \/ q = 1 \/ q = 2 \/ q = 3 \/ q = 4 \/ q = 5 \/ q = 6 \/ q = 7 \/
  q = 8 \/ q = 9 \/ q = 10 \/ q = 11 \/ q = 12 \/ q = 13 \/ q = 14 \/ q = 15 \/
  q = 16 \/ q = 17 \/ q = 18 \/ q = 19 \/ q = 20 \/ q = 21 \/ q = 22 \/ q = 23 \/
  q = 24 \/ q = 25 \/ q = 26 \/ q = 27 \/ q = 28 \/ q = 29 \/ q = 30 \/ q = 31.
Proof. lia. Qed.

(** The low five bits of the tick counter count modulo 32. *)
Lemma next_phase t :
  let p := Z.land (wrap8 t) 15 in
  let b := negb (Z.land (wrap8 t) 16 =? 0) in
  Z.land (wrap8 (wrap16 (t + 1))) 15 = (if p =? 15 then 0 else p + 1)
  /\ negb (Z.land (wrap8 (wrap16 (t + 1))) 16 =? 0) = (if p =? 15 then negb b else b).
Proof.
  cbv zeta.
  rewrite (land_mod32 (wrap8 t) 15), (land_mod32 (wrap8 t) 16) by reflexivity.
  rewrite (land_mod32 (wrap8 (wrap16 (t + 1))) 15),
          (land_mod32 (wrap8 (wrap16 (t + 1))) 16) by reflexivity.
  rewrite next_tick_mod32, wrap8_mod32.
  pose proof (Z.mod_pos_bound t 32 ltac:(lia)) as Hq.
  apply q_cases in Hq.
  repeat (destruct Hq as [Hq|Hq]); rewrite Hq; vm_compute; auto.
Qed.

(** One firing, read off the table entry. *)
Section Entry.

Variables (e : PhaseEntry) (adc : Z) (s : State).

Local Abbreviation s' := (snd (applyEntry e adc s)).

Ltac entry_cases :=
  unfold applyEntry, logOf; destruct e as [[[]|] [] []]; reflexivity.

Lemma applyEntry_log : fst (applyEntry e adc s) = logOf e adc s.
Proof. reflexivity. Qed.

Lemma applyEntry_tickCounter : tickCounter s' = wrap16 (tickCounter s + 1).
Proof. entry_cases. Qed.

Lemma applyEntry_running : running s' = running s.
Proof. entry_cases. Qed.

Lemma applyEntry_fan1Kmode : fan1Kmode s' = fan1Kmode s.
Proof. entry_cases. Qed.

Lemma applyEntry_fanChangeCount : fanChangeCount s' = fanChangeCount s.
Proof. entry_cases. Qed.

Lemma applyEntry_ADMUX : ADMUX s' = default (ADMUX s) (mux e).
Proof. entry_cases. Qed.

Lemma applyEntry_PORTA : PORTA s' = PORTA (setLeds (leds e) s).
Proof. entry_cases. Qed.

Lemma applyEntry_PORTB : PORTB s' = PORTB (setLeds (leds e) s).
Proof. entry_cases. Qed.

Lemma applyEntry_accSlots a : accSlots a s' = accSlots a (storeLog (logOf e adc s) s).
Proof. unfold applyEntry, logOf; destruct a, e as [[[]|] [] []]; reflexivity. Qed.

Lemma applyEntry_accSum a : accSum a s' = accSum a (storeLog (logOf e adc s) s).
Proof. unfold applyEntry, logOf; destruct a, e as [[[]|] [] []]; reflexivity. Qed.

Lemma applyEntry_fanIndex : fanIndex s' = fanIndex (storeLog (logOf e adc s) s).
Proof. entry_cases. Qed.

Lemma applyEntry_window_index a :
  a <> AccFanOffset -> window a s' = window a (storeLog (logOf e adc s) s).
Proof.
  intros Ha. unfold applyEntry, logOf.
  destruct a; try congruence; destruct e as [[[]|] [] []]; reflexivity.
Qed.

End Entry.

(** ** The windows along a run of interrupts *)

Lemma rotate_push8 l c v :
  length l = Z.to_nat cyclesAveragedIR -> 0 <= c < cyclesAveragedIR ->
  rotate (Z.to_nat (Z.land (c + 1) (cyclesAveragedIR - 1))) (writeAt l c v)
  = tail (rotate (Z.to_nat c) l) ++ [v].
Proof.
  intros Hl Hc. rewrite <- (rotate_writeAt l c cyclesAveragedIR v) by (auto; reflexivity).
  replace (Z.land (c + 1) (cyclesAveragedIR - 1)) with ((c + 1) mod cyclesAveragedIR);
    [reflexivity|].
  symmetry. apply (Z.land_ones (c + 1) 3). lia.
Qed.

Lemma rotate_push16 l c v :
  length l = Z.to_nat fanSamplesAveraged -> 0 <= c < fanSamplesAveraged ->
  rotate (Z.to_nat (Z.land (c + 1) (fanSamplesAveraged - 1))) (writeAt l c v)
  = tail (rotate (Z.to_nat c) l) ++ [v].
Proof.
  intros Hl Hc. rewrite <- (rotate_writeAt l c fanSamplesAveraged v) by (auto; reflexivity).
  replace (Z.land (c + 1) (fanSamplesAveraged - 1)) with ((c + 1) mod fanSamplesAveraged);
    [reflexivity|].
  symmetry. apply (Z.land_ones (c + 1) 4). lia.
Qed.

Lemma storeLog_window_index a w s :
  Inv s -> a <> AccFanOffset ->
  window a (storeLog w s) = shift a w (window a s).
Proof.
  intros [[Ln _] [Lf _] [Lo _] [Lr _] [Lx _] In If Io Ix] Ha.
  destruct w as [[a' v]|]; [|reflexivity].
  unfold window, shift.
  destruct a; try congruence; destruct a'; cbn;
    solve [ reflexivity | apply rotate_push8; assumption | apply rotate_push16; assumption ].
Qed.

Lemma applyEntry_phaseOf e adc s :
  phaseOf (snd (applyEntry e adc s)) = (if phaseOf s =? 15 then 0 else phaseOf s + 1).
Proof. unfold phaseOf. rewrite applyEntry_tickCounter. apply next_phase. Qed.

Lemma applyEntry_bit4Of e adc s :
  bit4Of (snd (applyEntry e adc s))
  = (if phaseOf s =? 15 then negb (bit4Of s) else bit4Of s).
Proof. unfold phaseOf, bit4Of. rewrite applyEntry_tickCounter. apply next_phase. Qed.

Lemma ISR_window_offset adc s :
  Inv s ->
  window AccFanOffset (snd (ISR adc s))
  = shift AccFanOffset (fst (ISR adc s)) (window AccFanOffset s).
Proof.
  intros [[Ln _] [Lf _] [Lo _] [Lr _] [Lx _] In If Io Ix].
  rewrite ISR_phaseTable, applyEntry_log.
  unfold window, accCursor, nextFanIsOffset.
  rewrite applyEntry_running, applyEntry_fan1Kmode, applyEntry_fanIndex.
  rewrite (applyEntry_accSlots _ _ _ AccFanOffset).
  rewrite applyEntry_phaseOf, applyEntry_bit4Of.
  pose proof (phase_cases (wrap8 (tickCounter s))) as Hc. cbv zeta in Hc.
  fold (phaseOf s) in Hc.
  destruct (bit4Of s), (running s) eqn:Hrun, (fan1Kmode s) eqn:Hfan;
    repeat (destruct Hc as [Hc|Hc]); rewrite Hc; cbn; rewrite ?Hfan; cbn;
    solve [ reflexivity | apply rotate_push16; assumption ].
Qed.

Lemma ISR_window a adc s :
  Inv s -> window a (snd (ISR adc s)) = shift a (fst (ISR adc s)) (window a s).
Proof.
  intros H. destruct (decide (a = AccFanOffset)) as [->|Ha].
  - apply ISR_window_offset, H.
  - rewrite ISR_phaseTable, applyEntry_log, applyEntry_window_index by exact Ha.
    apply storeLog_window_index; assumption.
Qed.

Lemma runISR_cons adc adcs s : runISR (adc :: adcs) s = runISR adcs (snd (ISR adc s)).
Proof. reflexivity. Qed.

Lemma pushed_cons a adc adcs s :
  pushed a (adc :: adcs) s
  = match fst (ISR adc s) with
    | Some (a', v) =>
        if decide (a' = a) then v :: pushed a adcs (snd (ISR adc s))
        else pushed a adcs (snd (ISR adc s))
    | None => pushed a adcs (snd (ISR adc s))
    end.
Proof. cbn [pushed]. destruct (ISR adc s) as [[[a' v]|] s1]; reflexivity. Qed.

Lemma runISR_Inv adcs s : Inv s -> Inv (runISR adcs s).
Proof.
  revert s. induction adcs as [|adc adcs IH]; intros s H; [exact H|].
  rewrite runISR_cons. apply IH, ISR_Inv, H.
Qed.

Lemma accSlots_length a s : Inv s -> length (accSlots a s) = Z.to_nat (accSize a).
Proof. intros [[? _] [? _] [? _] [? _] [? _] _ _ _ _]. destruct a; assumption. Qed.

Lemma accSum_slots a s : Inv s -> accSum a s = sumZ (accSlots a s).
Proof. intros [(_&_&?) (_&_&?) (_&_&?) (_&_&?) (_&_&?) _ _ _ _]. destruct a; assumption. Qed.

Lemma window_length a s : Inv s -> length (window a s) = Z.to_nat (accSize a).
Proof. intros H. unfold window. rewrite length_rotate. apply accSlots_length, H. Qed.

Lemma accSum_window a s : Inv s -> accSum a s = sumZ (window a s).
Proof. intros H. unfold window. rewrite sumZ_rotate. apply accSum_slots, H. Qed.

Lemma accSize_pos a : (0 < Z.to_nat (accSize a))%nat.
Proof. destruct a; vm_compute; lia. Qed.

Lemma runISR_window a adcs s :
  Inv s ->
  window a (runISR adcs s) = lastn (Z.to_nat (accSize a)) (window a s ++ pushed a adcs s).
Proof.
  revert s. induction adcs as [|adc adcs IH]; intros s H.
  - cbn [runISR foldl pushed]. rewrite app_nil_r.
    symmetry. apply lastn_full, window_length, H.
  - rewrite runISR_cons, IH by apply ISR_Inv, H.
    rewrite ISR_window by exact H. rewrite pushed_cons.
    pose proof (window_length a s H) as Hl.
    destruct (fst (ISR adc s)) as [[a' v]|]; cbn [shift]; [|reflexivity].
    destruct (decide (a' = a)); [|reflexivity].
    rewrite <- (lastn_snoc _ (window a s) v Hl (accSize_pos a)).
    rewrite lastn_app_lastn, <- app_assoc. reflexivity.
Qed.

(** ** Bits of the output registers *)

Lemma BITVAL_pow2 k : 0 <= k -> BITVAL k = 2 ^ k.
Proof. intros _. unfold BITVAL. apply Z.shiftl_1_l. Qed.

Lemma testbit_set p k n :
  0 <= k -> 0 <= n -> Z.testbit (Z.lor p (BITVAL k)) n = Z.testbit p n || (k =? n).
Proof.
  intros Hk Hn. rewrite Z.lor_spec, BITVAL_pow2, Z.pow2_bits_eqb by lia. reflexivity.
Qed.

Lemma testbit_clear p k n :
  0 <= k -> 0 <= n ->
  Z.testbit (Z.land p (Z.lnot (BITVAL k))) n = Z.testbit p n && negb (k =? n).
Proof.
  intros Hk Hn.
  rewrite Z.land_spec, Z.lnot_spec, BITVAL_pow2, Z.pow2_bits_eqb by lia. reflexivity.
Qed.

Lemma land_bit p k :
  0 <= k -> (Z.land p (BITVAL k) =? 0) = negb (Z.testbit p k).
Proof.
  intros Hk. rewrite BITVAL_pow2 by lia.
  assert (E : Z.land p (2 ^ k) = if Z.testbit p k then 2 ^ k else 0).
  { apply Z.bits_inj'. intros n Hn. rewrite Z.land_spec, Z.pow2_bits_eqb by lia.
    destruct (Z.eqb_spec k n) as [->|Hne].
    - destruct (Z.testbit p n); [rewrite Z.pow2_bits_eqb, Z.eqb_refl by lia|rewrite Z.bits_0];
        reflexivity.
    - rewrite andb_false_r.
      destruct (Z.testbit p k); [rewrite Z.pow2_bits_eqb by lia|rewrite Z.bits_0];
        [apply Z.eqb_neq in Hne; rewrite Hne|]; reflexivity. }
  rewrite E. destruct (Z.testbit p k); [|reflexivity].
  apply Z.eqb_neq. pose proof (Z.pow_pos_nonneg 2 k). lia.
Qed.

Lemma land_lor_same a m : Z.land (Z.lor a m) m = m.
Proof.
  apply Z.bits_inj'. intros n Hn. rewrite Z.land_spec, Z.lor_spec.
  destruct (Z.testbit a n), (Z.testbit m n); reflexivity.
Qed.

Lemma land_lnot_same a m : Z.land (Z.land a (Z.lnot m)) m = 0.
Proof.
  apply Z.bits_inj'. intros n Hn. rewrite !Z.land_spec, Z.lnot_spec, Z.bits_0 by lia.
  destruct (Z.testbit a n), (Z.testbit m n); reflexivity.
Qed.

Lemma setLeds_farLed l s :
  farLed (setLeds l s)
  = match l with
    | LedFarOn => PortBFarLedMask
    | LedFarOffNearOn => 0
    | _ => farLed s
    end.
Proof.
  unfold farLed. destruct l; cbn [setLeds]; cbn -[Z.land Z.lor Z.lnot PortBFarLedMask];
    auto using land_lor_same, land_lnot_same.
Qed.

Lemma setLeds_nearLed l s :
  nearLed (setLeds l s)
  = match l with
    | LedFarOffNearOn => true
    | LedNearOff => false
    | _ => nearLed s
    end.
Proof.
  unfold nearLed. destruct l; cbn [setLeds]; cbn -[Z.land Z.lor Z.lnot BITVAL Z.testbit];
    rewrite ?testbit_set, ?testbit_clear by (unfold PortANearLedBit; lia);
    rewrite ?andb_false_r, ?orb_true_r; reflexivity.
Qed.

Lemma setLeds_PORTA_other l s n :
  0 <= n -> n <> PortANearLedBit ->
  Z.testbit (PORTA (setLeds l s)) n = Z.testbit (PORTA s) n.
Proof.
  intros Hn Hne. apply Z.eqb_neq in Hne. rewrite Z.eqb_sym in Hne.
  destruct l; cbn [setLeds]; cbn -[Z.land Z.lor Z.lnot BITVAL Z.testbit];
    rewrite ?testbit_set, ?testbit_clear by (unfold PortANearLedBit; lia);
    rewrite ?Hne, ?andb_true_r, ?orb_false_r; reflexivity.
Qed.

Lemma phaseOf_mod s : phaseOf s = tickCounter s mod 16.
Proof.
  unfold phaseOf. rewrite (Z.land_ones _ 4) by lia. unfold wrap8.
  apply Z.mod_mod_divide. exists 16. reflexivity.
Qed.

Lemma bit4Of_testbit s : bit4Of s = Z.testbit (tickCounter s) 4.
Proof.
  unfold bit4Of. rewrite (land_bit _ 4), negb_involutive by lia.
  unfold wrap8. apply Z.mod_pow2_bits_low. lia.
Qed.

Lemma ISR_low5 adc s :
  ISR adc s
  = applyEntry (phaseTable (tickCounter s mod 16) (Z.testbit (tickCounter s) 4)
                           (running s) (fan1Kmode s)) adc s.
Proof. rewrite <- phaseOf_mod, <- bit4Of_testbit. apply ISR_phaseTable. Qed.

Lemma ISR_tick_mod32 adc s :
  tickCounter (snd (ISR adc s)) mod 32 = (tickCounter s mod 32 + 1) mod 32.
Proof.
  rewrite ISR_phaseTable, applyEntry_tickCounter. unfold wrap16.
  rewrite Z.mod_mod_divide by (exists 2048; reflexivity).
  rewrite Z.add_mod_idemp_l by lia. reflexivity.
Qed.

Lemma ISR_rows (adc : Z) (s : State) :
  let p := tickCounter s mod 16 in
  let bit4 := Z.testbit (tickCounter s) 4 in
  let adcVal := Z.land adc 1023 in
  let w := fst (ISR adc s) in
  let s' := snd (ISR adc s) in
  ISR adc s = applyEntry (phaseTable p bit4 (running s) (fan1Kmode s)) adc s
  /\ running s' = running s /\ fan1Kmode s' = fan1Kmode s
  /\ tickCounter s' mod 32 = (tickCounter s mod 32 + 1) mod 32
  /\ (p = 0 ->
      w = (if running s then
             Some (if fan1Kmode s then
                     (if bit4 then AccFanOffset else AccFanReading, Z.lxor adcVal 512)
                   else (AccFanReading, adcVal))
           else None)
      /\ farLed s' = PortBFarLedMask /\ nearLed s' = nearLed s /\ ADMUX s' = ADMUX s)
  /\ (p = 3 \/ p = 6 \/ p = 9 ->
      w = (if running s then Some (AccNear, adcVal) else None)
      /\ farLed s' = PortBFarLedMask /\ nearLed s' = nearLed s /\ ADMUX s' = ADMUX s)
  /\ (p = 12 ->
      w = (if running s then Some (AccNear, adcVal) else None)
      /\ farLed s' = farLed s /\ nearLed s' = nearLed s /\ ADMUX s' = ADMUX s)
  /\ (p = 1 \/ p = 4 \/ p = 7 \/ p = 10 ->
      w = (if running s then Some (AccOff, adcVal) else None)
      /\ farLed s' = 0 /\ nearLed s' = true /\ ADMUX s' = ADMUX s)
  /\ (p = 2 \/ p = 5 \/ p = 8 ->
      w = (if running s then Some (AccFar, adcVal) else None)
      /\ farLed s' = farLed s /\ nearLed s' = false /\ ADMUX s' = ADMUX s)
  /\ (p = 11 ->
      w = (if running s then Some (AccFar, adcVal) else None)
      /\ farLed s' = farLed s /\ nearLed s' = false
      /\ ADMUX s' = (if fan1Kmode s then (if bit4 then 19 else 51)
                     else Z.lor (BITVAL MUX1) (BITVAL MUX0)))
  /\ (p = 13 \/ p = 14 ->
      w = None /\ s' = set_tickCounter (wrap16 (tickCounter s + 1)) s)
  /\ (p = 15 ->
      w = None /\ farLed s' = farLed s /\ nearLed s' = nearLed s
      /\ ADMUX s' = BITVAL MUX0).
Proof.
  cbv zeta.
  set (p := tickCounter s mod 16). set (b := Z.testbit (tickCounter s) 4).
  set (e := phaseTable p b (running s) (fan1Kmode s)).
  assert (HI : ISR adc s = applyEntry e adc s) by apply ISR_low5.
  assert (Hfar : farLed (snd (ISR adc s))
                 = match leds e with
                   | LedFarOn => PortBFarLedMask
                   | LedFarOffNearOn => 0
                   | _ => farLed s
                   end).
  { unfold farLed at 1. rewrite HI, applyEntry_PORTB. apply setLeds_farLed. }
  assert (Hnear : nearLed (snd (ISR adc s))
                  = match leds e with
                    | LedFarOffNearOn => true
                    | LedNearOff => false
                    | _ => nearLed s
                    end).
  { unfold nearLed at 1. rewrite HI, applyEntry_PORTA. apply setLeds_nearLed. }
  assert (Hmux : ADMUX (snd (ISR adc s)) = default (ADMUX s) (mux e))
    by (rewrite HI; apply applyEntry_ADMUX).
  assert (Hw : fst (ISR adc s) = logOf e adc s) by (rewrite HI; reflexivity).
  rewrite Hfar, Hnear, Hmux, Hw.
  split; [exact HI|].
  split; [rewrite HI; apply applyEntry_running|].
  split; [rewrite HI; apply applyEntry_fan1Kmode|].
  split; [apply ISR_tick_mod32|].
  rewrite HI. subst e. clearbody p b. clear. unfold logOf.
  repeat split;
    repeat match goal with H : _ \/ _ |- _ => destruct H as [H|H] end;
    match goal with H : p = _ |- _ => rewrite H end;
    destruct (running s), (fan1Kmode s), b; reflexivity.
Qed.

(** ** The invariant in every reachable state *)

Lemma sameData_refl s : sameData s s.
Proof. constructor; auto. Qed.

Lemma sameData_set_PORTA v s : sameData s (set_PORTA v s).
Proof. constructor; auto. Qed.

Lemma sameData_set_fanChangeCount v s : sameData s (set_fanChangeCount v s).
Proof. constructor; auto. Qed.

Lemma sameData_set_lastFanSampleTicks v s : sameData s (set_lastFanSampleTicks v s).
Proof. constructor; auto. Qed.

Lemma sameData_set_running v s : sameData s (set_running v s).
Proof. constructor; auto. Qed.

Lemma sameData_trans s1 s2 s3 : sameData s1 s2 -> sameData s2 s3 -> sameData s1 s3.
Proof.
  intros [] []. constructor; try congruence. intuition congruence.
Qed.

Lemma sameData_checkFanWith r s : sameData s (checkFanWith r s).
Proof.
  unfold checkFanWith. repeat case_match;
    eauto using sameData_refl, sameData_set_PORTA, sameData_set_fanChangeCount,
      sameData_trans.
Qed.

Lemma sameData_fanCheckCycle r s : sameData s (fanCheckCycle r s).
Proof.
  unfold fanCheckCycle.
  eauto using sameData_checkFanWith, sameData_set_lastFanSampleTicks, sameData_trans.
Qed.

Lemma sameData_pollFan t r s : sameData s (pollFan t r s).
Proof.
  unfold pollFan. case_match; auto using sameData_fanCheckCycle, sameData_refl.
Qed.

Lemma sameData_SetOutput s :
  sameData s (SetOutputOff s) /\ sameData s (SetOutputApproaching s)
  /\ sameData s (SetOutputOn s) /\ sameData s (SetOutputSaturated s).
Proof. repeat split; reflexivity. Qed.

Lemma sameData_sensorOutput pina n f o s : sameData s (sensorOutput pina n f o s).
Proof.
  destruct (sameData_SetOutput s) as (? & ? & ? & ?).
  unfold sensorOutput. repeat case_match; assumption.
Qed.

Lemma sameData_startRunning s : sameData s (startRunning s).
Proof.
  unfold startRunning. case_match;
    eauto using sameData_refl, sameData_set_running, sameData_set_lastFanSampleTicks,
      sameData_trans.
Qed.

Lemma sameData_Inv s s' : sameData s s' -> Inv s -> Inv s'.
Proof.
  intros [] []. constructor; congruence.
Qed.

Lemma step_Inv e s : Inv s -> Inv (step e s).
Proof.
  destruct e; cbn [step].
  - apply ISR_Inv.
  - apply sameData_Inv, sameData_startRunning.
  - apply sameData_Inv, sameData_sensorOutput.
  - apply sameData_Inv, sameData_pollFan.
Qed.

Lemma run_snoc es e s : run (es ++ [e]) s = step e (run es s).
Proof. unfold run. rewrite foldl_app. reflexivity. Qed.

Lemma initialState_cases pina :
  initialState pina = initialState 16 \/ initialState pina = initialState 0.
Proof.
  unfold initialState, mainInit.
  destruct (negb (Z.land pina (BITVAL PortASeriesResistorSenseBit) =? 0)); [left|right];
    reflexivity.
Qed.

Lemma initialState_Inv pina : Inv (initialState pina).
Proof.
  destruct (initialState_cases pina) as [-> | ->];
    (constructor;
     first [ split; [reflexivity|split; [vm_compute; repeat constructor; discriminate|reflexivity]]
           | vm_compute; split; congruence ]).
Qed.

Lemma reachable_ind (P : State -> Prop) :
  (forall pina, P (initialState pina)) ->
  (forall e s, reachable s -> P s -> P (step e s)) ->
  forall s, reachable s -> P s.
Proof.
  intros H0 HS s (pina & es & ->).
  induction es as [|e es IH] using rev_ind; [apply H0|].
  rewrite run_snoc. apply HS; [|exact IH]. exists pina, es. reflexivity.
Qed.

Lemma reachable_Inv s : reachable s -> Inv s.
Proof.
  revert s. apply reachable_ind; [apply initialState_Inv|].
  intros e s _. apply step_Inv.
Qed.

(** ** LED drives and multiplexer in step with the tick *)

Lemma observe_applyEntry e adc s :
  observe (applyEntry e adc s)
  = (target e,
     match leds e with
     | LedFarOn => PortBFarLedMask
     | LedFarOffNearOn => 0
     | _ => farLed s
     end,
     match leds e with
     | LedFarOffNearOn => true
     | LedNearOff => false
     | _ => nearLed s
     end,
     default (ADMUX s) (mux e)).
Proof.
  unfold observe. rewrite applyEntry_ADMUX, applyEntry_log.
  unfold farLed at 1, nearLed at 1. rewrite applyEntry_PORTA, applyEntry_PORTB.
  fold (farLed (setLeds (leds e) s)). fold (nearLed (setLeds (leds e) s)).
  rewrite setLeds_farLed, setLeds_nearLed.
  unfold logOf. destruct (target e); reflexivity.
Qed.

Lemma ISR_hwSync adc s : hwSync s -> hwSync (snd (ISR adc s)).
Proof.
  unfold hwSync. intros H.
  pose proof (observe_applyEntry
                (phaseTable (phaseOf s) (bit4Of s) (running s) (fan1Kmode s)) adc s) as Ho.
  rewrite <- ISR_phaseTable in Ho. unfold observe in Ho.
  injection Ho as _ Hf Hn Hm. rewrite Hf, Hn, Hm. clear Hf Hn Hm.
  rewrite ISR_phaseTable, applyEntry_phaseOf, applyEntry_bit4Of, applyEntry_fan1Kmode.
  pose proof (phase_cases (wrap8 (tickCounter s))) as Hc. cbv zeta in Hc.
  fold (phaseOf s) in Hc.
  assert (Hf : farLed s = (hwBefore (phaseOf s) (bit4Of s) (fan1Kmode s)).1.1)
    by (rewrite <- H; reflexivity).
  assert (Hn : nearLed s = (hwBefore (phaseOf s) (bit4Of s) (fan1Kmode s)).1.2)
    by (rewrite <- H; reflexivity).
  assert (Hm : ADMUX s = (hwBefore (phaseOf s) (bit4Of s) (fan1Kmode s)).2)
    by (rewrite <- H; reflexivity).
  rewrite Hf, Hn, Hm. clear H Hf Hn Hm.
  repeat (destruct Hc as [Hc|Hc]); rewrite Hc;
    destruct (bit4Of s), (running s), (fan1Kmode s); reflexivity.
Qed.

Lemma nearLed_set_bit k s :
  0 <= k -> k <> PortANearLedBit ->
  nearLed (set_PORTA (Z.lor (PORTA s) (BITVAL k)) s) = nearLed s.
Proof.
  intros Hk Hne. apply Z.eqb_neq in Hne. unfold nearLed. cbn [PORTA set_PORTA].
  rewrite testbit_set by (unfold PortANearLedBit; lia).
  rewrite Hne. apply orb_false_r.
Qed.

Lemma nearLed_clear_bit k s :
  0 <= k -> k <> PortANearLedBit ->
  nearLed (set_PORTA (Z.land (PORTA s) (Z.lnot (BITVAL k))) s) = nearLed s.
Proof.
  intros Hk Hne. apply Z.eqb_neq in Hne. unfold nearLed. cbn [PORTA set_PORTA].
  rewrite testbit_clear by (unfold PortANearLedBit; lia).
  rewrite Hne. apply andb_true_r.
Qed.

Lemma nearLed_SetOutput s :
  nearLed (SetOutputOff s) = nearLed s /\ nearLed (SetOutputApproaching s) = nearLed s
  /\ nearLed (SetOutputOn s) = nearLed s /\ nearLed (SetOutputSaturated s) = nearLed s.
Proof.
  unfold SetOutputOff, SetOutputApproaching, SetOutputOn, SetOutputSaturated.
  cbv zeta.
  repeat split;
    (etransitivity;
     [ first [apply nearLed_set_bit | apply nearLed_clear_bit]; vm_compute; congruence
     | first [apply nearLed_set_bit | apply nearLed_clear_bit]; vm_compute; congruence ]).
Qed.

Lemma nearLed_sensorOutput pina n f o s : nearLed (sensorOutput pina n f o s) = nearLed s.
Proof.
  destruct (nearLed_SetOutput s) as (? & ? & ? & ?).
  unfold sensorOutput. repeat case_match; assumption.
Qed.

Lemma nearLed_checkFanWith r s : nearLed (checkFanWith r s) = nearLed s.
Proof.
  unfold checkFanWith. repeat case_match; try reflexivity.
  - unfold nearLed. cbn [PORTA set_PORTA]. rewrite Z.land_spec.
    change (Z.testbit (wrap8 (Z.lnot (BITVAL PortAFanControlBit))) PortANearLedBit) with true.
    apply andb_true_r.
  - apply nearLed_set_bit; vm_compute; congruence.
Qed.

Lemma sameData_hwSync s s' :
  sameData s s' -> nearLed s' = nearLed s -> hwSync s -> hwSync s'.
Proof.
  intros [] Hn. unfold hwSync, farLed, phaseOf, bit4Of. congruence.
Qed.

Lemma step_hwSync e s : hwSync s -> hwSync (step e s).
Proof.
  destruct e; cbn [step].
  - apply ISR_hwSync.
  - apply sameData_hwSync; [apply sameData_startRunning|].
    unfold startRunning. case_match; reflexivity.
  - apply sameData_hwSync; [apply sameData_sensorOutput|apply nearLed_sensorOutput].
  - apply sameData_hwSync; [apply sameData_pollFan|].
    unfold pollFan, fanCheckCycle. case_match; [apply nearLed_checkFanWith|reflexivity].
Qed.

Lemma reachable_hwSync s : reachable s -> hwSync s.
Proof.
  revert s. apply reachable_ind.
  - intros pina. destruct (initialState_cases pina) as [-> | ->]; reflexivity.
  - intros e s _. apply step_hwSync.
Qed.

Lemma isrTrace_deterministic adcs1 :
  forall adcs2 s1 s2,
    hwSync s1 -> hwSync s2 ->
    phaseOf s1 = phaseOf s2 -> bit4Of s1 = bit4Of s2 ->
    running s1 = running s2 -> fan1Kmode s1 = fan1Kmode s2 ->
    length adcs1 = length adcs2 ->
    isrTrace adcs1 s1 = isrTrace adcs2 s2.
Proof.
  induction adcs1 as [|a1 adcs1 IH]; intros [|a2 adcs2] s1 s2 H1 H2 Hp Hb Hr Hk Hl;
    try discriminate Hl; [reflexivity|].
  cbn [isrTrace]. f_equal.
  - rewrite !ISR_phaseTable, !observe_applyEntry. rewrite Hp, Hb, Hr, Hk.
    unfold hwSync in H1, H2. rewrite Hp, Hb, Hk in H1. rewrite <- H2 in H1.
    injection H1 as -> -> ->. reflexivity.
  - apply IH; try (apply ISR_hwSync; assumption).
    + rewrite !ISR_phaseTable, !applyEntry_phaseOf, Hp. reflexivity.
    + rewrite !ISR_phaseTable, !applyEntry_bit4Of, Hp, Hb. reflexivity.
    + rewrite !ISR_phaseTable, !applyEntry_running. congruence.
    + rewrite !ISR_phaseTable, !applyEntry_fan1Kmode. congruence.
    + cbn in Hl. congruence.
Qed.

Lemma low5_phase s1 s2 :
  tickCounter s1 mod 32 = tickCounter s2 mod 32 ->
  phaseOf s1 = phaseOf s2 /\ bit4Of s1 = bit4Of s2.
Proof.
  intros H. unfold phaseOf, bit4Of.
  rewrite (land_mod32 (wrap8 (tickCounter s1)) 15), (land_mod32 (wrap8 (tickCounter s1)) 16),
    (land_mod32 (wrap8 (tickCounter s2)) 15), (land_mod32 (wrap8 (tickCounter s2)) 16)
    by reflexivity.
  rewrite !wrap8_mod32, H. auto.
Qed.

(** ** The output level *)

Lemma outputLevel_SetOutput s :
  outputLevel (SetOutputOff s) = Off
  /\ outputLevel (SetOutputApproaching s) = Approaching
  /\ outputLevel (SetOutputOn s) = On
  /\ outputLevel (SetOutputSaturated s) = Saturated.
Proof.
  unfold outputLevel, SetOutputOff, SetOutputApproaching, SetOutputOn, SetOutputSaturated.
  cbv zeta. cbn [PORTA set_PORTA].
  rewrite ?testbit_set, ?testbit_clear by (vm_compute; congruence).
  cbn [Z.eqb Pos.eqb PortADuet10KOutputBit PortADuet13KOutputBit].
  rewrite ?andb_false_r, ?orb_true_r, ?andb_true_r, ?orb_false_r, ?andb_false_r.
  auto.
Qed.

Lemma subtractOff_max x off :
  0 <= x < 65536 -> 0 <= off < 65536 -> subtractOff x off = Z.max 0 (x - off).
Proof.
  intros Hx Ho. unfold subtractOff. destruct (Z.gtb_spec x off).
  - rewrite wrap16_small by lia. lia.
  - lia.
Qed.

(** ** The fan output *)

Lemma fanIsOn_testbit s : fanIsOn s = Z.testbit (PORTA s) PortAFanControlBit.
Proof. unfold fanIsOn. rewrite land_bit by (vm_compute; congruence). apply negb_involutive. Qed.

Lemma fanIsOn_turn_on s :
  fanIsOn (set_PORTA (Z.lor (PORTA s) (BITVAL PortAFanControlBit)) s) = true.
Proof.
  rewrite fanIsOn_testbit. cbn [PORTA set_PORTA].
  rewrite testbit_set by (vm_compute; congruence). apply orb_true_r.
Qed.

Lemma fanIsOn_turn_off s :
  fanIsOn (set_PORTA (Z.land (PORTA s) (wrap8 (Z.lnot (BITVAL PortAFanControlBit)))) s)
  = false.
Proof.
  rewrite fanIsOn_testbit. cbn [PORTA set_PORTA]. rewrite Z.land_spec.
  change (Z.testbit (wrap8 (Z.lnot (BITVAL PortAFanControlBit))) PortAFanControlBit)
    with false.
  apply andb_false_r.
Qed.

Lemma outputLevel_same_bits s s' :
  Z.testbit (PORTA s') PortADuet13KOutputBit = Z.testbit (PORTA s) PortADuet13KOutputBit ->
  Z.testbit (PORTA s') PortADuet10KOutputBit = Z.testbit (PORTA s) PortADuet10KOutputBit ->
  outputLevel s' = outputLevel s.
Proof. unfold outputLevel. intros -> ->. reflexivity. Qed.

Lemma outputLevel_checkFanWith r s : outputLevel (checkFanWith r s) = outputLevel s.
Proof.
  unfold checkFanWith. repeat case_match; try reflexivity;
    apply outputLevel_same_bits; cbn [PORTA set_PORTA set_fanChangeCount];
    rewrite ?Z.land_spec, ?testbit_set by (vm_compute; congruence);
    try apply andb_true_r; apply orb_false_r.
Qed.

Lemma outputLevel_pollFan t r s : outputLevel (pollFan t r s) = outputLevel s.
Proof.
  unfold pollFan, fanCheckCycle. case_match; [|reflexivity].
  apply outputLevel_checkFanWith.
Qed.

(** The fan output and the hold counter belong to [checkFan]. *)
Lemma fan_untouched e s :
  (forall r, e <> StPollFan r) ->
  fanIsOn (step e s) = fanIsOn s /\ fanChangeCount (step e s) = fanChangeCount s.
Proof.
  intros He. destruct e as [adc| |pina n f o|r]; cbn [step].
  - rewrite ISR_phaseTable, applyEntry_fanChangeCount. split; [|reflexivity].
    rewrite !fanIsOn_testbit, applyEntry_PORTA.
    apply setLeds_PORTA_other; vm_compute; congruence.
  - unfold startRunning. case_match; auto.
  - split.
    + rewrite !fanIsOn_testbit.
      unfold sensorOutput, SetOutputOff, SetOutputApproaching, SetOutputOn, SetOutputSaturated.
      repeat case_match; cbn [PORTA set_PORTA];
        rewrite ?testbit_set, ?testbit_clear by (vm_compute; congruence);
        cbn [Z.eqb Pos.eqb PortADuet10KOutputBit PortADuet13KOutputBit PortAFanControlBit];
        rewrite ?andb_true_r, ?orb_false_r; reflexivity.
    + unfold sensorOutput, SetOutputOff, SetOutputApproaching, SetOutputOn, SetOutputSaturated.
      repeat case_match; reflexivity.
  - exfalso. apply (He r). reflexivity.
Qed.

(** One check with the fan on and the hold counter not yet at zero. *)
Lemma checkFanWith_hold r s :
  fanIsOn s = true -> 0 < fanChangeCount s < 256 ->
  fanIsOn (checkFanWith r s) = true
  /\ fanChangeCount s - 1 <= fanChangeCount (checkFanWith r s) <= fanChangeCount s.
Proof.
  intros Hon Hc. unfold checkFanWith. unfold fanIsOn in Hon. rewrite Hon.
  assert (fanIsOn s = true) as Hon' by exact Hon.
  destruct (Z.eqb_spec (fanChangeCount s) 0) as [E|E]; [lia|].
  repeat case_match; cbn [fanChangeCount set_fanChangeCount];
    try (split; [exact Hon'|lia]).
  split; [exact Hon'|]. unfold wrap8. rewrite Z.mod_small by lia. lia.
Qed.

Lemma checkFanWith_turn_on r s :
  fanIsOn s = false -> fanIsOn (checkFanWith r s) = true ->
  fanChangeCount (checkFanWith r s) = fanOnSeconds * fanSampleFreq - 1.
Proof.
  intros Hoff Hon. unfold checkFanWith in *. unfold fanIsOn in Hoff. rewrite Hoff in *.
  case_match; [reflexivity|]. unfold fanIsOn in Hon. congruence.
Qed.

Lemma checkFanWith_turn_off r s :
  fanIsOn s = true -> fanIsOn (checkFanWith r s) = false -> fanChangeCount s = 0.
Proof.
  intros Hon Hoff. unfold checkFanWith in Hoff.
  assert (fanIsOn s = true) as Hon' by exact Hon. unfold fanIsOn in Hon. rewrite Hon in Hoff.
  repeat case_match; try congruence.
  - apply Z.eqb_eq. assumption.
  - change (fanIsOn s = false) in Hoff. congruence.
Qed.

Lemma run_cons e es s : run (e :: es) s = run es (step e s).
Proof. reflexivity. Qed.

Lemma checkCycles_nonneg es : forall s, 0 <= checkCycles es s.
Proof.
  induction es as [|e es IH]; intros s; cbn [checkCycles]; [lia|].
  specialize (IH (step e s)). destruct e; try lia. case_match; lia.
Qed.

Lemma fan_hold es :
  forall s,
    fanIsOn s = true -> checkCycles es s <= fanChangeCount s < 256 ->
    fanIsOn (run es s) = true.
Proof.
  induction es as [|e es IH]; intros s Hon Hc; [exact Hon|].
  rewrite run_cons. cbn [checkCycles] in Hc.
  pose proof (checkCycles_nonneg es (step e s)) as H0.
  destruct e as [adc| |pina n f o|r].
  4: { cbn [step] in *. unfold pollFan in *.
       destruct (pollDue (tickCounter s) s).
       - destruct (checkFanWith_hold r s Hon ltac:(lia)) as [Hon' Hk].
         apply IH; [exact Hon'|].
         unfold fanCheckCycle in *. cbn [fanChangeCount set_lastFanSampleTicks]. lia.
       - apply IH; [exact Hon|lia]. }
  all: match goal with
       | |- context [step ?e ?s0] =>
           destruct (fan_untouched e s0 ltac:(intros; discriminate)) as [Hf Hk]
       end;
       apply IH; [rewrite Hf; exact Hon|rewrite Hk; lia].
Qed.

(** ** The two tests of the fan check *)

Lemma checkFanWith_cases r s :
  checkFanWith r s
  = if fanIsOn s then
      if fanOffCond r s then
        if fanChangeCount s =? 0 then
          set_PORTA (Z.land (PORTA s) (wrap8 (Z.lnot (BITVAL PortAFanControlBit)))) s
        else set_fanChangeCount (wrap8 (fanChangeCount s - 1)) s
      else s
    else
      if fanOnCond r s then
        set_fanChangeCount (wrap8 (wrap16 (fanOnSeconds * fanSampleFreq - 1)))
          (set_PORTA (Z.lor (PORTA s) (BITVAL PortAFanControlBit)) s)
      else s.
Proof.
  unfold checkFanWith, fanOffCond, fanOnCond. fold (fanIsOn s). cbv zeta.
  destruct (fanIsOn s); [|reflexivity].
  destruct (cmpReading r <? cmpOffset r); reflexivity.
Qed.

Lemma fanOffCond_spec r s :
  fanOffCond r s = true
  <-> cmpReading r < cmpOffset r
      /\ thermistorConnectedThreshold s <= wrap16 (diffOffset r - diffReading r)
         <= thermistorOffThreshold s.
Proof.
  unfold fanOffCond. cbv zeta.
  rewrite !andb_true_iff, Z.ltb_lt, Z.geb_le, Z.leb_le. tauto.
Qed.

(** ** The samples a run of interrupts stores *)

(** What the handler reports storing is what the phase table gives for the
    ADC values. *)
Lemma pushed_samplesStored a adcs :
  forall s,
    pushed a adcs s
    = samplesStored a adcs (phaseOf s) (bit4Of s) (running s) (fan1Kmode s).
Proof.
  induction adcs as [|adc adcs IH]; intros s; [reflexivity|].
  rewrite pushed_cons. cbn [samplesStored]. rewrite ISR_phaseTable, applyEntry_log, IH.
  rewrite applyEntry_phaseOf, applyEntry_bit4Of, applyEntry_running, applyEntry_fan1Kmode.
  unfold logOf.
  destruct (target (phaseTable (phaseOf s) (bit4Of s) (running s) (fan1Kmode s))) as [a'|];
    [|reflexivity].
  destruct (decide (a' = a)) as [->|]; reflexivity.
Qed.

(** ** Stores without wrap-around *)

Lemma sampleFor_range a k adc : 0 <= sampleFor a k adc <= 1023.
Proof.
  pose proof (adcVal_range adc) as Ha. pose proof (lxor_512_range _ Ha).
  unfold sampleFor. destruct a, k; assumption.
Qed.

Lemma Inv_ring a s :
  Inv s -> ringOK (accSize a) (accSlots a s) (accSum a s)
           /\ 0 <= accIndex a s < accSize a.
Proof. intros []. destruct a; split; assumption. Qed.

Lemma store_accSum a v s :
  accSum a (store a v s) = wrap16 (accSum a s - readAt (accSlots a s) (accIndex a s) + v).
Proof. destruct a; reflexivity. Qed.

Lemma ISR_store_exact adc s a v :
  Inv s -> fst (ISR adc s) = Some (a, v) ->
  0 <= v <= 1023
  /\ 0 <= accSum a s - readAt (accSlots a s) (accIndex a s) + v < 2 ^ 16
  /\ accSum a (snd (ISR adc s)) = accSum a s - readAt (accSlots a s) (accIndex a s) + v.
Proof.
  intros HI. rewrite ISR_phaseTable, applyEntry_log, applyEntry_accSum.
  unfold logOf. destruct (target _) as [a'|]; [|discriminate].
  intros [= -> <-]. cbn [storeLog].
  pose proof (sampleFor_range a (fan1Kmode s) adc) as Hv.
  destruct (Inv_ring a s HI) as [Hr Hi].
  assert (HN : 0 < accSize a <= 64) by (destruct a; vm_compute; split; congruence).
  destruct (ringOK_push _ _ _ _ _ HN Hr Hi Hv) as (Hl & Hall & Hs).
  destruct Hr as (Hl0 & Hall0 & Hs0).
  rewrite store_accSum.
  assert (Hb : 0 <= accSum a s - readAt (accSlots a s) (accIndex a s)
                    + sampleFor a (fan1Kmode s) adc < 2 ^ 16).
  { pose proof (sumZ_bounds _ _ Hall) as Hb. rewrite Hl in Hb.
    rewrite sumZ_writeAt in Hb by lia. rewrite <- Hs0 in Hb.
    change (2 ^ 16) with 65536. lia. }
  split; [exact Hv|]. split; [exact Hb|].
  apply wrap16_small. exact Hb.
Qed.

(** ** Reads under the interrupt mask *)

(** With interrupts disabled, and until they are enabled again, every read
    sees the state in which the section was entered. *)
Lemma exec_masked ops :
  forall sched pending s,
    forallb (fun op => match op with OpSei => false | _ => true end) ops = true ->
    fst (exec ops sched pending false s)
    = omap (fun op => match op with OpRead x => Some (readVar x s) | _ => None end) ops.
Proof.
  induction ops as [|op ops IH]; intros sched pending s H; [reflexivity|].
  cbn [forallb] in H. apply andb_true_iff in H as [Hop H].
  destruct op; try discriminate Hop; cbn [exec omap].
  - apply IH, H.
  - specialize (IH (tl sched) (pending ++ hd [] sched) s H).
    destruct (exec ops (tl sched) (pending ++ hd [] sched) false s) as [vs s1].
    cbn [fst] in *. rewrite IH. reflexivity.
Qed.

(** The three IR sums read under [cli()] are the sums of one state. *)
Lemma snapshot_consistent sched s :
  fst (exec snapshotOps sched [] true s)
  = (let s0 := runISR (hd [] sched) s in [nearSumIR s0; farSumIR s0; offSumIR s0]).
Proof. reflexivity. Qed.

Lemma tickRead_consistent sched s :
  fst (exec tickReadOps sched [] true s) = [tickCounter (runISR (hd [] sched) s)].
Proof. reflexivity. Qed.

(** * The claims *)

(** ** C1: the rolling sums are exact *)

(** C1.  If the IR invariant and the fan invariant of the source hold when the
    handler is entered (each sum is the arithmetic sum of its array, every slot
    is at most 1023), they hold when it returns, for every ADC value; hence
    they hold after any sequence of interrupts.  The samples such a sequence
    pushes into an accumulator are given by the ADC values and the phase
    table ([samplesStored]): the low ten bits of the value met at each phase
    that names the accumulator, biased by 512 for the fan in 1K mode; they
    are what the handler reports storing.  After the sequence the array of
    each accumulator holds, from the oldest slot on, the last N samples among
    those it held at the start followed by those pushed since, and the sum is
    their exact sum; once N or more samples have been pushed, array and sum
    are those of the last N pushed (N = 8 for the IR accumulators, 16 for the
    fan accumulators), the index wrapping around as often as it needs.
    [wellTyped] states what the C types give: the array sizes, unsigned
    elements and the index types' invariants. *)
Theorem accumulators_exact (s : State) (adcs : list Z) :
  wellTyped s -> irInvariant s -> fanInvariant s ->
  (forall adc,
      let s1 := snd (ISR adc s) in
      wellTyped s1 /\ irInvariant s1 /\ fanInvariant s1)
  /\ (let s' := runISR adcs s in
      wellTyped s' /\ irInvariant s' /\ fanInvariant s'
      /\ forall a,
          let N := Z.to_nat (accSize a) in
          let stored :=
            samplesStored a adcs (tickCounter s mod 16) (Z.testbit (tickCounter s) 4)
              (running s) (fan1Kmode s) in
          pushed a adcs s = stored
          /\ window a s' = lastn N (window a s ++ stored)
          /\ accSum a s' = sumZ (lastn N (window a s ++ stored))
          /\ ((N <= length stored)%nat ->
              window a s' = lastn N stored /\ accSum a s' = sumZ (lastn N stored))
          /\ accSum a s' = sumZ (lastn N (window a s ++ pushed a adcs s))
          /\ ((N <= length (pushed a adcs s))%nat ->
              accSum a s' = sumZ (lastn N (pushed a adcs s)))).
Proof.
  intros Ht Hi Hf. pose proof (Inv_intro s Ht Hi Hf) as H.
  split.
  - intros adc. apply Inv_elim, ISR_Inv, H.
  - cbv zeta. pose proof (runISR_Inv adcs s H) as H'.
    destruct (Inv_elim _ H') as (? & ? & ?).
    repeat (split; [assumption|]).
    intros a.
    assert (Ep : pushed a adcs s
                 = samplesStored a adcs (tickCounter s mod 16) (Z.testbit (tickCounter s) 4)
                     (running s) (fan1Kmode s)).
    { rewrite pushed_samplesStored, phaseOf_mod, bit4Of_testbit. reflexivity. }
    rewrite <- Ep.
    assert (Ew : window a (runISR adcs s)
                 = lastn (Z.to_nat (accSize a)) (window a s ++ pushed a adcs s))
      by (apply runISR_window; exact H).
    assert (E : accSum a (runISR adcs s)
                = sumZ (lastn (Z.to_nat (accSize a)) (window a s ++ pushed a adcs s))).
    { rewrite (accSum_window a _ H'), Ew. reflexivity. }
    split; [reflexivity|]. split; [exact Ew|]. split; [exact E|].
    split; [|split; [exact E|]].
    + intros Hlen. rewrite E, Ew, lastn_app_long by exact Hlen. split; reflexivity.
    + intros Hlen. rewrite E, lastn_app_long by exact Hlen. reflexivity.
Qed.

(** 1K mode, 600 interrupts from tick 4, where sampling starts, with the ADC
    values 100, 101, ..., 699.  The near accumulator receives 150 samples; the
    last eight are the ADC values of ticks 572, 579, 582, 585, 588, 595, 598
    and 601, and the near sum is their sum, 5468.  The offset accumulator
    receives 19 samples, the ADC values of ticks 16, 48, ..., 592 with bit 9
    flipped; the offset sum is the sum of the last sixteen, 9216. *)
Lemma accumulators_exact_witness :
  (wellTyped sampleStart /\ irInvariant sampleStart /\ fanInvariant sampleStart)
  /\ (tickCounter sampleStart = 4 /\ running sampleStart = true
      /\ fan1Kmode sampleStart = true)
  /\ lastn 8 (samplesStored AccNear sampleRun 4 false true true)
     = [668; 675; 678; 681; 684; 691; 694; 697]
  /\ window AccNear (runISR sampleRun sampleStart)
     = [668; 675; 678; 681; 684; 691; 694; 697]
  /\ nearLedReadings (runISR sampleRun sampleStart)
     = [678; 681; 684; 691; 694; 697; 668; 675]
  /\ nearSumIR (runISR sampleRun sampleStart) = 5468
  /\ lastn 16 (samplesStored AccFanOffset sampleRun 4 false true true)
     = [720; 752; 784; 816; 848; 880; 912; 944; 976; 1008; 16; 48; 80; 112; 144; 176]
  /\ fanOffsetSum (runISR sampleRun sampleStart) = 9216.
Proof.
  assert (Ht : wellTyped sampleStart).
  { unfold wellTyped. vm_compute.
    repeat split; try discriminate; repeat constructor; discriminate. }
  assert (Hi : irInvariant sampleStart).
  { unfold irInvariant. vm_compute. repeat split; repeat constructor; discriminate. }
  assert (Hf : fanInvariant sampleStart).
  { unfold fanInvariant. vm_compute. repeat split; repeat constructor; discriminate. }
  destruct (accumulators_exact sampleStart sampleRun Ht Hi Hf) as [_ (_ & _ & _ & Hs)].
  pose proof (Hs AccNear) as (_ & _ & _ & Hn & _).
  pose proof (Hs AccFanOffset) as (_ & _ & _ & Ho & _).
  cbv zeta in Hn, Ho.
  destruct (Hn ltac:(vm_compute; lia)) as [Wn En].
  destruct (Ho ltac:(vm_compute; lia)) as [_ Eo].
  split; [exact (conj Ht (conj Hi Hf))|].
  split; [split; [|split]; vm_compute; reflexivity|].
  split; [vm_compute; reflexivity|].
  split; [vm_compute in Wn |- *; exact Wn|].
  split; [vm_compute; reflexivity|].
  split; [vm_compute in En |- *; exact En|].
  split; [vm_compute; reflexivity|].
  vm_compute in Eo |- *. exact Eo.
Defined.

(** ** C2: the phase table *)

(** C2, as the specification states it, fails: in 4K7 mode ([fan1Kmode] false)
    the handler at phase 0 stores into the fan reading accumulator whether
    bit 4 of the tick is set (tick 16) or clear (tick 32), and never into the
    offset accumulator; the choice is not gated by bit 4. *)
Lemma phase0_not_gated_by_bit4 :
  reachable tick16_4K7 /\ reachable tick32_4K7
  /\ running tick16_4K7 = true /\ running tick32_4K7 = true
  /\ fan1Kmode tick16_4K7 = false /\ fan1Kmode tick32_4K7 = false
  /\ tickCounter tick16_4K7 = 16 /\ tickCounter tick32_4K7 = 32
  /\ fst (ISR 700 tick16_4K7) = Some (AccFanReading, 700)
  /\ fst (ISR 700 tick32_4K7) = Some (AccFanReading, 700)
  /\ fanOffsets (snd (ISR 700 tick16_4K7)) = fanOffsets tick16_4K7
  /\ ~ phase0_gated_by_bit4.
Proof.
  assert (R16 : reachable tick16_4K7)
    by (exists 0, (startUp ++ ticks (fun _ => 0) 4 12); reflexivity).
  assert (R32 : reachable tick32_4K7)
    by (exists 0, (startUp ++ ticks (fun _ => 0) 4 28); reflexivity).
  do 2 (split; [assumption|]).
  do 9 (split; [vm_compute; reflexivity|]).
  intros (c & b & Hne & H).
  pose proof (H 700 tick16_4K7 R16 ltac:(vm_compute; reflexivity)
                ltac:(vm_compute; reflexivity)) as H16.
  pose proof (H 700 tick32_4K7 R32 ltac:(vm_compute; reflexivity)
                ltac:(vm_compute; reflexivity)) as H32.
  vm_compute in H16, H32. congruence.
Qed.

(** C2, amended.  One firing of the handler is the entry of [phaseTable] for
    the low five bits of the tick counter and the flags [running] and
    [fan1Kmode]; the flags stay and the five bits count on by one.  From a
    reachable state the sequence of (accumulator stored into, far LED drive,
    near LED drive, ADMUX) over any number of ticks depends on nothing but
    those five bits and the two flags, whatever the ADC values are.  The
    table, stores being made only while [running]: phase 0 stores into the fan
    reading accumulator, but in 1K mode with bit 4 of the tick set into the fan
    offset accumulator, and turns the far LED on; phases 3, 6, 9 store into
    near and turn the far LED on; phase 12 stores into near; phases 1, 4, 7, 10
    store into off, turn the far LED off and the near LED on; phases 2, 5, 8
    store into far and turn the near LED off; phase 11 does the same and
    selects the fan input (in 1K mode differential, polarity by bit 4);
    phases 13 and 14 only count the tick; phase 15 selects the
    phototransistor input. *)
Theorem phase_table_exact (adc : Z) (s : State) :
  let p := tickCounter s mod 16 in
  let bit4 := Z.testbit (tickCounter s) 4 in
  let adcVal := Z.land adc 1023 in
  let w := fst (ISR adc s) in
  let s' := snd (ISR adc s) in
  (ISR adc s = applyEntry (phaseTable p bit4 (running s) (fan1Kmode s)) adc s
   /\ running s' = running s /\ fan1Kmode s' = fan1Kmode s
   /\ tickCounter s' mod 32 = (tickCounter s mod 32 + 1) mod 32)
  /\ (forall adcs adcs2 s2,
         reachable s -> reachable s2 ->
         tickCounter s mod 32 = tickCounter s2 mod 32 ->
         running s = running s2 -> fan1Kmode s = fan1Kmode s2 ->
         length adcs = length adcs2 ->
         isrTrace adcs s = isrTrace adcs2 s2)
  /\ (p = 0 ->
      w = (if running s then
             Some (if fan1Kmode s then
                     (if bit4 then AccFanOffset else AccFanReading, Z.lxor adcVal 512)
                   else (AccFanReading, adcVal))
           else None)
      /\ farLed s' = PortBFarLedMask /\ nearLed s' = nearLed s /\ ADMUX s' = ADMUX s)
  /\ (p = 3 \/ p = 6 \/ p = 9 ->
      w = (if running s then Some (AccNear, adcVal) else None)
      /\ farLed s' = PortBFarLedMask /\ nearLed s' = nearLed s /\ ADMUX s' = ADMUX s)
  /\ (p = 12 ->
      w = (if running s then Some (AccNear, adcVal) else None)
      /\ farLed s' = farLed s /\ nearLed s' = nearLed s /\ ADMUX s' = ADMUX s)
  /\ (p = 1 \/ p = 4 \/ p = 7 \/ p = 10 ->
      w = (if running s then Some (AccOff, adcVal) else None)
      /\ farLed s' = 0 /\ nearLed s' = true /\ ADMUX s' = ADMUX s)
  /\ (p = 2 \/ p = 5 \/ p = 8 ->
      w = (if running s then Some (AccFar, adcVal) else None)
      /\ farLed s' = farLed s /\ nearLed s' = false /\ ADMUX s' = ADMUX s)
  /\ (p = 11 ->
      w = (if running s then Some (AccFar, adcVal) else None)
      /\ farLed s' = farLed s /\ nearLed s' = false
      /\ ADMUX s' = (if fan1Kmode s then (if bit4 then 19 else 51)
                     else Z.lor (BITVAL MUX1) (BITVAL MUX0)))
  /\ (p = 13 \/ p = 14 ->
      w = None /\ s' = set_tickCounter (wrap16 (tickCounter s + 1)) s)
  /\ (p = 15 ->
      w = None /\ farLed s' = farLed s /\ nearLed s' = nearLed s
      /\ ADMUX s' = BITVAL MUX0).
Proof.
  cbv zeta.
  pose proof (ISR_rows adc s) as H. cbv zeta in H.
  destruct H as (H1 & H2 & H3 & H4 & H).
  split; [auto|]. split; [|exact H].
  intros adcs adcs2 s2 R1 R2 Ht Hr Hk Hl.
  destruct (low5_phase s s2 Ht) as [Hp Hb].
  apply isrTrace_deterministic; auto using reachable_hwSync.
Qed.

(** Phase 0 in 1K mode at tick 16, and one 16-tick cycle from ticks 16 and
    48 with different ADC values. *)
Lemma phase_table_exact_witness :
  tickCounter tick16_1K mod 16 = 0
  /\ fst (ISR 700 tick16_1K) = Some (AccFanOffset, Z.lxor (Z.land 700 1023) 512)
  /\ farLed (snd (ISR 700 tick16_1K)) = PortBFarLedMask
  /\ (reachable tick16_1K /\ reachable tick48_1K)
  /\ isrTrace (seqZ 0 16) tick16_1K = isrTrace (replicate 16 1023) tick48_1K.
Proof.
  assert (R16 : reachable tick16_1K)
    by (exists 16, (startUp ++ ticks (fun _ => 0) 4 12); reflexivity).
  assert (R48 : reachable tick48_1K)
    by (exists 16, (startUp ++ ticks (fun _ => 5) 4 44); reflexivity).
  assert (Hp : tickCounter tick16_1K mod 16 = 0) by (vm_compute; reflexivity).
  destruct (phase_table_exact 700 tick16_1K) as (_ & Hd & H0 & _).
  destruct (H0 Hp) as (Hw & Hfar & _).
  split; [exact Hp|].
  split; [vm_compute in Hw |- *; exact Hw|].
  split; [vm_compute in Hfar |- *; exact Hfar|].
  split; [auto|].
  apply Hd; try assumption; vm_compute; reflexivity.
Defined.

(** ** C3: saturation takes precedence *)

(** C3.  When the near sum or the far sum read at the top of the loop is at
    least [saturatedThreshold] = 870 * [cyclesAveragedIR], the output is set
    to Saturated, whatever the off sum and the mode-select input are, and the
    fan poll that ends the iteration leaves it there. *)
Theorem saturation_precedence (pina locNearSum locFarSum locOffSum : Z) (s : State) :
  locNearSum >= saturatedThreshold \/ locFarSum >= saturatedThreshold ->
  saturatedThreshold = 870 * cyclesAveragedIR
  /\ outputLevel (sensorOutput pina locNearSum locFarSum locOffSum s) = Saturated
  /\ forall locTickCounter r,
      outputLevel (pollFan locTickCounter r
                     (sensorOutput pina locNearSum locFarSum locOffSum s)) = Saturated.
Proof.
  intros H. split; [reflexivity|].
  assert (E : outputLevel (sensorOutput pina locNearSum locFarSum locOffSum s) = Saturated).
  { unfold sensorOutput.
    replace ((locNearSum >=? saturatedThreshold) || (locFarSum >=? saturatedThreshold))
      with true.
    - apply outputLevel_SetOutput.
    - symmetry. apply orb_true_iff. rewrite !Z.geb_le. lia. }
  split; [exact E|].
  intros t r. rewrite outputLevel_pollFan. exact E.
Qed.

(** near = 900 * 8, far = 0, in differential mode, and in simple mode with a
    large off sum. *)
Lemma saturation_precedence_witness :
  (900 * 8 >= saturatedThreshold \/ 0 >= saturatedThreshold)
  /\ outputLevel (sensorOutput 1 (900 * 8) 0 0 (initialState 16)) = Saturated
  /\ outputLevel (sensorOutput 0 (900 * 8) 0 7000 (initialState 16)) = Saturated.
Proof.
  assert (H : 900 * 8 >= saturatedThreshold \/ 0 >= saturatedThreshold)
    by (left; vm_compute; discriminate).
  pose proof (proj1 (proj2 (saturation_precedence 1 (900 * 8) 0 0 (initialState 16) H)))
    as H1.
  pose proof (proj1 (proj2 (saturation_precedence 0 (900 * 8) 0 7000 (initialState 16) H)))
    as H2.
  split; [exact H|]. split; [exact H1|exact H2].
Defined.

(** ** C4: the baseline subtraction does not go below zero *)



(** ** C5: simple mode gives On or Off *)

(** C5.  With the Duet input low the output is never Approaching.  For a
    snapshot of [uint16_t] sums that is not saturated, with
    near' = max(0, near - off), it is On when near' >= [simpleNearThreshold]
    (that is, when near - off >= 240) and Off otherwise, whatever the far sum
    is; near' is what line 438 computes. *)
Theorem simple_mode_on_or_off (pina locNearSum locFarSum locOffSum : Z) (s : State) :
  Z.land pina (BITVAL PortADuetInputBit) = 0 ->
  let s' := sensorOutput pina locNearSum locFarSum locOffSum s in
  outputLevel s' <> Approaching
  /\ (locNearSum < saturatedThreshold -> locFarSum < saturatedThreshold ->
      outputLevel s'
      = (if subtractOff locNearSum locOffSum >=? simpleNearThreshold then On else Off))
  /\ (0 <= locNearSum < saturatedThreshold -> locFarSum < saturatedThreshold ->
      0 <= locOffSum < 65536 ->
      subtractOff locNearSum locOffSum = Z.max 0 (locNearSum - locOffSum)
      /\ outputLevel s'
         = (if simpleNearThreshold <=? Z.max 0 (locNearSum - locOffSum) then On else Off)
      /\ (simpleNearThreshold <= locNearSum - locOffSum -> outputLevel s' = On)
      /\ (locNearSum - locOffSum < simpleNearThreshold -> outputLevel s' = Off)).
Proof.
  intros Hp. cbv zeta.
  destruct (outputLevel_SetOutput s) as (Hoff & _ & Hon & Hsat).
  assert (Hsimple : locNearSum < saturatedThreshold -> locFarSum < saturatedThreshold ->
                    outputLevel (sensorOutput pina locNearSum locFarSum locOffSum s)
                    = (if subtractOff locNearSum locOffSum >=? simpleNearThreshold
                       then On else Off)).
  { intros Hn Hf. unfold sensorOutput. rewrite Hp. cbn [Z.eqb].
    replace ((locNearSum >=? saturatedThreshold) || (locFarSum >=? saturatedThreshold))
      with false.
    - destruct (subtractOff locNearSum locOffSum >=? simpleNearThreshold); assumption.
    - symmetry. apply orb_false_iff.
      split; [destruct (Z.geb_spec locNearSum saturatedThreshold)
             |destruct (Z.geb_spec locFarSum saturatedThreshold)]; first [reflexivity|lia]. }
  split; [|split; [exact Hsimple|]].
  - unfold sensorOutput. rewrite Hp. cbn [Z.eqb].
    destruct ((locNearSum >=? saturatedThreshold) || (locFarSum >=? saturatedThreshold));
      [rewrite Hsat; discriminate|].
    destruct (subtractOff locNearSum locOffSum >=? simpleNearThreshold);
      [rewrite Hon|rewrite Hoff]; discriminate.
  - intros Hn Hf Ho.
    assert (Hs : saturatedThreshold = 6960) by reflexivity.
    assert (Ht : simpleNearThreshold = 240) by reflexivity.
    assert (Em : subtractOff locNearSum locOffSum = Z.max 0 (locNearSum - locOffSum))
      by (apply subtractOff_max; lia).
    rewrite (Hsimple (proj2 Hn) Hf), Em.
    split; [reflexivity|].
    destruct (Z.geb_spec (Z.max 0 (locNearSum - locOffSum)) simpleNearThreshold),
      (Z.leb_spec simpleNearThreshold (Z.max 0 (locNearSum - locOffSum)));
      try lia; repeat split; intros; first [reflexivity|lia].
Qed.

(** Simple mode with an off sum of 100: a near sum of 339 gives near' = 239
    and Off, whatever the far sum is; a near sum of 340 gives near' = 240 and
    On; a near sum of 50, below the off sum, gives near' = 0 and Off.  near'
    = 100 and far' = 110 give Approaching in differential mode and Off in
    simple mode. *)
Lemma simple_mode_on_or_off_witness :
  (Z.land 0 (BITVAL PortADuetInputBit) = 0
   /\ 0 <= 339 < saturatedThreshold /\ 5000 < saturatedThreshold /\ 0 <= 100 < 65536)
  /\ outputLevel (sensorOutput 0 339 5000 100 (initialState 16)) = Off
  /\ outputLevel (sensorOutput 0 340 5000 100 (initialState 16)) = On
  /\ outputLevel (sensorOutput 0 50 0 100 (initialState 16)) = Off
  /\ outputLevel (sensorOutput 1 100 110 0 (initialState 16)) = Approaching
  /\ outputLevel (sensorOutput 0 100 110 0 (initialState 16)) = Off.
Proof.
  assert (Hp : Z.land 0 (BITVAL PortADuetInputBit) = 0) by reflexivity.
  assert (Hn : 0 <= 339 < saturatedThreshold) by (vm_compute; split; congruence).
  assert (Hn' : 0 <= 340 < saturatedThreshold) by (vm_compute; split; congruence).
  assert (Hn'' : 0 <= 50 < saturatedThreshold) by (vm_compute; split; congruence).
  assert (Hf : 5000 < saturatedThreshold) by reflexivity.
  assert (Hf' : 0 < saturatedThreshold) by reflexivity.
  assert (Ho : 0 <= 100 < 65536) by lia.
  destruct (simple_mode_on_or_off 0 339 5000 100 (initialState 16) Hp) as (_ & _ & H1).
  destruct (simple_mode_on_or_off 0 340 5000 100 (initialState 16) Hp) as (_ & _ & H2).
  destruct (simple_mode_on_or_off 0 50 0 100 (initialState 16) Hp) as (_ & _ & H3).
  destruct (simple_mode_on_or_off 0 100 110 0 (initialState 16) Hp) as (_ & H4 & _).
  destruct (H1 Hn Hf Ho) as (_ & _ & _ & E1).
  destruct (H2 Hn' Hf Ho) as (_ & _ & E2 & _).
  destruct (H3 Hn'' Hf' Ho) as (_ & _ & _ & E3).
  split; [exact (conj Hp (conj Hn (conj Hf Ho)))|].
  split; [apply E1; vm_compute; reflexivity|].
  split; [apply E2; vm_compute; discriminate|].
  split; [apply E3; vm_compute; reflexivity|].
  split; [vm_compute; reflexivity|].
  specialize (H4 ltac:(reflexivity) ltac:(reflexivity)).
  vm_compute in H4 |- *. exact H4.
Defined.

(** ** C6: the fan stays on for its minimum time *)

(** C6.  When a check switches the fan from off to on it sets the hold counter
    to [fanOnSeconds] * [fanSampleFreq] - 1 = 31.  After that check (cycle 0)
    the fan is on at the end of every run of the program that holds fewer than
    [fanOnSeconds] * [fanSampleFreq] further checks, whatever the sums read
    and whatever happens between the checks: it is on through cycles 0 to 31.
    A check is a poll that is due, [fanSampleIntervalTicks] after the last
    one.  Nothing but such a check in which the counter is zero switches the
    fan off. *)
Theorem fan_min_on_time (r : FanReads) (s : State) (es : list Step) :
  let s1 := step (StPollFan r) s in
  fanIsOn s = false ->
  fanIsOn s1 = true ->
  checkCycles es s1 < fanOnSeconds * fanSampleFreq ->
  fanChangeCount s1 = fanOnSeconds * fanSampleFreq - 1
  /\ fanIsOn (run es s1) = true
  /\ (forall e s', fanIsOn s' = true -> fanIsOn (step e s') = false ->
                   exists r', e = StPollFan r' /\ pollDue (tickCounter s') s' = true
                              /\ fanChangeCount s' = 0).
Proof.
  cbv zeta. cbn [step]. unfold pollFan. intros Hoff Hon Hes.
  destruct (pollDue (tickCounter s) s); [|congruence].
  unfold fanCheckCycle in *.
  change (fanIsOn (checkFanWith r s) = true) in Hon.
  pose proof (checkFanWith_turn_on r s Hoff Hon) as Hc.
  split; [exact Hc|]. split.
  - apply fan_hold; [exact Hon|].
    cbn [fanChangeCount set_lastFanSampleTicks]. rewrite Hc.
    change (fanOnSeconds * fanSampleFreq) with 32 in *. lia.
  - intros e s' Hon' Hoff'.
    destruct e as [adc| |pina n f o|r'].
    4: { exists r'. cbn [step] in Hoff'. unfold pollFan in Hoff'.
         destruct (pollDue (tickCounter s') s'); [|congruence].
         split; [reflexivity|]. split; [reflexivity|].
         apply (checkFanWith_turn_off r' s' Hon' Hoff'). }
    all: match goal with
         | H : fanIsOn (step ?e ?s0) = false |- _ =>
             destruct (fan_untouched e s0 ltac:(intros; discriminate)) as [Hf _]
         end; congruence.
Qed.

(** 4K7 mode.  The poll at tick 500 turns the fan on (cycle 0); the off
    conditions hold at every later poll; the fan is on after the poll at tick
    16000 (cycle 31) and off after the poll at tick 16500 (cycle 32). *)
Lemma fan_min_on_time_witness :
  (fanIsOn hotState = false
   /\ fanIsOn (step (StPollFan hotReads) hotState) = true
   /\ checkCycles coolChecks (step (StPollFan hotReads) hotState)
      < fanOnSeconds * fanSampleFreq)
  /\ fanIsOn (run coolChecks (step (StPollFan hotReads) hotState)) = true
  /\ fanIsOn (run (coolChecks ++ nextCoolCheck)
                  (step (StPollFan hotReads) hotState)) = false.
Proof.
  assert (H1 : fanIsOn hotState = false) by (vm_compute; reflexivity).
  assert (H2 : fanIsOn (step (StPollFan hotReads) hotState) = true)
    by (vm_compute; reflexivity).
  assert (H3 : checkCycles coolChecks (step (StPollFan hotReads) hotState)
               < fanOnSeconds * fanSampleFreq)
    by (vm_compute; reflexivity).
  destruct (fan_min_on_time hotReads hotState coolChecks H1 H2 H3) as (_ & H & _).
  split; [auto|]. split; [exact H|]. vm_compute. reflexivity.
Defined.

(** ** C7: the hold counter *)

(** C7, as the specification states it, fails.  4K7 mode at tick 1000, the
    fan switched on by the check at tick 500: the fan is on, the reading sum
    is below the reference by 368, between the connected threshold 112 and
    the off threshold 1248, and the hold counter is 31; the check takes the
    counter to 30. *)
Lemma hold_counter_decrements_when_eligible :
  reachable coolState
  /\ fanIsOn coolState = true
  /\ fanReadingSum coolState < fanOffsetSum coolState
  /\ thermistorConnectedThreshold coolState <= fanOffsetSum coolState - fanReadingSum coolState
     <= thermistorOffThreshold coolState
  /\ fanChangeCount coolState = 31
  /\ fanChangeCount (checkFan coolState) = 30.
Proof.
  split; [exists 0, coolRun; reflexivity|].
  repeat split; vm_compute; congruence.
Qed.

(** C7, amended.  In every invocation of [checkFan] with the fan on, whatever
    values its four reads of the two sums return (the reads are not bracketed,
    so an interrupt can change the sums between them), the hold counter goes
    down by one exactly when the values read pass the off test (the reading
    sum read for the comparison is below the offset sum read for it, and the
    16-bit difference [fanDiff] of the values read for the subtraction has
    connected threshold <= fanDiff <= off threshold) and the counter is not
    zero; when they pass it with the counter at zero the fan is switched off;
    when they do not pass it the invocation changes nothing, so the counter
    is never decremented there.  For an invocation that no interrupt preempts
    the values read are the two sums themselves. *)
Theorem hold_counter_decrement (r : FanReads) (s : State) :
  fanIsOn s = true -> 0 <= fanChangeCount s < 256 ->
  let fanDiff := wrap16 (diffOffset r - diffReading r) in
  let eligible :=
    cmpReading r < cmpOffset r
    /\ thermistorConnectedThreshold s <= fanDiff <= thermistorOffThreshold s in
  (fanChangeCount (checkFanWith r s) = fanChangeCount s - 1
   <-> eligible /\ fanChangeCount s <> 0)
  /\ (eligible -> fanChangeCount s <> 0 ->
      fanChangeCount (checkFanWith r s) = fanChangeCount s - 1
      /\ fanIsOn (checkFanWith r s) = true)
  /\ (eligible -> fanChangeCount s = 0 ->
      fanIsOn (checkFanWith r s) = false /\ fanChangeCount (checkFanWith r s) = 0)
  /\ (~ eligible -> checkFanWith r s = s)
  /\ (checkFan s = checkFanWith (readsOf s) s
      /\ fanChangeCount (checkFan s)
         = (if fanEligible s && negb (fanChangeCount s =? 0)
            then fanChangeCount s - 1 else fanChangeCount s)
      /\ (fanEligible s = true -> fanChangeCount s = 0 -> fanIsOn (checkFan s) = false)
      /\ (fanEligible s = false -> checkFan s = s)).
Proof.
  intros Hon Hc. cbv zeta.
  assert (Hdec : fanChangeCount (set_fanChangeCount (wrap8 (fanChangeCount s - 1)) s)
                 = fanChangeCount s - 1 <-> fanChangeCount s <> 0).
  { cbn [fanChangeCount set_fanChangeCount]. unfold wrap8. split.
    - intros E Hz. rewrite Hz in E. vm_compute in E. discriminate E.
    - intros Hz. apply Z.mod_small. change (2 ^ 8) with 256. lia. }
  assert (Hgen : forall r',
             let e := fanOffCond r' s in
             (fanChangeCount (checkFanWith r' s) = fanChangeCount s - 1
              <-> e = true /\ fanChangeCount s <> 0)
             /\ (e = true -> fanChangeCount s <> 0 ->
                 fanChangeCount (checkFanWith r' s) = fanChangeCount s - 1
                 /\ fanIsOn (checkFanWith r' s) = true)
             /\ (e = true -> fanChangeCount s = 0 ->
                 fanIsOn (checkFanWith r' s) = false
                 /\ fanChangeCount (checkFanWith r' s) = 0)
             /\ (e = false -> checkFanWith r' s = s)).
  { intros r'. cbv zeta. rewrite checkFanWith_cases, Hon.
    destruct (fanOffCond r' s).
    - destruct (Z.eqb_spec (fanChangeCount s) 0) as [E|E].
      + split; [|split; [|split]].
        * cbn [fanChangeCount set_PORTA]. split; [intros; lia|intros [_ Hz]; contradiction].
        * intros _ Hz. contradiction.
        * intros _ _. split; [apply fanIsOn_turn_off|exact E].
        * discriminate.
      + split; [|split; [|split]].
        * rewrite Hdec. tauto.
        * intros _ _. split; [apply Hdec; exact E|exact Hon].
        * intros _ Hz. contradiction.
        * discriminate.
    - split; [|split; [|split]]; try discriminate; [|reflexivity].
      split; [intros; lia|intros [Hf _]; discriminate Hf]. }
  split; [|split; [|split; [|split]]].
  - destruct (Hgen r) as (H1 & _). rewrite H1, fanOffCond_spec. reflexivity.
  - intros He. destruct (Hgen r) as (_ & H2 & _). apply H2, fanOffCond_spec, He.
  - intros He. destruct (Hgen r) as (_ & _ & H3 & _). apply H3, fanOffCond_spec, He.
  - intros He. destruct (Hgen r) as (_ & _ & _ & H4). apply H4.
    destruct (fanOffCond r s) eqn:E; [|reflexivity].
    exfalso. apply He, fanOffCond_spec, E.
  - assert (Ee : fanOffCond (readsOf s) s = fanEligible s).
    { unfold fanOffCond, fanEligible, readsOf. cbv zeta.
      cbn [cmpReading cmpOffset diffOffset diffReading].
      rewrite (Z.geb_leb (wrap16 _)), andb_assoc. reflexivity. }
    destruct (Hgen (readsOf s)) as (H1 & H2 & H3 & H4). rewrite Ee in *.
    fold (checkFan s) in *.
    split; [reflexivity|]. split; [|split].
    + destruct (fanEligible s).
      * destruct (Z.eqb_spec (fanChangeCount s) 0) as [E|E]; cbn [andb negb].
        -- destruct (H3 eq_refl E) as [_ H0]. lia.
        -- apply H2; [reflexivity|exact E].
      * cbn [andb]. rewrite (H4 eq_refl). reflexivity.
    + intros He Hz. apply H3; assumption.
    + exact H4.
Qed.

(** 4K7 mode at tick 1000 with the hold counter at 31.  The invocation that
    reads the sums as they are, 16000 and 16368, takes the counter to 30.  One
    whose subtraction reads a reading sum of 15000 after a comparison that
    read 16000 computes fanDiff = 1368, above the off threshold 1248: it
    leaves the counter at 31 and the state as it is. *)
Lemma hold_counter_decrement_witness :
  (fanIsOn coolState = true /\ 0 <= fanChangeCount coolState < 256)
  /\ fanChangeCount coolState = 31
  /\ readsOf coolState = mkFanReads 16000 16368 16368 16000
  /\ fanEligible coolState = true
  /\ fanChangeCount (checkFan coolState) = 30
  /\ fanChangeCount (checkFanWith (mkFanReads 16000 16368 16368 16000) coolState) = 30
  /\ fanChangeCount (checkFanWith (mkFanReads 16000 16368 16368 15000) coolState) = 31
  /\ checkFanWith (mkFanReads 16000 16368 16368 15000) coolState = coolState.
Proof.
  assert (H1 : fanIsOn coolState = true) by (vm_compute; reflexivity).
  assert (H2 : 0 <= fanChangeCount coolState < 256)
    by (vm_compute; split; [discriminate|reflexivity]).
  assert (Hc : fanChangeCount coolState = 31) by (vm_compute; reflexivity).
  destruct (hold_counter_decrement (mkFanReads 16000 16368 16368 16000) coolState H1 H2)
    as (_ & Ha & _ & _ & (_ & Hb & _)).
  destruct (hold_counter_decrement (mkFanReads 16000 16368 16368 15000) coolState H1 H2)
    as (_ & _ & _ & Hd & _).
  assert (Hs : checkFanWith (mkFanReads 16000 16368 16368 15000) coolState = coolState).
  { apply Hd. vm_compute. intros [_ [_ Hle]]. apply Hle. reflexivity. }
  split; [exact (conj H1 H2)|]. split; [exact Hc|].
  split; [vm_compute; reflexivity|]. split; [vm_compute; reflexivity|].
  split; [vm_compute in Hb |- *; exact Hb|].
  split.
  - assert (He : fanChangeCount
                   (checkFanWith (mkFanReads 16000 16368 16368 16000) coolState)
                 = fanChangeCount coolState - 1).
    { apply Ha; [vm_compute; repeat split; discriminate|rewrite Hc; discriminate]. }
    rewrite He, Hc. reflexivity.
  - split; [rewrite Hs; exact Hc|exact Hs].
Defined.

(** ** C8: a disconnected thermistor turns the fan on *)

(** C8.  A check with the fan off and [fanReadingSum] >= [fanOffsetSum] turns
    the fan on, whatever the three thresholds are; so does any check whose
    comparison reads a reading sum not below the offset sum. *)
Theorem fan_disconnect_safety (s : State) :
  fanIsOn s = false ->
  fanReadingSum s >= fanOffsetSum s ->
  fanIsOn (checkFan s) = true
  /\ forall r, cmpReading r >= cmpOffset r -> fanIsOn (checkFanWith r s) = true.
Proof.
  intros Hoff Hge.
  assert (H : forall r, cmpReading r >= cmpOffset r -> fanIsOn (checkFanWith r s) = true).
  { intros r Hr. unfold checkFanWith. unfold fanIsOn in Hoff. rewrite Hoff.
    destruct (Z.geb_spec (cmpReading r) (cmpOffset r)); [|lia].
    cbn [orb]. apply fanIsOn_turn_on. }
  split; [|exact H]. apply H. exact Hge.
Qed.

(** 1K mode at tick 500: reading sum 15827, offset sum 8192, fan off. *)
Lemma fan_disconnect_safety_witness :
  (fanIsOn disconnectedState = false
   /\ fanReadingSum disconnectedState >= fanOffsetSum disconnectedState)
  /\ fanIsOn (checkFan disconnectedState) = true.
Proof.
  assert (H1 : fanIsOn disconnectedState = false) by (vm_compute; reflexivity).
  assert (H2 : fanReadingSum disconnectedState >= fanOffsetSum disconnectedState)
    by (vm_compute; discriminate).
  split; [auto|]. exact (proj1 (fan_disconnect_safety disconnectedState H1 H2)).
Defined.

(** ** C9: the sums do not overflow *)

(** C9.  In every reachable state each sum is the exact sum of its array, the
    IR sums are at most 1023 * [cyclesAveragedIR] = 8184 and the fan sums at
    most 1023 * [fanSamplesAveraged] = 16368, below 2^16.  Every sample the
    handler stores is at most 1023 (the ADC value masked to ten bits, in 1K
    mode with bit 9 flipped), and the sum it computes for the store needs no
    wrap-around: sum - oldest + sample lies in 0 .. 2^16 - 1. *)
Theorem sums_never_overflow (s : State) :
  reachable s ->
  (wellTyped s /\ irInvariant s /\ fanInvariant s)
  /\ (0 <= nearSumIR s <= 1023 * cyclesAveragedIR
      /\ 0 <= farSumIR s <= 1023 * cyclesAveragedIR
      /\ 0 <= offSumIR s <= 1023 * cyclesAveragedIR
      /\ 0 <= fanReadingSum s <= 1023 * fanSamplesAveraged
      /\ 0 <= fanOffsetSum s <= 1023 * fanSamplesAveraged)
  /\ (1023 * cyclesAveragedIR = 8184 /\ 1023 * fanSamplesAveraged = 16368
      /\ 16368 < 2 ^ 16)
  /\ (forall adc a v,
         fst (ISR adc s) = Some (a, v) ->
         0 <= v <= 1023
         /\ 0 <= accSum a s - readAt (accSlots a s) (accIndex a s) + v < 2 ^ 16
         /\ accSum a (snd (ISR adc s))
            = accSum a s - readAt (accSlots a s) (accIndex a s) + v).
Proof.
  intros Hr. pose proof (reachable_Inv s Hr) as HI.
  split; [apply Inv_elim, HI|]. split.
  - destruct HI as [(L1 & A1 & ->) (L2 & A2 & ->) (L3 & A3 & ->) (L4 & A4 & ->)
                     (L5 & A5 & ->) _ _ _ _].
    pose proof (sumZ_bounds _ _ A1). pose proof (sumZ_bounds _ _ A2).
    pose proof (sumZ_bounds _ _ A3). pose proof (sumZ_bounds _ _ A4).
    pose proof (sumZ_bounds _ _ A5).
    rewrite L1 in *. rewrite L2 in *. rewrite L3 in *. rewrite L4 in *. rewrite L5 in *.
    change (Z.of_nat (Z.to_nat cyclesAveragedIR)) with cyclesAveragedIR in *.
    change (Z.of_nat (Z.to_nat fanSamplesAveraged)) with fanSamplesAveraged in *.
    repeat split; lia.
  - split; [repeat split; reflexivity|].
    intros adc a v. apply ISR_store_exact, HI.
Qed.

Lemma sums_never_overflow_witness :
  reachable tornStart
  /\ 0 <= fanReadingSum tornStart <= 1023 * fanSamplesAveraged
  /\ accSum AccFanReading (snd (ISR 511 tornStart))
     = accSum AccFanReading tornStart
       - readAt (accSlots AccFanReading tornStart) (accIndex AccFanReading tornStart)
       + 1023.
Proof.
  assert (R : reachable tornStart) by (exists 16, tornRun; reflexivity).
  destruct (sums_never_overflow tornStart R) as (_ & (_ & _ & _ & Hb & _) & _ & Hs).
  assert (Hw : fst (ISR 511 tornStart) = Some (AccFanReading, 1023))
    by (vm_compute; reflexivity).
  split; [exact R|]. split; [exact Hb|].
  exact (proj2 (proj2 (Hs 511 AccFanReading 1023 Hw))).
Defined.

(** ** C10: the reads of the sums and the interrupt mask *)

(** C10 does not hold of [checkFan].  The three IR sums are read between
    [cli()] and [sei()]; the four reads of [fanReadingSum] and [fanOffsetSum]
    in [checkFan] are made with interrupts enabled.  From the reachable state
    [tornStart] (1K mode, tick 4000, a fan poll due) an interrupt with ADC
    value 511 between the comparison and the subtraction makes the comparison
    read 7808 < 8192 and the subtraction read 8192 - 8343: the reading sum of
    the guard is not the one subtracted, and [fanDiff] wraps to 65385. *)
Theorem checkFan_reads_unbracketed :
  bracketed true snapshotOps = true
  /\ bracketed true tickReadOps = true
  /\ bracketed true checkFanOps = false
  /\ reachable tornStart
  /\ fst (exec checkFanOps tornSchedule [] true tornStart)
     = [cmpReading tornReads; cmpOffset tornReads; diffOffset tornReads; diffReading tornReads]
  /\ cmpReading tornReads <> diffReading tornReads
  /\ cmpReading tornReads < cmpOffset tornReads
  /\ diffOffset tornReads < diffReading tornReads
  /\ wrap16 (diffOffset tornReads - diffReading tornReads) = 65385
  /\ tickCounter tornStart = 4000
  /\ pollDue (tickCounter tornStart) tornStart = true.
Proof.
  split; [reflexivity|]. split; [reflexivity|]. split; [reflexivity|].
  split; [exists 16, tornRun; reflexivity|].
  split; [vm_compute; reflexivity|].
  split; [vm_compute; discriminate|].
  do 4 (split; [vm_compute; reflexivity|]).
  vm_compute. reflexivity.
Qed.

(** * Further properties of the code *)

(** ** The delay loop *)

Lemma shortDelayLoop_run (k : nat) :
  forall fuel i n nops,
    0 <= i -> n <= 255 -> n - i = Z.of_nat k -> (k < fuel)%nat ->
    shortDelayLoop fuel i n nops = Some (nops + 4 * (n - i)).
Proof.
  induction k as [|k IH]; intros fuel i n nops Hi Hn Hk Hf.
  - destruct fuel as [|fuel]; [lia|]. cbn [shortDelayLoop].
    destruct (Z.ltb_spec i n); [lia|]. f_equal. lia.
  - destruct fuel as [|fuel]; [lia|]. cbn [shortDelayLoop].
    destruct (Z.ltb_spec i n); [|lia].
    assert (Hw : wrap8 (i + 1) = i + 1).
    { unfold wrap8. apply Z.mod_small. change (2 ^ 8) with 256. lia. }
    rewrite Hw, IH by lia. f_equal. lia.
Qed.

(** X1.  [shortDelay(n)] returns for every [uint8_t] argument, 255 included:
    the counter reaches [n] without wrapping, after exactly [n] iterations of
    four [nop]s, whenever more than [n] tests of the loop condition are
    allowed; with [n] tests or fewer the loop is still running. *)
Theorem shortDelay_iterations (fuel : nat) (n : Z) :
  0 <= n <= 255 ->
  ((Z.to_nat n < fuel)%nat -> shortDelay fuel n = Some (4 * n))
  /\ ((fuel <= Z.to_nat n)%nat -> shortDelay fuel n = None).
Proof.
  intros Hn. split.
  - intros Hf. unfold shortDelay.
    rewrite (shortDelayLoop_run (Z.to_nat n)) by lia. f_equal. lia.
  - unfold shortDelay. generalize 0 at 2 as nops.
    assert (H : forall fuel i nops, 0 <= i -> (fuel <= Z.to_nat (n - i))%nat ->
                                    shortDelayLoop fuel i n nops = None).
    { clear fuel. induction fuel as [|fuel IH]; intros i nops Hi Hf; [reflexivity|].
      cbn [shortDelayLoop]. destruct (Z.ltb_spec i n); [|lia].
      assert (Hw : wrap8 (i + 1) = i + 1).
      { unfold wrap8. apply Z.mod_small. change (2 ^ 8) with 256. lia. }
      rewrite Hw. apply IH; lia. }
    intros nops Hf. apply H; [lia|]. replace (n - 0) with n by lia. exact Hf.
Qed.

Lemma shortDelay_iterations_witness :
  0 <= 255 <= 255 /\ shortDelay 256 255 = Some 1020 /\ shortDelay 255 255 = None.
Proof.
  assert (H : 0 <= 255 <= 255) by lia.
  pose proof (shortDelay_iterations 256 255 H) as [H1 _].
  pose proof (shortDelay_iterations 255 255 H) as [_ H2].
  split; [exact H|]. split; [apply H1; vm_compute; lia | apply H2; vm_compute; lia].
Defined.

(** ** Who writes which pin *)

Lemma testbit_neg (p n : Z) : n < 0 -> Z.testbit p n = false.
Proof. apply Z.testbit_neg_r. Qed.

Lemma testbit_set' p k n :
  0 <= k -> Z.testbit (Z.lor p (BITVAL k)) n = Z.testbit p n || (k =? n).
Proof.
  intros Hk. destruct (Z.ltb_spec n 0).
  - rewrite !testbit_neg by lia. symmetry. apply Z.eqb_neq. lia.
  - apply testbit_set; lia.
Qed.

Lemma testbit_clear' p k n :
  0 <= k -> Z.testbit (Z.land p (Z.lnot (BITVAL k))) n = Z.testbit p n && negb (k =? n).
Proof.
  intros Hk. destruct (Z.ltb_spec n 0).
  - rewrite !testbit_neg by lia. reflexivity.
  - apply testbit_clear; lia.
Qed.

Lemma testbit_byte_high c n : 0 <= c < 256 -> 8 <= n -> Z.testbit c n = false.
Proof.
  intros Hc Hn. destruct (Z.eq_dec c 0) as [->|Hne]; [apply Z.bits_0|].
  apply Z.bits_above_log2; [lia|].
  assert (Z.log2 c < 8); [|lia]. apply Z.log2_lt_pow2; lia.
Qed.

Lemma bit_cases n :
  0 <= n < 8 -> n = 0 \/ n = 1 \/ n = 2 \/ n = 3 \/ n = 4 \/ n = 5 \/ n = 6 \/ n = 7.
Proof. lia. Qed.

Lemma testbit_farMask n : 2 <= n -> Z.testbit PortBFarLedMask n = false.
Proof.
  intros Hn. apply Z.bits_above_log2; [vm_compute; discriminate|].
  change (Z.log2 PortBFarLedMask) with 1. lia.
Qed.

Lemma setLeds_PORTB_other l s n :
  2 <= n -> Z.testbit (PORTB (setLeds l s)) n = Z.testbit (PORTB s) n.
Proof.
  intros Hn. destruct l; cbn [setLeds]; cbn -[Z.land Z.lor Z.lnot PortBFarLedMask]; try reflexivity.
  - rewrite Z.lor_spec, testbit_farMask by lia. apply orb_false_r.
  - rewrite Z.land_spec, Z.lnot_spec, testbit_farMask by lia. apply andb_true_r.
Qed.

Lemma setLeds_PORTA_other' l s n :
  n <> PortANearLedBit -> Z.testbit (PORTA (setLeds l s)) n = Z.testbit (PORTA s) n.
Proof.
  intros Hn. destruct (Z.ltb_spec n 0).
  - rewrite !testbit_neg by lia. reflexivity.
  - apply setLeds_PORTA_other; assumption.
Qed.

Section EntryFrame.

Variables (e : PhaseEntry) (adc : Z) (s : State).

Local Abbreviation s' := (snd (applyEntry e adc s)).

Ltac entry_cases :=
  unfold applyEntry, logOf; destruct e as [[[]|] [] []]; reflexivity.

Lemma applyEntry_lastFanSampleTicks : lastFanSampleTicks s' = lastFanSampleTicks s.
Proof. entry_cases. Qed.

Lemma applyEntry_thresholds :
  thermistorConnectedThreshold s' = thermistorConnectedThreshold s
  /\ thermistorOnThreshold s' = thermistorOnThreshold s
  /\ thermistorOffThreshold s' = thermistorOffThreshold s.
Proof. unfold applyEntry, logOf; destruct e as [[[]|] [] []]; repeat split. Qed.

End EntryFrame.

Lemma ISR_PORTA_other adc s n :
  n <> PortANearLedBit -> Z.testbit (PORTA (snd (ISR adc s))) n = Z.testbit (PORTA s) n.
Proof.
  intros Hn. rewrite ISR_phaseTable, applyEntry_PORTA. apply setLeds_PORTA_other'. exact Hn.
Qed.

Lemma ISR_PORTB_other adc s n :
  2 <= n -> Z.testbit (PORTB (snd (ISR adc s))) n = Z.testbit (PORTB s) n.
Proof.
  intros Hn. rewrite ISR_phaseTable, applyEntry_PORTB. apply setLeds_PORTB_other. exact Hn.
Qed.

Lemma ISR_foreground_vars adc s :
  let s' := snd (ISR adc s) in
  fanChangeCount s' = fanChangeCount s
  /\ lastFanSampleTicks s' = lastFanSampleTicks s
  /\ running s' = running s /\ fan1Kmode s' = fan1Kmode s
  /\ thermistorConnectedThreshold s' = thermistorConnectedThreshold s
  /\ thermistorOnThreshold s' = thermistorOnThreshold s
  /\ thermistorOffThreshold s' = thermistorOffThreshold s.
Proof.
  cbv zeta. rewrite ISR_phaseTable.
  rewrite applyEntry_fanChangeCount, applyEntry_lastFanSampleTicks, applyEntry_running,
    applyEntry_fan1Kmode.
  pose proof (applyEntry_thresholds
                (phaseTable (phaseOf s) (bit4Of s) (running s) (fan1Kmode s)) adc s).
  tauto.
Qed.

(** X2.  The interrupt handler writes one pin of port A, the near LED drive,
    and the two far LED pins of port B.  Over any sequence of interrupts
    every other bit of the two ports keeps its value, so the fan output and
    the level shown to the Duet are untouched; so are the variables of the
    foreground code: the hold counter, the time of the last fan sample, the
    [running] flag, the series resistor mode and the three thresholds. *)
Theorem handler_frame (adcs : list Z) (s : State) :
  let s' := runISR adcs s in
  (forall n, n <> PortANearLedBit -> Z.testbit (PORTA s') n = Z.testbit (PORTA s) n)
  /\ (forall n, 2 <= n -> Z.testbit (PORTB s') n = Z.testbit (PORTB s) n)
  /\ fanIsOn s' = fanIsOn s
  /\ outputLevel s' = outputLevel s
  /\ fanChangeCount s' = fanChangeCount s
  /\ lastFanSampleTicks s' = lastFanSampleTicks s
  /\ running s' = running s /\ fan1Kmode s' = fan1Kmode s
  /\ thermistorConnectedThreshold s' = thermistorConnectedThreshold s
  /\ thermistorOnThreshold s' = thermistorOnThreshold s
  /\ thermistorOffThreshold s' = thermistorOffThreshold s.
Proof.
  cbv zeta.
  assert (HA : forall n, n <> PortANearLedBit ->
                         Z.testbit (PORTA (runISR adcs s)) n = Z.testbit (PORTA s) n).
  { revert s. induction adcs as [|adc adcs IH]; intros s n Hn; [reflexivity|].
    rewrite runISR_cons, IH by exact Hn. apply ISR_PORTA_other. exact Hn. }
  split; [exact HA|]. split.
  { clear HA. revert s. induction adcs as [|adc adcs IH]; intros s n Hn; [reflexivity|].
    rewrite runISR_cons, IH by exact Hn. apply ISR_PORTB_other. exact Hn. }
  split. { rewrite !fanIsOn_testbit. apply HA. discriminate. }
  split. { apply outputLevel_same_bits; apply HA; discriminate. }
  clear HA. revert s. induction adcs as [|adc adcs IH]; intros s; [repeat split|].
  rewrite runISR_cons.
  destruct (IH (snd (ISR adc s))) as (-> & -> & -> & -> & -> & -> & ->).
  apply ISR_foreground_vars.
Qed.

Lemma PORTA_SetOutput n s :
  n <> PortADuet13KOutputBit -> n <> PortADuet10KOutputBit ->
  Z.testbit (PORTA (SetOutputOff s)) n = Z.testbit (PORTA s) n
  /\ Z.testbit (PORTA (SetOutputApproaching s)) n = Z.testbit (PORTA s) n
  /\ Z.testbit (PORTA (SetOutputOn s)) n = Z.testbit (PORTA s) n
  /\ Z.testbit (PORTA (SetOutputSaturated s)) n = Z.testbit (PORTA s) n.
Proof.
  intros H13 H10.
  assert (E13 : (PortADuet13KOutputBit =? n) = false) by (apply Z.eqb_neq; congruence).
  assert (E10 : (PortADuet10KOutputBit =? n) = false) by (apply Z.eqb_neq; congruence).
  unfold SetOutputOff, SetOutputApproaching, SetOutputOn, SetOutputSaturated.
  cbn -[Z.land Z.lor Z.lnot BITVAL PortADuet13KOutputBit PortADuet10KOutputBit].
  rewrite ?testbit_set', ?testbit_clear', ?testbit_set', ?testbit_clear', ?E13, ?E10
    by discriminate.
  rewrite ?orb_false_r, ?andb_true_r. repeat split.
Qed.

Lemma PORTA_sensorOutput pina a b c n s :
  n <> PortADuet13KOutputBit -> n <> PortADuet10KOutputBit ->
  Z.testbit (PORTA (sensorOutput pina a b c s)) n = Z.testbit (PORTA s) n.
Proof.
  intros H13 H10. destruct (PORTA_SetOutput n s H13 H10) as (H1 & H2 & H3 & H4).
  unfold sensorOutput. repeat case_match; assumption.
Qed.

Lemma PORTA_checkFanWith r n s :
  n < 8 -> n <> PortAFanControlBit ->
  Z.testbit (PORTA (checkFanWith r s)) n = Z.testbit (PORTA s) n.
Proof.
  intros H8 H5. unfold checkFanWith.
  repeat case_match; try reflexivity;
    cbn -[Z.land Z.lor Z.lnot BITVAL PortAFanControlBit wrap8].
  - destruct (Z.ltb_spec n 0); [rewrite !testbit_neg by lia; reflexivity|].
    rewrite Z.land_spec.
    change (wrap8 (Z.lnot (BITVAL PortAFanControlBit))) with 223.
    destruct (bit_cases n ltac:(lia)) as [->|[->|[->|[->|[->|[->|[->| ->]]]]]]];
      try (exfalso; apply H5; reflexivity); cbn; apply andb_true_r.
  - rewrite testbit_set' by discriminate.
    replace (PortAFanControlBit =? n) with false; [apply orb_false_r|].
    symmetry. apply Z.eqb_neq. congruence.
Qed.

Lemma PORTA_pollFan t r n s :
  n < 8 -> n <> PortAFanControlBit ->
  Z.testbit (PORTA (pollFan t r s)) n = Z.testbit (PORTA s) n.
Proof.
  intros H8 H5. unfold pollFan, fanCheckCycle. case_match; [|reflexivity].
  cbn. apply PORTA_checkFanWith; assumption.
Qed.

Lemma lastFanSampleTicks_sensorOutput pina a b c s :
  lastFanSampleTicks (sensorOutput pina a b c s) = lastFanSampleTicks s
  /\ running (sensorOutput pina a b c s) = running s.
Proof. unfold sensorOutput. repeat case_match; split; reflexivity. Qed.

(** X3.  The foreground code leaves alone what the handler owns.  A step of
    the foreground loop changes none of the sums, arrays, indices, thresholds,
    nor the tick counter, PORTB or ADMUX, and not the near LED pin.  Setting
    the output changes only the two Duet pins of port A and neither the fan
    pin nor the fan's variables; a fan poll changes only the fan pin among
    the eight pins and leaves the output level as it is. *)
Theorem foreground_frame (e : Step) (s : State) :
  (forall adc, e <> StISR adc) ->
  sameData s (step e s)
  /\ nearLed (step e s) = nearLed s
  /\ match e with
     | StISR _ => True
     | StStart =>
         PORTA (step e s) = PORTA s /\ fanChangeCount (step e s) = fanChangeCount s
     | StOutput _ _ _ _ =>
         (forall n, n <> PortADuet13KOutputBit -> n <> PortADuet10KOutputBit ->
                    Z.testbit (PORTA (step e s)) n = Z.testbit (PORTA s) n)
         /\ fanIsOn (step e s) = fanIsOn s
         /\ fanChangeCount (step e s) = fanChangeCount s
         /\ lastFanSampleTicks (step e s) = lastFanSampleTicks s
         /\ running (step e s) = running s
     | StPollFan _ =>
         (forall n, n < 8 -> n <> PortAFanControlBit ->
                    Z.testbit (PORTA (step e s)) n = Z.testbit (PORTA s) n)
         /\ outputLevel (step e s) = outputLevel s
         /\ running (step e s) = running s
     end.
Proof.
  intros Hfg. split; [|split].
  - destruct e; cbn [step];
      [exfalso; eapply Hfg; reflexivity | apply sameData_startRunning
       | apply sameData_sensorOutput | apply sameData_pollFan].
  - destruct e; cbn [step].
    + exfalso; eapply Hfg; reflexivity.
    + unfold startRunning. case_match; reflexivity.
    + apply nearLed_sensorOutput.
    + unfold pollFan, fanCheckCycle. case_match; [|reflexivity].
      rewrite <- (nearLed_checkFanWith r s). reflexivity.
  - destruct e as [adc| |pina a b c|r]; [exact I| | |].
    + cbn [step]. unfold startRunning. case_match; split; reflexivity.
    + destruct (fan_untouched (StOutput pina a b c) s ltac:(discriminate)) as [H1 H2].
      split; [intros n H13 H10; apply PORTA_sensorOutput; assumption|].
      split; [exact H1|]. split; [exact H2|]. apply lastFanSampleTicks_sensorOutput.
    + cbn [step]. split; [intros n H8 H5; apply PORTA_pollFan; assumption|].
      split; [apply outputLevel_pollFan|].
      unfold pollFan, fanCheckCycle, checkFanWith. repeat case_match; reflexivity.
Qed.

(** The first fan check of the 4K7 example, which turns the fan on, and an
    output step. *)
Lemma foreground_frame_witness :
  (forall adc, StPollFan hotReads <> StISR adc)
  /\ fanIsOn hotState = false
  /\ fanIsOn (step (StPollFan hotReads) hotState) = true
  /\ nearSumIR (step (StPollFan hotReads) hotState) = nearSumIR hotState
  /\ outputLevel (step (StPollFan hotReads) hotState) = outputLevel hotState
  /\ nearLed (step (StOutput 1 7000 0 0) hotState) = nearLed hotState.
Proof.
  assert (H1 : forall adc, StPollFan hotReads <> StISR adc) by discriminate.
  assert (H2 : forall adc, StOutput 1 7000 0 0 <> StISR adc) by discriminate.
  pose proof (foreground_frame (StPollFan hotReads) hotState H1) as (Hd & _ & _ & Ho & _).
  pose proof (foreground_frame (StOutput 1 7000 0 0) hotState H2) as (_ & Hn & _).
  split; [exact H1|]. split; [vm_compute; reflexivity|]. split; [vm_compute; reflexivity|].
  split; [exact (same_nearSumIR _ _ Hd)|]. split; [exact Ho|exact Hn].
Defined.

Lemma initialState_ports pina :
  PORTA (initialState pina) = 17 /\ PORTB (initialState pina) = 4.
Proof. destruct (initialState_cases pina) as [-> | ->]; split; vm_compute; reflexivity. Qed.

Lemma step_pinsKept e s : pinsKept s -> pinsKept (step e s).
Proof.
  intros [HA HB]. split.
  - intros n H2 H5 H6 H7. rewrite <- (HA n H2 H5 H6 H7).
    destruct e as [adc| |pina a b c|r]; cbn [step].
    + apply ISR_PORTA_other. exact H6.
    + unfold startRunning. case_match; reflexivity.
    + apply PORTA_sensorOutput; assumption.
    + destruct (Z.ltb_spec n 8); [apply PORTA_pollFan; assumption|].
      unfold pollFan, fanCheckCycle. case_match; [|reflexivity].
      cbn. unfold checkFanWith.
      repeat case_match; try reflexivity;
        cbn -[Z.land Z.lor Z.lnot BITVAL PortAFanControlBit wrap8].
      * rewrite Z.land_spec, (HA n H2 H5 H6 H7), (testbit_byte_high 17) by lia. reflexivity.
      * rewrite testbit_set' by discriminate.
        replace (PortAFanControlBit =? n) with false; [apply orb_false_r|].
        symmetry. apply Z.eqb_neq. congruence.
  - intros n Hn. rewrite <- (HB n Hn).
    destruct e as [adc| |pina a b c|r]; cbn [step].
    + apply ISR_PORTB_other. exact Hn.
    + f_equal. apply (same_PORTB _ _ (sameData_startRunning s)).
    + f_equal. apply (same_PORTB _ _ (sameData_sensorOutput pina a b c s)).
    + f_equal. apply (same_PORTB _ _ (sameData_pollFan (tickCounter s) r s)).
Qed.

Lemma run_pinsKept pina es : pinsKept (run es (initialState pina)).
Proof.
  induction es as [|e es IH] using rev_ind.
  - destruct (initialState_ports pina) as [HA HB]. cbn [run foldl]. split; intros.
    + rewrite HA. reflexivity.
    + rewrite HB. reflexivity.
  - rewrite run_snoc. apply step_pinsKept. exact IH.
Qed.

Lemma byte_of_bits p :
  (forall n, 8 <= n -> Z.testbit p n = false) -> 0 <= p < 256.
Proof.
  intros H. assert (E : p = p mod 2 ^ 8).
  { rewrite <- Z.land_ones by lia. apply Z.bits_inj'. intros n Hn.
    rewrite Z.land_spec. destruct (Z.ltb_spec n 8).
    - rewrite Z.ones_spec_low by lia. symmetry. apply andb_true_r.
    - rewrite H by lia. reflexivity. }
  pose proof (Z.mod_pos_bound p (2 ^ 8) ltac:(lia)). change (2 ^ 8) with 256 in *. lia.
Qed.

(** X4.  In every state of every run from start-up the program has changed
    only pins that [main()] made outputs: PORTA differs from its initial value
    within DDRA (the two Duet pins, the fan pin and the near LED pin) and
    PORTB within DDRB (the far LED pins).  The pull-ups of the Duet input and
    of the series resistor sense input stay enabled, the two ADC input pins
    whose digital buffers DIDR0 disables never get a pull-up, the pull-up of
    the unused pin PB2 stays enabled, and both registers hold 8-bit values. *)
Theorem pins_configured (pina : Z) (es : list Step) :
  let s := run es (initialState pina) in
  Z.land (Z.lxor (PORTA s) (PORTA (initialState pina))) (Z.lnot DDRA) = 0
  /\ Z.land (Z.lxor (PORTB s) (PORTB (initialState pina))) (Z.lnot DDRB) = 0
  /\ Z.testbit (PORTA s) PortADuetInputBit = true
  /\ Z.testbit (PORTA s) PortASeriesResistorSenseBit = true
  /\ Z.land (PORTA s) DIDR0 = 0
  /\ Z.land (PORTB s) PortBUnusedBitMask = PortBUnusedBitMask
  /\ 0 <= PORTA s < 256 /\ 0 <= PORTB s < 256.
Proof.
  cbv zeta. destruct (run_pinsKept pina es) as [HA HB].
  destruct (initialState_ports pina) as [-> ->].
  set (s := run es (initialState pina)) in *.
  split; [|split; [|split; [|split; [|split; [|split; [|split]]]]]].
  - apply Z.bits_inj'. intros n Hn. rewrite Z.land_spec, Z.lxor_spec, Z.lnot_spec, Z.bits_0 by lia.
    destruct (Z.ltb_spec n 8).
    + destruct (bit_cases n ltac:(lia)) as [->|[->|[->|[->|[->|[->|[->| ->]]]]]]];
        try (rewrite HA by discriminate; reflexivity);
        change (Z.testbit DDRA _) with true; cbn; apply andb_false_r.
    + rewrite HA by (unfold PortADuet13KOutputBit, PortAFanControlBit, PortANearLedBit,
                       PortADuet10KOutputBit; lia).
      rewrite xorb_nilpotent. reflexivity.
  - apply Z.bits_inj'. intros n Hn. rewrite Z.land_spec, Z.lxor_spec, Z.lnot_spec, Z.bits_0 by lia.
    destruct (Z.ltb_spec n 2).
    + assert (Hc : n = 0 \/ n = 1) by lia.
      destruct Hc as [-> | ->]; change (Z.testbit DDRB _) with true; cbn; apply andb_false_r.
    + rewrite HB by lia. rewrite xorb_nilpotent. reflexivity.
  - rewrite HA by discriminate. reflexivity.
  - rewrite HA by discriminate. reflexivity.
  - apply Z.bits_inj'. intros n Hn. rewrite Z.land_spec, Z.bits_0.
    destruct (Z.eq_dec n 1) as [->|H1]; [rewrite HA by discriminate; reflexivity|].
    destruct (Z.eq_dec n 3) as [->|H3]; [rewrite HA by discriminate; reflexivity|].
    replace (Z.testbit DIDR0 n) with false; [apply andb_false_r|].
    change DIDR0 with 10. destruct (Z.ltb_spec n 8).
    + destruct (bit_cases n ltac:(lia)) as [->|[->|[->|[->|[->|[->|[->| ->]]]]]]];
        try reflexivity; congruence.
    + symmetry. apply testbit_byte_high; lia.
  - apply Z.bits_inj'. intros n Hn. rewrite Z.land_spec.
    change PortBUnusedBitMask with 4.
    destruct (Z.eq_dec n 2) as [->|H2]; [rewrite HB by lia; reflexivity|].
    replace (Z.testbit 4 n) with false; [apply andb_false_r|].
    destruct (Z.ltb_spec n 8).
    + destruct (bit_cases n ltac:(lia)) as [->|[->|[->|[->|[->|[->|[->| ->]]]]]]];
        try reflexivity; congruence.
    + symmetry. apply testbit_byte_high; lia.
  - apply byte_of_bits. intros n Hn.
    rewrite HA by (unfold PortADuet13KOutputBit, PortAFanControlBit, PortANearLedBit,
                     PortADuet10KOutputBit; lia).
    apply testbit_byte_high; lia.
  - apply byte_of_bits. intros n Hn. rewrite HB by lia. apply testbit_byte_high; lia.
Qed.

(** ** LEDs, multiplexer and the samples stored *)

(** X5.  In every reachable state at most one LED is driven, the far LED
    pins are both on or both off, a driven LED goes with the phototransistor
    input selected, and ADMUX holds one of the four values the program
    writes. *)
Theorem leds_exclusive (s : State) :
  reachable s ->
  (farLed s = 0 \/ nearLed s = false)
  /\ (farLed s = 0 \/ farLed s = PortBFarLedMask)
  /\ (farLed s <> 0 \/ nearLed s = true -> ADMUX s = BITVAL MUX0)
  /\ (ADMUX s = BITVAL MUX0 \/ ADMUX s = Z.lor (BITVAL MUX1) (BITVAL MUX0)
      \/ ADMUX s = 19 \/ ADMUX s = 51).
Proof.
  intros Hr. pose proof (reachable_hwSync s Hr) as H. unfold hwSync, hwBefore, fanMux in H.
  repeat case_match; injection H as -> -> ->;
    (split; [auto|]; split; [auto|]; split; [intros [?|?]; first [reflexivity|congruence]|]);
    auto.
Qed.

Lemma leds_exclusive_witness :
  reachable tick16_1K
  /\ farLed (snd (ISR 0 tick16_1K)) = PortBFarLedMask
  /\ (farLed (snd (ISR 0 tick16_1K)) = 0 \/ nearLed (snd (ISR 0 tick16_1K)) = false).
Proof.
  assert (Hr : reachable (snd (ISR 0 tick16_1K))).
  { exists 16, (startUp ++ ticks (fun _ => 0) 4 12 ++ [StISR 0]). vm_compute. reflexivity. }
  assert (Hr0 : reachable tick16_1K).
  { exists 16, (startUp ++ ticks (fun _ => 0) 4 12). vm_compute. reflexivity. }
  pose proof (leds_exclusive _ Hr) as (H & _).
  split; [exact Hr0|]. split; [vm_compute; reflexivity|exact H].
Defined.

Lemma run_foreground_sameData es :
  forall s, forallb isForeground es = true -> sameData s (run es s).
Proof.
  induction es as [|e es IH]; intros s H; [apply sameData_refl|].
  cbn [forallb] in H. apply andb_true_iff in H as [He Hes].
  rewrite run_cons. eapply sameData_trans; [|apply IH; exact Hes].
  destruct e; cbn [step]; [discriminate He | apply sameData_startRunning
                           | apply sameData_sensorOutput | apply sameData_pollFan].
Qed.

(** X6.  The handler reads the result of the conversion that the previous
    compare match started, and that conversion sampled its input under the
    LED drives and the multiplexer setting met on entry to the previous
    firing.  Whenever a firing stores a sample into an accumulator, the state
    on entry to the firing before it had the configuration of that
    accumulator: near LED alone for [nearLedReadings], far LED alone for
    [farLedReadings], no LED for [offReadings], each with the phototransistor
    selected; no LED and the fan input for the fan accumulators, with the
    polarity of a reading or of an offset.  The foreground code may run any
    steps between the two firings. *)
Theorem sample_provenance (s : State) (adc1 adc2 : Z) (es : list Step)
    (a : Accumulator) (v : Z) :
  reachable s ->
  forallb isForeground es = true ->
  fst (ISR adc2 (run es (snd (ISR adc1 s)))) = Some (a, v) ->
  (farLed s, nearLed s, ADMUX s) = configFor a (fan1Kmode s).
Proof.
  intros Hr Hes Hw. pose proof (reachable_hwSync s Hr) as Hs. unfold hwSync in Hs.
  rewrite Hs. clear Hs.
  set (s1 := snd (ISR adc1 s)) in *. set (s2 := run es s1) in *.
  pose proof (run_foreground_sameData es s1 Hes) as Hd. fold s2 in Hd.
  assert (Hp : phaseOf s2 = (if phaseOf s =? 15 then 0 else phaseOf s + 1)).
  { unfold phaseOf at 1. rewrite (same_tickCounter _ _ Hd). fold (phaseOf s1).
    unfold s1. rewrite ISR_phaseTable. apply applyEntry_phaseOf. }
  assert (Hb : bit4Of s2 = (if phaseOf s =? 15 then negb (bit4Of s) else bit4Of s)).
  { unfold bit4Of at 1. rewrite (same_tickCounter _ _ Hd). fold (bit4Of s1).
    unfold s1. rewrite ISR_phaseTable. apply applyEntry_bit4Of. }
  assert (Hk : fan1Kmode s2 = fan1Kmode s).
  { rewrite (same_fan1Kmode _ _ Hd). unfold s1. rewrite ISR_phaseTable.
    apply applyEntry_fan1Kmode. }
  rewrite ISR_phaseTable, applyEntry_log, Hp, Hb, Hk in Hw. unfold logOf in Hw.
  pose proof (phase_cases (wrap8 (tickCounter s))) as Hc. cbv zeta in Hc. fold (phaseOf s) in Hc.
  destruct (bit4Of s), (fan1Kmode s), (running s2);
    destruct Hc as [Hc|[Hc|[Hc|[Hc|[Hc|[Hc|[Hc|[Hc|[Hc|[Hc|[Hc|[Hc|[Hc|[Hc|[Hc|Hc]]]]]]]]]]]]]]];
    rewrite Hc in Hw |- *; cbn in Hw; try discriminate Hw;
    injection Hw as <- _; reflexivity.
Qed.

(** 1K mode, entry to the firing at tick 15: LEDs off and ADMUX = 51, as the
    firing at tick 11 left it; the firing at tick 16 stores an offset. *)
Lemma sample_provenance_witness :
  let s := run (startUp ++ ticks (fun _ => 0) 4 11) (initialState 16) in
  (reachable s
   /\ forallb isForeground [StOutput 1 0 0 0] = true
   /\ fst (ISR 700 (run [StOutput 1 0 0 0] (snd (ISR 0 s)))) = Some (AccFanOffset, 188))
  /\ tickCounter s = 15
  /\ (farLed s, nearLed s, ADMUX s) = (0, false, 51).
Proof.
  cbv zeta.
  assert (Hr : reachable (run (startUp ++ ticks (fun _ => 0) 4 11) (initialState 16))).
  { exists 16, (startUp ++ ticks (fun _ => 0) 4 11). reflexivity. }
  assert (Hf : forallb isForeground [StOutput 1 0 0 0] = true) by reflexivity.
  assert (Hw : fst (ISR 700 (run [StOutput 1 0 0 0]
                               (snd (ISR 0 (run (startUp ++ ticks (fun _ => 0) 4 11)
                                                (initialState 16))))))
               = Some (AccFanOffset, 188)) by (vm_compute; reflexivity).
  pose proof (sample_provenance _ 0 700 _ _ _ Hr Hf Hw) as H.
  split; [split; [exact Hr|split; [exact Hf|exact Hw]]|].
  split; [vm_compute; reflexivity|].
  vm_compute in H |- *. exact H.
Defined.

(** ** The fan samples *)

Lemma lxor_512_low y : 0 <= y < 512 -> Z.lxor y 512 = y + 512.
Proof.
  intros Hy. symmetry. apply Z.add_nocarry_lxor.
  apply Z.bits_inj'. intros n Hn. rewrite Z.land_spec, Z.bits_0.
  change 512 with (2 ^ 9). rewrite Z.pow2_bits_eqb by lia.
  destruct (Z.eqb_spec 9 n) as [<-|Hne]; [|apply andb_false_r].
  rewrite andb_true_r. destruct (Z.eq_dec y 0) as [->|Hy0]; [reflexivity|].
  apply Z.bits_above_log2; [lia|]. apply Z.log2_lt_pow2; lia.
Qed.

Lemma lxor_512_high y : 512 <= y < 1024 -> Z.lxor y 512 = y - 512.
Proof.
  intros Hy. replace y with (Z.lxor (y - 512) 512) at 1.
  - rewrite Z.lxor_assoc, Z.lxor_nilpotent, Z.lxor_0_r. reflexivity.
  - rewrite lxor_512_low by lia. lia.
Qed.

(** X7.  A fan sample is taken at phase 0.  In 1K mode the ADC works in
    bipolar mode and the handler turns the ten-bit two's complement result
    into offset binary: when the low ten bits of the ADC register encode the
    signed value [v], the sample stored is [v + 512], so that the order of the
    readings is kept and -512 .. 511 maps onto 0 .. 1023; the accumulator is
    that of the offsets when bit 4 of the tick is set and that of the
    readings otherwise.  In 4K7 mode the low ten bits are stored as they
    are, always as a reading. *)
Theorem fan_sample_bias (adc v : Z) (s : State) :
  running s = true -> tickCounter s mod 16 = 0 ->
  (fan1Kmode s = true -> -512 <= v < 512 -> adc mod 1024 = v mod 1024 ->
   fst (ISR adc s)
   = Some (if Z.testbit (tickCounter s) 4 then AccFanOffset else AccFanReading, v + 512))
  /\ (fan1Kmode s = false -> 0 <= v < 1024 -> adc mod 1024 = v ->
      fst (ISR adc s) = Some (AccFanReading, v)).
Proof.
  intros Hrun Hp. destruct (ISR_rows adc s) as (_ & _ & _ & _ & H0 & _).
  destruct (H0 Hp) as [Hw _]. rewrite Hw, Hrun. clear Hw H0.
  assert (Hl : Z.land adc 1023 = adc mod 1024).
  { change 1023 with (Z.ones 10). rewrite Z.land_ones by lia. reflexivity. }
  rewrite Hl. split.
  - intros -> Hv ->. f_equal.
    assert (E : Z.lxor (v mod 1024) 512 = v + 512); [|rewrite E; destruct (Z.testbit _ 4); reflexivity].
    destruct (Z.ltb_spec v 0).
    + replace (v mod 1024) with (v + 1024).
      * rewrite lxor_512_high by lia. lia.
      * apply Z.mod_unique with (q := -1); lia.
    + rewrite Z.mod_small by lia. apply lxor_512_low. lia.
  - intros -> Hv ->. reflexivity.
Qed.

(** 1K mode at tick 32: an ADC register holding -100 in ten bits (the bits
    above them set or not) gives the reading 412; at tick 16 it gives the
    offset 412. *)
Lemma fan_sample_bias_witness :
  let s := run (startUp ++ ticks (fun _ => 0) 4 28) (initialState 16) in
  (running s = true /\ tickCounter s mod 16 = 0 /\ fan1Kmode s = true
   /\ -512 <= -100 < 512 /\ 924 mod 1024 = -100 mod 1024)
  /\ fst (ISR 924 s) = Some (AccFanReading, 412)
  /\ fst (ISR 65436 tick16_1K) = Some (AccFanOffset, 412).
Proof.
  cbv zeta.
  set (s := run (startUp ++ ticks (fun _ => 0) 4 28) (initialState 16)).
  assert (H1 : running s = true) by (vm_compute; reflexivity).
  assert (H2 : tickCounter s mod 16 = 0) by (vm_compute; reflexivity).
  assert (H3 : fan1Kmode s = true) by (vm_compute; reflexivity).
  assert (H4 : -512 <= -100 < 512) by lia.
  assert (H5 : 924 mod 1024 = -100 mod 1024) by (vm_compute; reflexivity).
  assert (H1' : running tick16_1K = true) by (vm_compute; reflexivity).
  assert (H2' : tickCounter tick16_1K mod 16 = 0) by (vm_compute; reflexivity).
  assert (H3' : fan1Kmode tick16_1K = true) by (vm_compute; reflexivity).
  assert (H5' : 65436 mod 1024 = -100 mod 1024) by (vm_compute; reflexivity).
  pose proof (proj1 (fan_sample_bias 924 (-100) s H1 H2) H3 H4 H5) as Ha.
  pose proof (proj1 (fan_sample_bias 65436 (-100) tick16_1K H1' H2') H3' H4 H5') as Hb.
  split; [repeat split; assumption || lia|].
  split; [vm_compute in Ha |- *; exact Ha | vm_compute in Hb |- *; exact Hb].
Defined.

(** ** Mode and thresholds *)

Lemma initialState_mode pina :
  initialState pina
  = initialState (if Z.testbit pina PortASeriesResistorSenseBit then 16 else 0).
Proof.
  unfold initialState, mainInit. cbn [fan1Kmode set_fan1Kmode set_PORTB set_PORTA].
  rewrite land_bit, negb_involutive by discriminate.
  destruct (Z.testbit pina PortASeriesResistorSenseBit); reflexivity.
Qed.

Lemma step_setup e s :
  fan1Kmode (step e s) = fan1Kmode s
  /\ thermistorConnectedThreshold (step e s) = thermistorConnectedThreshold s
  /\ thermistorOnThreshold (step e s) = thermistorOnThreshold s
  /\ thermistorOffThreshold (step e s) = thermistorOffThreshold s.
Proof.
  destruct e as [adc| |pina a b c|r].
  - cbn [step]. destruct (ISR_foreground_vars adc s) as (_ & _ & _ & H1 & H2 & H3 & H4).
    auto.
  - destruct (sameData_startRunning s) as [_ _ _ _ _ _ _ _ _ _ _ _ _ (H1 & H2 & H3) _ H4 _ _ _].
    cbn [step]. auto.
  - destruct (sameData_sensorOutput pina a b c s)
      as [_ _ _ _ _ _ _ _ _ _ _ _ _ (H1 & H2 & H3) _ H4 _ _ _].
    cbn [step]. auto.
  - destruct (sameData_pollFan (tickCounter s) r s)
      as [_ _ _ _ _ _ _ _ _ _ _ _ _ (H1 & H2 & H3) _ H4 _ _ _].
    cbn [step]. auto.
Qed.

Lemma run_setup es :
  forall s,
    fan1Kmode (run es s) = fan1Kmode s
    /\ thermistorConnectedThreshold (run es s) = thermistorConnectedThreshold s
    /\ thermistorOnThreshold (run es s) = thermistorOnThreshold s
    /\ thermistorOffThreshold (run es s) = thermistorOffThreshold s.
Proof.
  induction es as [|e es IH]; intros s; [repeat split|].
  rewrite run_cons. destruct (IH (step e s)) as (-> & -> & -> & ->). apply step_setup.
Qed.

(** X8.  The series resistor mode and the three thresholds are fixed at
    start-up and never change.  In every state of every run the mode is the
    level of the sense pin PA4 read by [main()], and the thresholds are the
    1K or 4K7 constants times [fanSamplesAveraged]: 480, 5440 and 6400 in 1K
    mode, 112, 1248 and 1472 in 4K7 mode.  They are ordered connected < off <
    on and fit 16 bits. *)
Theorem setup_is_fixed (pina : Z) (es : list Step) :
  let s := run es (initialState pina) in
  fan1Kmode s = Z.testbit pina PortASeriesResistorSenseBit
  /\ thermistorConnectedThreshold s
     = (if fan1Kmode s then thermistorConnectedThreshold1K
        else thermistorConnectedThreshold4K7) * fanSamplesAveraged
  /\ thermistorOffThreshold s
     = (if fan1Kmode s then thermistorOffThreshold1K else thermistorOffThreshold4K7)
       * fanSamplesAveraged
  /\ thermistorOnThreshold s
     = (if fan1Kmode s then thermistorOnThreshold1K else thermistorOnThreshold4K7)
       * fanSamplesAveraged
  /\ (thermistorConnectedThreshold s, thermistorOffThreshold s, thermistorOnThreshold s)
     = (if fan1Kmode s then (480, 5440, 6400) else (112, 1248, 1472))
  /\ 0 < thermistorConnectedThreshold s < thermistorOffThreshold s
  /\ thermistorOffThreshold s < thermistorOnThreshold s < 65536.
Proof.
  cbv zeta. destruct (run_setup es (initialState pina)) as (-> & -> & -> & ->).
  rewrite initialState_mode.
  destruct (Z.testbit pina PortASeriesResistorSenseBit); vm_compute; intuition congruence.
Qed.


(** ** The fan check as a two-state switch *)




(** X10.  The length of the hold.  With the fan on and the hold counter at
    [c], checks that read values in the off range count it down one by one
    and the fan stays on through the first [c] of them; check number [c + 1]
    switches the fan off.  After a switch-on, which sets the counter to 31,
    the fan is thus switched off by the 32nd such check and not before. *)
Theorem fan_off_after_hold (r : FanReads) (s : State) :
  fanIsOn s = true -> 0 <= fanChangeCount s < 256 -> fanOffCond r s = true ->
  (forall k, (k <= Z.to_nat (fanChangeCount s))%nat ->
             fanIsOn (Nat.iter k (checkFanWith r) s) = true
             /\ fanChangeCount (Nat.iter k (checkFanWith r) s)
                = fanChangeCount s - Z.of_nat k)
  /\ fanIsOn (Nat.iter (S (Z.to_nat (fanChangeCount s))) (checkFanWith r) s) = false.
Proof.
  intros Hon Hc Hoff.
  assert (Hk : forall k, (k <= Z.to_nat (fanChangeCount s))%nat ->
                         fanIsOn (Nat.iter k (checkFanWith r) s) = true
                         /\ fanChangeCount (Nat.iter k (checkFanWith r) s)
                            = fanChangeCount s - Z.of_nat k
                         /\ fanOffCond r (Nat.iter k (checkFanWith r) s) = true).
  { induction k as [|k IH]; intros Hle.
    - cbn. split; [exact Hon|]. split; [lia|exact Hoff].
    - destruct (IH ltac:(lia)) as (H1 & H2 & H3). rewrite Nat.iter_succ.
      set (s1 := Nat.iter k (checkFanWith r) s) in *.
      rewrite checkFanWith_cases, H1, H3.
      destruct (Z.eqb_spec (fanChangeCount s1) 0) as [E|E]; [lia|].
      split; [exact H1|]. split; [|exact H3].
      cbn [fanChangeCount set_fanChangeCount]. unfold wrap8.
      rewrite Z.mod_small by (change (2 ^ 8) with 256; lia). lia. }
  split; [intros k Hle; destruct (Hk k Hle) as (H1 & H2 & _); split; assumption|].
  destruct (Hk (Z.to_nat (fanChangeCount s)) ltac:(lia)) as (H1 & H2 & H3).
  rewrite Nat.iter_succ. set (s1 := Nat.iter _ (checkFanWith r) s) in *.
  rewrite checkFanWith_cases, H1, H3.
  replace (fanChangeCount s1 =? 0) with true by (symmetry; apply Z.eqb_eq; lia).
  apply fanIsOn_turn_off.
Qed.

(** 4K7 mode after the check at tick 500 has switched the fan on: with the
    reads of the cooled hot end the fan is on after 31 checks and off after
    the 32nd. *)
Lemma fan_off_after_hold_witness :
  let s := step (StPollFan hotReads) hotState in
  (fanIsOn s = true /\ 0 <= fanChangeCount s < 256 /\ fanOffCond coolReads s = true)
  /\ fanChangeCount s = 31
  /\ fanIsOn (Nat.iter 31 (checkFanWith coolReads) s) = true
  /\ fanIsOn (Nat.iter 32 (checkFanWith coolReads) s) = false.
Proof.
  cbv zeta. set (s := step (StPollFan hotReads) hotState).
  assert (H1 : fanIsOn s = true) by (vm_compute; reflexivity).
  assert (H2 : 0 <= fanChangeCount s < 256) by (vm_compute; split; congruence).
  assert (H3 : fanOffCond coolReads s = true) by (vm_compute; reflexivity).
  assert (H4 : fanChangeCount s = 31) by (vm_compute; reflexivity).
  pose proof (fan_off_after_hold coolReads s H1 H2 H3) as [Ha Hb].
  split; [repeat split; try assumption; apply H2|]. split; [exact H4|].
  split.
  - apply (Ha 31%nat). rewrite H4. vm_compute. lia.
  - rewrite H4 in Hb. exact Hb.
Defined.

(** ** Before sampling starts *)

Lemma countISR_nonneg es : 0 <= countISR es.
Proof. induction es as [|[] es IH]; cbn [countISR]; lia. Qed.

Lemma countISR_snoc es e :
  countISR (es ++ [e]) = countISR es + (if isForeground e then 0 else 1).
Proof.
  induction es as [|e' es IH].
  - destruct e; reflexivity.
  - cbn [app countISR]. destruct e'; rewrite IH; lia.
Qed.

Lemma readsOwn_snoc es e :
  forall s,
    readsOwn (es ++ [e]) s = readsOwn es s && readsOwn [e] (run es s).
Proof.
  induction es as [|e' es IH]; intros s.
  - cbn [app readsOwn run foldl]. reflexivity.
  - cbn [app]. rewrite run_cons. cbn [readsOwn]. rewrite IH.
    rewrite andb_assoc. reflexivity.
Qed.

Lemma phaseTable_idle p b k :
  p = Z.land p 15 -> target (phaseTable p b false k) = None.
Proof.
  intros Hp. pose proof (phase_cases p) as Hc. cbv zeta in Hc. rewrite <- Hp in Hc.
  destruct Hc as [Hc|[Hc|[Hc|[Hc|[Hc|[Hc|[Hc|[Hc|[Hc|[Hc|[Hc|[Hc|[Hc|[Hc|[Hc|Hc]]]]]]]]]]]]]]];
    rewrite Hc; reflexivity.
Qed.

Lemma phaseOf_idem s : phaseOf s = Z.land (phaseOf s) 15.
Proof.
  unfold phaseOf. rewrite <- Z.land_assoc. reflexivity.
Qed.

Lemma ISR_idle adc s a :
  running s = false ->
  fst (ISR adc s) = None
  /\ accSlots a (snd (ISR adc s)) = accSlots a s
  /\ accSum a (snd (ISR adc s)) = accSum a s.
Proof.
  intros Hr. rewrite ISR_phaseTable, applyEntry_log, applyEntry_accSlots, applyEntry_accSum.
  unfold logOf. rewrite Hr, phaseTable_idle by apply phaseOf_idem. repeat split.
Qed.

Lemma sameData_acc s s' a :
  sameData s s' -> accSlots a s' = accSlots a s /\ accSum a s' = accSum a s.
Proof. intros []. destruct a; split; assumption. Qed.

Lemma step_running_false e s : running (step e s) = false -> running s = false.
Proof.
  destruct e as [adc| |pina a b c|r]; cbn [step].
  - destruct (ISR_foreground_vars adc s) as (_ & _ & -> & _). auto.
  - unfold startRunning. case_match; [auto|discriminate].
  - destruct (lastFanSampleTicks_sensorOutput pina a b c s) as [_ ->]. auto.
  - unfold pollFan, fanCheckCycle, checkFanWith. repeat case_match; auto.
Qed.

Lemma wrap16_succ c : wrap16 (wrap16 c + 1) = wrap16 (c + 1).
Proof. unfold wrap16. apply Zplus_mod_idemp_l. Qed.

Lemma fanOnCond_thresholds r s s' :
  thermistorConnectedThreshold s' = thermistorConnectedThreshold s ->
  thermistorOnThreshold s' = thermistorOnThreshold s ->
  fanOnCond r s' = fanOnCond r s.
Proof. intros H1 H2. unfold fanOnCond. rewrite H1, H2. reflexivity. Qed.

Lemma readsOwn_poll r s :
  readsOwn [StPollFan r] s = true -> r = readsOf s.
Proof.
  cbn [readsOwn]. rewrite andb_true_r. intros H.
  apply andb_true_iff in H as [H H4]. apply andb_true_iff in H as [H H3].
  apply andb_true_iff in H as [H1 H2].
  apply Z.eqb_eq in H1, H2, H3, H4. destruct r; cbn in *. subst. reflexivity.
Qed.

Lemma initial_fan_idle pina :
  fanIsOn (initialState pina) = false
  /\ fanOnCond (readsOf (initialState pina)) (initialState pina) = false
  /\ fanOffsetSum (initialState pina) - fanReadingSum (initialState pina)
     = thermistorConnectedThreshold (initialState pina).
Proof. destruct (initialState_cases pina) as [-> | ->]; repeat split. Qed.

Lemma before_start pina es :
  let s := run es (initialState pina) in
  tickCounter s = wrap16 (countISR es)
  /\ (running s = true -> 4 <= countISR es)
  /\ (running s = false ->
      (forall a, accSlots a s = accSlots a (initialState pina)
                 /\ accSum a s = accSum a (initialState pina))
      /\ (readsOwn es (initialState pina) = true -> fanIsOn s = false)).
Proof.
  cbv zeta. induction es as [|e es IH] using rev_ind.
  - cbn [run foldl countISR]. split; [|split].
    + destruct (initialState_cases pina) as [-> | ->]; reflexivity.
    + destruct (initialState_cases pina) as [-> | ->]; discriminate.
    + intros _. split; [intros a; split; reflexivity|].
      intros _. apply initial_fan_idle.
  - rewrite run_snoc, countISR_snoc, readsOwn_snoc.
    set (s := run es (initialState pina)) in *. destruct IH as (Ht & Hrun & Hidle).
    pose proof (countISR_nonneg es) as Hc.
    split; [|split].
    + destruct e as [adc| |pina' a b c|r]; cbn [step isForeground].
      * rewrite ISR_phaseTable, applyEntry_tickCounter, Ht. apply wrap16_succ.
      * rewrite (same_tickCounter _ _ (sameData_startRunning s)), Ht. f_equal. lia.
      * rewrite (same_tickCounter _ _ (sameData_sensorOutput pina' a b c s)), Ht. f_equal. lia.
      * rewrite (same_tickCounter _ _ (sameData_pollFan (tickCounter s) r s)), Ht. f_equal. lia.
    + destruct e as [adc| |pina' a b c|r]; cbn [step isForeground].
      * destruct (ISR_foreground_vars adc s) as (_ & _ & -> & _). intros H. specialize (Hrun H). lia.
      * unfold startRunning. destruct (Z.ltb_spec (tickCounter s) 4) as [Hlt|Hge].
        -- intros H. specialize (Hrun H). lia.
        -- intros _. rewrite Ht in Hge. unfold wrap16 in Hge.
           pose proof (Z.mod_le (countISR es) (2 ^ 16) Hc ltac:(lia)). lia.
      * destruct (lastFanSampleTicks_sensorOutput pina' a b c s) as [_ ->].
        intros H. specialize (Hrun H). lia.
      * replace (running (pollFan (tickCounter s) r s)) with (running s)
          by (unfold pollFan, fanCheckCycle, checkFanWith; repeat case_match; reflexivity).
        intros H. specialize (Hrun H). lia.
    + intros Hr'. pose proof (step_running_false e s Hr') as Hr.
      destruct (Hidle Hr) as [Hacc Hfan]. split.
      * intros a. destruct (Hacc a) as [<- <-].
        destruct e as [adc| |pina' a0 b c|r]; cbn [step].
        -- destruct (ISR_idle adc s a Hr) as (_ & H1 & H2). split; assumption.
        -- apply sameData_acc, sameData_startRunning.
        -- apply sameData_acc, sameData_sensorOutput.
        -- apply sameData_acc, sameData_pollFan.
      * intros Hown. apply andb_true_iff in Hown as [Hown He].
        specialize (Hfan Hown).
        destruct e as [adc| |pina' a0 b c|r].
        -- rewrite (proj1 (fan_untouched (StISR adc) s ltac:(discriminate))). exact Hfan.
        -- rewrite (proj1 (fan_untouched StStart s ltac:(discriminate))). exact Hfan.
        -- rewrite (proj1 (fan_untouched (StOutput pina' a0 b c) s ltac:(discriminate))).
           exact Hfan.
        -- apply readsOwn_poll in He. subst r. cbn [step]. unfold pollFan, fanCheckCycle.
           case_match; [|exact Hfan].
           replace (fanIsOn (set_lastFanSampleTicks _ _)) with (fanIsOn (checkFanWith (readsOf s) s))
             by reflexivity.
           rewrite checkFanWith_cases, Hfan.
           assert (Hc' : fanOnCond (readsOf s) s = false).
           { destruct (run_setup es (initialState pina)) as (_ & H1 & H2 & _). fold s in H1, H2.
             rewrite (fanOnCond_thresholds _ _ _ H1 H2).
             replace (readsOf s) with (readsOf (initialState pina)); [apply initial_fan_idle|].
             unfold readsOf.
             destruct (Hacc AccFanReading) as [_ Ha]. destruct (Hacc AccFanOffset) as [_ Hb].
             cbn [accSum] in Ha, Hb. rewrite Ha, Hb. reflexivity. }
           rewrite Hc'. exact Hfan.
Qed.

(** X11.  The tick counter counts the interrupts modulo 2^16, and sampling
    starts only when four of them have been served.  Until it starts the
    handler stores nothing: the IR arrays and sums are zero and the fan
    arrays hold the values [main()] put there, the offsets above the
    readings by exactly the connected threshold.  With these values the test
    of [checkFan] for switching on fails, so the fan does not come on at
    power-up, whatever checks are made on the sums as they are. *)
Theorem nothing_stored_before_start (pina : Z) (es : list Step) :
  let s := run es (initialState pina) in
  tickCounter s = countISR es mod 2 ^ 16
  /\ (running s = true -> 4 <= countISR es)
  /\ (running s = false ->
      (nearSumIR s = 0 /\ farSumIR s = 0 /\ offSumIR s = 0
       /\ nearLedReadings s = replicate 8 0 /\ farLedReadings s = replicate 8 0
       /\ offReadings s = replicate 8 0)
      /\ (fanReadings s = replicate 16 (if fan1Kmode s then 482 else 1016)
          /\ fanOffsets s = replicate 16 (if fan1Kmode s then 512 else 1023)
          /\ fanOffsetSum s - fanReadingSum s = thermistorConnectedThreshold s)
      /\ (readsOwn es (initialState pina) = true -> fanIsOn s = false)).
Proof.
  cbv zeta. destruct (before_start pina es) as (Ht & Hrun & Hidle).
  split; [exact Ht|]. split; [exact Hrun|]. intros Hr.
  destruct (Hidle Hr) as [Hacc Hfan].
  destruct (run_setup es (initialState pina)) as (Hk & Hc & _).
  pose proof (Hacc AccNear) as [N1 N2]. pose proof (Hacc AccFar) as [F1 F2].
  pose proof (Hacc AccOff) as [O1 O2]. pose proof (Hacc AccFanReading) as [R1 R2].
  pose proof (Hacc AccFanOffset) as [S1 S2]. cbn [accSlots accSum] in *.
  rewrite N1, N2, F1, F2, O1, O2, R1, R2, S1, S2, Hk, Hc.
  split; [|split; [|exact Hfan]];
    destruct (initialState_cases pina) as [-> | ->]; repeat split.
Qed.

(** 1K mode: three interrupts, an attempt to start, which fails, and a fan
    poll. *)
Lemma nothing_stored_before_start_witness :
  let es := ticks (fun _ => 900) 0 3 ++ [StStart; StPollFan (readsOf (initialState 16))] in
  let s := run es (initialState 16) in
  (running s = false /\ readsOwn es (initialState 16) = true)
  /\ tickCounter s = 3
  /\ fanReadings s = replicate 16 482
  /\ fanIsOn s = false.
Proof.
  cbv zeta.
  set (es := ticks (fun _ => 900) 0 3 ++ [StStart; StPollFan (readsOf (initialState 16))]).
  assert (Hr : running (run es (initialState 16)) = false) by (vm_compute; reflexivity).
  assert (Ho : readsOwn es (initialState 16) = true) by (vm_compute; reflexivity).
  pose proof (nothing_stored_before_start 16 es) as (Ht & _ & H).
  destruct (H Hr) as (_ & (HR & _) & Hfan). specialize (Hfan Ho).
  split; [split; [exact Hr|exact Ho]|].
  split; [vm_compute in Ht |- *; exact Ht|].
  split; [vm_compute in HR |- *; exact HR|exact Hfan].
Defined.

Lemma handler_frame_witness :
  fanIsOn (runISR sampleRun (step (StPollFan hotReads) hotState)) = true
  /\ fanChangeCount (runISR sampleRun (step (StPollFan hotReads) hotState)) = 31.
Proof.
  pose proof (handler_frame sampleRun (step (StPollFan hotReads) hotState))
    as (_ & _ & H1 & _ & H2 & _).
  split; [rewrite H1|rewrite H2]; vm_compute; reflexivity.
Defined.

(** ** The output decision *)

Lemma geb_leb x y : (x >=? y) = (y <=? x).
Proof. destruct (Z.geb_spec x y), (Z.leb_spec y x); try reflexivity; lia. Qed.

Lemma gtb_ltb x y : (x >? y) = (y <? x).
Proof. destruct (Z.gtb_spec x y), (Z.ltb_spec y x); try reflexivity; lia. Qed.

Lemma wrap32_small x : 0 <= x < 2 ^ 32 -> wrap32 x = x.
Proof. intros H. unfold wrap32. apply Z.mod_small. exact H. Qed.

Lemma sensorOutput_level pina near far off s :
  0 <= near < 65536 -> 0 <= far < 65536 -> 0 <= off < 65536 ->
  outputLevel (sensorOutput pina near far off s)
  = decide_level (Z.testbit pina PortADuetInputBit) near far off.
Proof.
  intros Hn Hf Ho. unfold sensorOutput, decide_level. cbv zeta.
  destruct (outputLevel_SetOutput s) as (L0 & L1 & L2 & L3).
  rewrite !geb_leb, !gtb_ltb, land_bit by discriminate.
  destruct ((saturatedThreshold <=? near) || (saturatedThreshold <=? far)); [exact L3|].
  rewrite !subtractOff_max by assumption.
  set (n := Z.max 0 (near - off)). set (f := Z.max 0 (far - off)).
  assert (Hn' : 0 <= n < 65536) by (unfold n; lia).
  assert (Hf' : 0 <= f < 65536) by (unfold f; lia).
  rewrite !wrap32_small by (change (2 ^ 32) with 4294967296; lia).
  destruct (Z.testbit pina PortADuetInputBit); cbn [negb].
  - destruct ((f <? n) && (farThreshold <=? f)); [exact L2|].
    replace (f * 5 <=? n * 6) with (5 * f <=? 6 * n) by (f_equal; lia).
    destruct ((farThreshold <=? f) && (5 * f <=? 6 * n)); [exact L1|exact L0].
  - destruct (simpleNearThreshold <=? n); [exact L2|exact L0].
Qed.

(** X12.  The decision in differential mode, on the integers.  With the Duet
    input high and the three sums any [uint16_t] values, near and far below
    the saturation threshold, let n = max(0, near - off) and
    f = max(0, far - off).  The output is Off whenever f is below
    [farThreshold]; otherwise it is On when n > f, Approaching when
    5 f <= 6 n <= 6 f, and Off when 6 n < 5 f.  The 32-bit products of line 462
    do not wrap. *)
Theorem differential_mode_levels (pina near far off : Z) (s : State) :
  Z.testbit pina PortADuetInputBit = true ->
  0 <= near < saturatedThreshold -> 0 <= far < saturatedThreshold -> 0 <= off < 65536 ->
  let n := Z.max 0 (near - off) in
  let f := Z.max 0 (far - off) in
  let l := outputLevel (sensorOutput pina near far off s) in
  (f < farThreshold -> l = Off)
  /\ (farThreshold <= f -> f < n -> l = On)
  /\ (farThreshold <= f -> n <= f -> 5 * f <= 6 * n -> l = Approaching)
  /\ (farThreshold <= f -> 6 * n < 5 * f -> l = Off)
  /\ 0 <= n * 6 < 2 ^ 32 /\ 0 <= f * 5 < 2 ^ 32.
Proof.
  intros Hp Hn Hf Ho. cbv zeta.
  assert (Hs : saturatedThreshold = 6960) by reflexivity.
  rewrite sensorOutput_level, Hp by lia. unfold decide_level. cbv zeta.
  replace ((saturatedThreshold <=? near) || (saturatedThreshold <=? far)) with false
    by (symmetry; apply orb_false_iff; split; apply Z.leb_gt; lia).
  set (n := Z.max 0 (near - off)). set (f := Z.max 0 (far - off)).
  assert (Hn' : 0 <= n < 65536) by (unfold n; lia).
  assert (Hf' : 0 <= f < 65536) by (unfold f; lia).
  change (2 ^ 32) with 4294967296.
  destruct (Z.ltb_spec f n), (Z.leb_spec farThreshold f), (Z.leb_spec (5 * f) (6 * n));
    cbn [andb]; repeat split; intros; first [reflexivity | lia].
Qed.

(** off = 100: near' = 90 and far' = 100 give Approaching, near' = 83 gives
    Off, near' = 101 gives On, and far' = 79 gives Off. *)
Lemma differential_mode_levels_witness :
  (Z.testbit 1 PortADuetInputBit = true /\ 0 <= 190 < saturatedThreshold
   /\ 0 <= 200 < saturatedThreshold /\ 0 <= 100 < 65536)
  /\ outputLevel (sensorOutput 1 190 200 100 (initialState 0)) = Approaching
  /\ outputLevel (sensorOutput 1 183 200 100 (initialState 0)) = Off
  /\ outputLevel (sensorOutput 1 201 200 100 (initialState 0)) = On
  /\ outputLevel (sensorOutput 1 5000 179 100 (initialState 0)) = Off.
Proof.
  assert (Hp : Z.testbit 1 PortADuetInputBit = true) by reflexivity.
  assert (H1 : 0 <= 190 < saturatedThreshold) by (vm_compute; split; congruence).
  assert (H2 : 0 <= 200 < saturatedThreshold) by (vm_compute; split; congruence).
  assert (H3 : 0 <= 100 < 65536) by lia.
  pose proof (differential_mode_levels 1 190 200 100 (initialState 0) Hp H1 H2 H3)
    as (_ & _ & Ha & _).
  split; [repeat split; assumption || apply H1 || apply H2 || lia|].
  split; [apply Ha; vm_compute; congruence|].
  repeat split; vm_compute; reflexivity.
Defined.

Lemma g31Reading_decide_level_mono d near1 near2 far off :
  near1 <= near2 ->
  g31Reading (decide_level d near1 far off) <= g31Reading (decide_level d near2 far off).
Proof.
  intros Hle. unfold decide_level. cbv zeta.
  set (n1 := Z.max 0 (near1 - off)). set (n2 := Z.max 0 (near2 - off)).
  set (f := Z.max 0 (far - off)).
  assert (Hn : n1 <= n2) by (unfold n1, n2; lia).
  destruct (Z.leb_spec saturatedThreshold near1), (Z.leb_spec saturatedThreshold near2),
    (Z.leb_spec saturatedThreshold far); cbn [orb g31Reading]; try lia;
    destruct d;
    repeat match goal with
           | |- context [?x <? ?y] => destruct (Z.ltb_spec x y)
           | |- context [?x <=? ?y] => destruct (Z.leb_spec x y)
           end; cbn [andb g31Reading]; lia.
Qed.

(** X13.  The output is monotone in the near sum.  With the far sum, the off
    sum and the mode input fixed, a larger near sum never gives a lower
    level, the levels taken in the order of the readings they give the Duet
    (Off 0, Approaching 445, On 578, Saturated 1023): in both modes, across
    the saturation threshold and with the baseline subtraction at its
    floor. *)
Theorem output_monotone_in_near (pina near1 near2 far off : Z) (s1 s2 : State) :
  0 <= near1 -> near1 <= near2 -> near2 < 65536 -> 0 <= far < 65536 -> 0 <= off < 65536 ->
  g31Reading (outputLevel (sensorOutput pina near1 far off s1))
  <= g31Reading (outputLevel (sensorOutput pina near2 far off s2)).
Proof.
  intros H0 Hle H2 Hf Ho. rewrite !sensorOutput_level by lia.
  apply g31Reading_decide_level_mono. exact Hle.
Qed.

Lemma output_monotone_in_near_witness :
  (0 <= 183 /\ 183 <= 190 /\ 190 < 65536 /\ 0 <= 200 < 65536 /\ 0 <= 100 < 65536)
  /\ g31Reading (outputLevel (sensorOutput 1 183 200 100 (initialState 0))) = 0
  /\ g31Reading (outputLevel (sensorOutput 1 190 200 100 hotState)) = 445
  /\ 0 <= 445.
Proof.
  assert (H : 0 <= 183 /\ 183 <= 190 /\ 190 < 65536 /\ 0 <= 200 < 65536 /\ 0 <= 100 < 65536)
    by lia.
  destruct H as (H0 & H1 & H2 & H3 & H4).
  pose proof (output_monotone_in_near 1 183 190 200 100 (initialState 0) hotState
                H0 H1 H2 H3 H4) as Hm.
  assert (E1 : g31Reading (outputLevel (sensorOutput 1 183 200 100 (initialState 0))) = 0)
    by (vm_compute; reflexivity).
  assert (E2 : g31Reading (outputLevel (sensorOutput 1 190 200 100 hotState)) = 445)
    by (vm_compute; reflexivity).
  split; [repeat split; assumption || apply H3 || apply H4|].
  split; [exact E1|]. split; [exact E2|].
  rewrite E1, E2 in Hm. exact Hm.
Defined.

(** ** The schedule of the fan polls *)

Lemma wrap16_range x : 0 <= wrap16 x < 65536.
Proof. unfold wrap16. apply Z.mod_pos_bound. reflexivity. Qed.

Lemma wrap16_sub_r a b : wrap16 (a - wrap16 b) = wrap16 (a - b).
Proof. unfold wrap16. apply Zminus_mod_idemp_r. Qed.

Lemma wrap16_add_l a b : wrap16 (wrap16 a + b) = wrap16 (a + b).
Proof. unfold wrap16. apply Zplus_mod_idemp_l. Qed.

Lemma pollFan_due t r s :
  pollDue t s = true ->
  lastFanSampleTicks (pollFan t r s) = wrap16 (lastFanSampleTicks s + fanSampleIntervalTicks)
  /\ pollLag t (pollFan t r s) = pollLag t s - fanSampleIntervalTicks.
Proof.
  intros Hd. unfold pollFan. rewrite Hd.
  assert (E : lastFanSampleTicks (fanCheckCycle r s)
              = wrap16 (lastFanSampleTicks s + fanSampleIntervalTicks)).
  { unfold fanCheckCycle. cbn [lastFanSampleTicks set_lastFanSampleTicks].
    replace (lastFanSampleTicks (checkFanWith r s)) with (lastFanSampleTicks s); [reflexivity|].
    unfold checkFanWith. repeat case_match; reflexivity. }
  split; [exact E|]. unfold pollLag. rewrite E, wrap16_sub_r.
  unfold pollDue in Hd. rewrite geb_leb in Hd. apply Z.leb_le in Hd.
  pose proof (wrap16_range (t - lastFanSampleTicks s)) as Hr.
  set (lag := wrap16 (t - lastFanSampleTicks s)) in *.
  replace (t - (lastFanSampleTicks s + fanSampleIntervalTicks))
    with (t - lastFanSampleTicks s - fanSampleIntervalTicks) by lia.
  unfold wrap16. rewrite <- Zminus_mod_idemp_l. fold (wrap16 (t - lastFanSampleTicks s)).
  fold lag. apply Z.mod_small. change (2 ^ 16) with 65536.
  assert (Hint : fanSampleIntervalTicks = 500) by reflexivity. lia.
Qed.

Lemma polls_snoc t rs r s : polls t (rs ++ [r]) s = pollFan t r (polls t rs s).
Proof. unfold polls. rewrite foldl_app. reflexivity. Qed.

(** X14.  The fan is checked once for every [fanSampleIntervalTicks] = 500
    ticks, however late the foreground loop comes to poll.  A poll is due
    when the tick it reads is 500 or more ahead of the last sample, the
    difference taken modulo 2^16, so that the wrap of the tick counter does
    not disturb it; a poll that is due moves the last sample time on by 500
    and takes 500 off the lag, a poll that is not due changes nothing.  When
    the loop is [k] periods behind, its next [k] polls are all due and bring
    the lag below 500. *)
Theorem poll_schedule (t : Z) (s : State) :
  0 <= lastFanSampleTicks s < 65536 ->
  let lag := pollLag t s in
  (forall d L, 0 <= d < 65536 -> lastFanSampleTicks s = wrap16 L -> t = wrap16 (L + d) ->
               lag = d /\ pollDue t s = (fanSampleIntervalTicks <=? d))
  /\ (lag < fanSampleIntervalTicks -> forall r, pollFan t r s = s)
  /\ (forall rs,
         Z.of_nat (length rs) <= lag / fanSampleIntervalTicks ->
         pollLag t (polls t rs s) = lag - fanSampleIntervalTicks * Z.of_nat (length rs)
         /\ lastFanSampleTicks (polls t rs s)
            = wrap16 (lastFanSampleTicks s + fanSampleIntervalTicks * Z.of_nat (length rs)))
  /\ (forall rs,
         Z.of_nat (length rs) = lag / fanSampleIntervalTicks ->
         pollLag t (polls t rs s) = lag mod fanSampleIntervalTicks
         /\ pollDue t (polls t rs s) = false).
Proof.
  intros Hlast. cbv zeta.
  assert (Hint : fanSampleIntervalTicks = 500) by reflexivity.
  pose proof (wrap16_range (t - lastFanSampleTicks s)) as Hlag. fold (pollLag t s) in Hlag.
  assert (HA : forall rs,
             Z.of_nat (length rs) <= pollLag t s / fanSampleIntervalTicks ->
             pollLag t (polls t rs s)
             = pollLag t s - fanSampleIntervalTicks * Z.of_nat (length rs)
             /\ lastFanSampleTicks (polls t rs s)
                = wrap16 (lastFanSampleTicks s
                          + fanSampleIntervalTicks * Z.of_nat (length rs))).
  { induction rs as [|r rs IH] using rev_ind; intros Hk.
    - cbn [length polls foldl]. rewrite Z.mul_0_r, Z.add_0_r, Z.sub_0_r. split; [reflexivity|].
      symmetry. apply wrap16_small. exact Hlast.
    - rewrite length_app in Hk |- *. cbn [length] in Hk |- *.
      destruct (IH ltac:(lia)) as [IH1 IH2]. rewrite polls_snoc.
      assert (Hdue : pollDue t (polls t rs s) = true).
      { unfold pollDue. fold (pollLag t (polls t rs s)). rewrite IH1, geb_leb.
        apply Z.leb_le. rewrite Hint in *.
        pose proof (Z.mul_div_le (pollLag t s) 500 ltac:(lia)). lia. }
      destruct (pollFan_due t r _ Hdue) as [E1 E2]. rewrite E2, E1, IH1, IH2.
      split; [lia|]. rewrite wrap16_add_l. f_equal. lia. }
  split; [|split; [|split; [exact HA|]]].
  - intros d L Hd HL Ht.
    assert (E : pollLag t s = d).
    { unfold pollLag. rewrite HL, Ht, wrap16_sub_r. unfold wrap16.
      rewrite Zminus_mod_idemp_l.
      replace (L + d - L) with d by lia. apply Z.mod_small. change (2 ^ 16) with 65536. lia. }
    split; [exact E|]. unfold pollDue. fold (pollLag t s). rewrite E. apply geb_leb.
  - intros Hlt r. unfold pollFan, pollDue. fold (pollLag t s). rewrite geb_leb.
    replace (fanSampleIntervalTicks <=? pollLag t s) with false; [reflexivity|].
    symmetry. apply Z.leb_gt. exact Hlt.
  - intros rs Hk. destruct (HA rs ltac:(lia)) as [E _]. rewrite Hint in *.
    assert (Em : pollLag t (polls t rs s) = pollLag t s mod 500).
    { rewrite E, Hk. pose proof (Z.div_mod (pollLag t s) 500 ltac:(lia)). lia. }
    split; [exact Em|]. unfold pollDue. fold (pollLag t (polls t rs s)). rewrite Em, geb_leb.
    apply Z.leb_gt. rewrite Hint. apply Z.mod_pos_bound. lia.
Qed.

(** The tick counter has wrapped: the last sample was taken at tick 65500 and
    the poll reads tick 1001, 1037 ticks later.  Two polls are due; they move
    the last sample time to 964 and leave a lag of 37. *)
Lemma poll_schedule_witness :
  let s := set_lastFanSampleTicks 65500 hotState in
  0 <= lastFanSampleTicks s < 65536
  /\ pollLag 1001 s = 1037
  /\ pollLag 1001 (polls 1001 [hotReads; coolReads] s) = 37
  /\ lastFanSampleTicks (polls 1001 [hotReads; coolReads] s) = 964
  /\ pollFan 1001 coolReads (polls 1001 [hotReads; coolReads] s)
     = polls 1001 [hotReads; coolReads] s.
Proof.
  cbv zeta. set (s := set_lastFanSampleTicks 65500 hotState).
  assert (H : 0 <= lastFanSampleTicks s < 65536) by (vm_compute; split; congruence).
  pose proof (poll_schedule 1001 s H) as (_ & _ & Ha & Hb).
  assert (Hk : Z.of_nat (length [hotReads; coolReads])
               = pollLag 1001 s / fanSampleIntervalTicks) by (vm_compute; reflexivity).
  destruct (Ha [hotReads; coolReads] ltac:(rewrite Hk; lia)) as [_ H2].
  destruct (Hb [hotReads; coolReads] Hk) as [H1 H3].
  pose proof (poll_schedule 1001 (polls 1001 [hotReads; coolReads] s)
                ltac:(vm_compute; split; congruence)) as (_ & Hc & _).
  split; [exact H|]. split; [vm_compute; reflexivity|].
  split; [rewrite H1; vm_compute; reflexivity|].
  split; [rewrite H2; vm_compute; reflexivity|].
  apply Hc. rewrite H1. vm_compute. reflexivity.
Defined.

(** ** How long a sample stays in a sum *)

Lemma length_pushed a adcs :
  forall s,
    running s = true ->
    length (pushed a adcs s)
    = countStores a (fan1Kmode s) (length adcs) (phaseOf s) (bit4Of s).
Proof.
  induction adcs as [|adc adcs IH]; intros s Hr; [reflexivity|].
  rewrite pushed_cons. cbn [length countStores].
  rewrite ISR_phaseTable, applyEntry_log.
  set (e := phaseTable (phaseOf s) (bit4Of s) (running s) (fan1Kmode s)).
  assert (IH' : length (pushed a adcs (snd (applyEntry e adc s)))
                = countStores a (fan1Kmode s) (length adcs)
                    (if phaseOf s =? 15 then 0 else phaseOf s + 1)
                    (if phaseOf s =? 15 then negb (bit4Of s) else bit4Of s)).
  { rewrite IH by (rewrite applyEntry_running; exact Hr).
    rewrite applyEntry_fan1Kmode, applyEntry_phaseOf, applyEntry_bit4Of. reflexivity. }
  unfold storesInto, logOf. subst e. rewrite Hr in *.
  destruct (target (phaseTable (phaseOf s) (bit4Of s) true (fan1Kmode s))) as [a'|].
  - destruct (decide (a' = a)) as [E|E].
    + rewrite bool_decide_eq_true_2 by exact E. cbn [length]. rewrite IH'. reflexivity.
    + rewrite bool_decide_eq_false_2 by exact E. rewrite IH'. reflexivity.
  - rewrite IH'. reflexivity.
Qed.

Lemma countStores_refresh a k p b :
  p = Z.land p 15 -> (a = AccFanOffset -> k = true) ->
  countStores a k (refreshTicks a k) p b = Z.to_nat (accSize a).
Proof.
  intros Hp Hk. pose proof (phase_cases p) as Hc. cbv zeta in Hc. rewrite <- Hp in Hc.
  destruct a, k; try (specialize (Hk eq_refl); discriminate Hk); destruct b;
    destruct Hc as [Hc|[Hc|[Hc|[Hc|[Hc|[Hc|[Hc|[Hc|[Hc|[Hc|[Hc|[Hc|[Hc|[Hc|[Hc|Hc]]]]]]]]]]]]]]];
    rewrite Hc; vm_compute; reflexivity.
Qed.

(** X15.  How long a sample stays in a sum.  While sampling runs, any 32
    consecutive interrupts store exactly 8 samples into each IR accumulator,
    whatever the phase they start at; so after 32 interrupts each IR sum is
    the sum of the samples stored during them and nothing older contributes.
    The same holds of the fan readings after 256 interrupts in 4K7 mode, and
    of the fan readings and the fan offsets after 512 interrupts in 1K mode,
    with 16 samples each. *)
Theorem window_refresh (a : Accumulator) (adcs : list Z) (s : State) :
  wellTyped s -> irInvariant s -> fanInvariant s ->
  running s = true ->
  (a = AccFanOffset -> fan1Kmode s = true) ->
  length adcs = refreshTicks a (fan1Kmode s) ->
  length (pushed a adcs s) = Z.to_nat (accSize a)
  /\ window a (runISR adcs s) = pushed a adcs s
  /\ accSum a (runISR adcs s) = sumZ (pushed a adcs s).
Proof.
  intros Hw Hi Hf Hr Hk Hlen. pose proof (Inv_intro s Hw Hi Hf) as HI.
  assert (Hn : length (pushed a adcs s) = Z.to_nat (accSize a)).
  { rewrite length_pushed, Hlen by exact Hr.
    apply countStores_refresh; [apply phaseOf_idem|exact Hk]. }
  assert (Hwin : window a (runISR adcs s) = pushed a adcs s).
  { rewrite runISR_window by exact HI.
    rewrite lastn_app_long by lia. apply lastn_full. exact Hn. }
  split; [exact Hn|]. split; [exact Hwin|].
  rewrite accSum_window by (apply runISR_Inv; exact HI). rewrite Hwin. reflexivity.
Qed.

(** 1K mode from tick 4 with ADC values 100, 101, ...: after 32 interrupts
    the near sum is the sum of the eight samples stored at ticks 6, 9, 12,
    19, 22, 25, 28 and 35. *)
Lemma window_refresh_witness :
  (wellTyped sampleStart /\ irInvariant sampleStart /\ fanInvariant sampleStart
   /\ running sampleStart = true
   /\ length (seqZ 100 32) = refreshTicks AccNear (fan1Kmode sampleStart))
  /\ pushed AccNear (seqZ 100 32) sampleStart = [102; 105; 108; 115; 118; 121; 124; 131]
  /\ nearSumIR (runISR (seqZ 100 32) sampleStart) = 924.
Proof.
  assert (HI : Inv sampleStart).
  { apply reachable_Inv. exists 16, startUp. reflexivity. }
  destruct (Inv_elim _ HI) as (Hw & Hi & Hf).
  assert (Hr : running sampleStart = true) by (vm_compute; reflexivity).
  assert (Hk : AccNear = AccFanOffset -> fan1Kmode sampleStart = true) by discriminate.
  assert (Hl : length (seqZ 100 32) = refreshTicks AccNear (fan1Kmode sampleStart))
    by (vm_compute; reflexivity).
  pose proof (window_refresh AccNear (seqZ 100 32) sampleStart Hw Hi Hf Hr Hk Hl)
    as (_ & _ & Hs).
  assert (Hp : pushed AccNear (seqZ 100 32) sampleStart
               = [102; 105; 108; 115; 118; 121; 124; 131]) by (vm_compute; reflexivity).
  split; [repeat split; assumption || apply Hw || apply Hi || apply Hf|].
  split; [exact Hp|].
  cbn [accSum] in Hs. rewrite Hs, Hp. reflexivity.
Defined.

(** ** Start-up from any memory contents *)

Lemma startup_state (pina : Z) (s : State) :
  length (nearLedReadings s) = Z.to_nat cyclesAveragedIR ->
  length (farLedReadings s) = Z.to_nat cyclesAveragedIR ->
  length (offReadings s) = Z.to_nat cyclesAveragedIR ->
  length (fanReadings s) = Z.to_nat fanSamplesAveraged ->
  length (fanOffsets s) = Z.to_nat fanSamplesAveraged ->
  sensorInit (mainInit pina s)
  = set_lastFanSampleTicks (lastFanSampleTicks s)
      (set_fanChangeCount (fanChangeCount s) (initialState pina))
  /\ fanReadings (mainInit pina s) = fanReadings (initialState pina)
  /\ fanOffsets (mainInit pina s) = fanOffsets (initialState pina)
  /\ fanReadingSum (mainInit pina s) = fanReadingSum (initialState pina)
  /\ fanOffsetSum (mainInit pina s) = fanOffsetSum (initialState pina).
Proof.
  destruct s as [ns fs os nr fr or ni fi oi fanr fano frs fos tc ton toff fidx k lst fcc tk rn pa pb mx].
  cbn [nearLedReadings farLedReadings offReadings fanReadings fanOffsets].
  change (Z.to_nat cyclesAveragedIR) with 8%nat.
  change (Z.to_nat fanSamplesAveraged) with 16%nat.
  intros H1 H2 H3 H4 H5.
  do 8 (destruct nr as [|? nr]; [discriminate H1|]). destruct nr; [|discriminate H1].
  do 8 (destruct fr as [|? fr]; [discriminate H2|]). destruct fr; [|discriminate H2].
  do 8 (destruct or as [|? or]; [discriminate H3|]). destruct or; [|discriminate H3].
  do 16 (destruct fanr as [|? fanr]; [discriminate H4|]). destruct fanr; [|discriminate H4].
  do 16 (destruct fano as [|? fano]; [discriminate H5|]). destruct fano; [|discriminate H5].
  unfold initialState, mainInit.
  cbn [fan1Kmode set_fan1Kmode set_PORTB set_PORTA].
  destruct (negb (Z.land pina (BITVAL PortASeriesResistorSenseBit) =? 0));
    (split; [vm_compute; reflexivity|]); (split; [vm_compute; reflexivity|]);
    (split; [vm_compute; reflexivity|]); split; vm_compute; reflexivity.
Qed.

(** X16.  Start-up does not depend on what the memory holds at reset.  From
    any contents of the variables and registers, the arrays having their
    declared sizes, [main()] and the first part of [runIRsensorAndFan()] lead
    to the same state, the fan's hold counter and the time of the last fan
    sample apart, which they do not write.  [fanInvariant()] holds where line
    555 asserts it and [irInvariant()] where line 398 does.  The fan offset
    sum is the sum of the offsets; it is not the sum of the readings, which is
    what the loop invariant of line 546 says of it. *)
Theorem startup_from_any_memory (pina : Z) (s : State) :
  length (nearLedReadings s) = Z.to_nat cyclesAveragedIR ->
  length (farLedReadings s) = Z.to_nat cyclesAveragedIR ->
  length (offReadings s) = Z.to_nat cyclesAveragedIR ->
  length (fanReadings s) = Z.to_nat fanSamplesAveraged ->
  length (fanOffsets s) = Z.to_nat fanSamplesAveraged ->
  let s1 := mainInit pina s in
  let s2 := sensorInit s1 in
  s2 = set_lastFanSampleTicks (lastFanSampleTicks s)
         (set_fanChangeCount (fanChangeCount s) (initialState pina))
  /\ fanInvariant s1
  /\ (irInvariant s2 /\ fanInvariant s2 /\ wellTyped s2)
  /\ fanOffsetSum s1 = sumZ (take (Z.to_nat fanSamplesAveraged) (fanOffsets s1))
  /\ fanOffsetSum s1 <> sumZ (take (Z.to_nat fanSamplesAveraged) (fanReadings s1)).
Proof.
  intros H1 H2 H3 H4 H5. cbv zeta.
  destruct (startup_state pina s H1 H2 H3 H4 H5) as (E & R1 & R2 & R3 & R4).
  destruct (Inv_elim _ (initialState_Inv pina)) as (Hw & Hi & Hf).
  split; [exact E|]. split; [|split; [|split]].
  - unfold fanInvariant in Hf |- *. rewrite R1, R2, R3, R4. exact Hf.
  - rewrite E. generalize (initialState pina) Hw Hi Hf. clear.
    intros x Hw Hi Hf. split; [exact Hi|]. split; [exact Hf|exact Hw].
  - rewrite R2, R4. destruct (initialState_cases pina) as [-> | ->]; vm_compute; reflexivity.
  - rewrite R1, R4. destruct (initialState_cases pina) as [-> | ->]; vm_compute; discriminate.
Qed.

(** Start-up from the contents of a state in the middle of a run. *)
Lemma startup_from_any_memory_witness :
  (length (nearLedReadings coolState) = Z.to_nat cyclesAveragedIR
   /\ length (farLedReadings coolState) = Z.to_nat cyclesAveragedIR
   /\ length (offReadings coolState) = Z.to_nat cyclesAveragedIR
   /\ length (fanReadings coolState) = Z.to_nat fanSamplesAveraged
   /\ length (fanOffsets coolState) = Z.to_nat fanSamplesAveraged)
  /\ (fanChangeCount coolState = 31 /\ lastFanSampleTicks coolState = 500)
  /\ sensorInit (mainInit 16 coolState)
     = set_lastFanSampleTicks (lastFanSampleTicks coolState)
         (set_fanChangeCount (fanChangeCount coolState) (initialState 16)).
Proof.
  assert (H1 : length (nearLedReadings coolState) = Z.to_nat cyclesAveragedIR)
    by (vm_compute; reflexivity).
  assert (H2 : length (farLedReadings coolState) = Z.to_nat cyclesAveragedIR)
    by (vm_compute; reflexivity).
  assert (H3 : length (offReadings coolState) = Z.to_nat cyclesAveragedIR)
    by (vm_compute; reflexivity).
  assert (H4 : length (fanReadings coolState) = Z.to_nat fanSamplesAveraged)
    by (vm_compute; reflexivity).
  assert (H5 : length (fanOffsets coolState) = Z.to_nat fanSamplesAveraged)
    by (vm_compute; reflexivity).
  pose proof (startup_from_any_memory 16 coolState H1 H2 H3 H4 H5) as (E & _).
  split; [exact (conj H1 (conj H2 (conj H3 (conj H4 H5))))|].
  split; [split; vm_compute; reflexivity|]. exact E.
Defined.

(** ** The output functions and the interrupt *)

Lemma besideLed_set k :
  0 <= k -> k <> PortANearLedBit -> besideLed (fun p => Z.lor p (BITVAL k)).
Proof.
  intros Hk Hne. split; intros p.
  - rewrite <- !Z.lor_assoc. f_equal. apply Z.lor_comm.
  - apply Z.bits_inj'. intros n Hn.
    rewrite testbit_set', !testbit_clear', testbit_set' by (discriminate || lia).
    destruct (Z.eqb_spec k n), (Z.eqb_spec PortANearLedBit n); try congruence;
      destruct (Z.testbit p n); reflexivity.
Qed.

Lemma besideLed_clear k :
  0 <= k -> k <> PortANearLedBit -> besideLed (fun p => Z.land p (Z.lnot (BITVAL k))).
Proof.
  intros Hk Hne. split; intros p.
  - apply Z.bits_inj'. intros n Hn.
    rewrite testbit_clear', !testbit_set', testbit_clear' by (discriminate || lia).
    destruct (Z.eqb_spec k n), (Z.eqb_spec PortANearLedBit n); try congruence;
      destruct (Z.testbit p n); reflexivity.
  - rewrite <- !Z.land_assoc. f_equal. apply Z.land_comm.
Qed.

Lemma storeLog_beside f w s :
  storeLog w (set_PORTA (f (PORTA s)) s)
  = set_PORTA (f (PORTA (storeLog w s))) (storeLog w s).
Proof. destruct w as [[[] v]|]; reflexivity. Qed.

Lemma setLeds_beside f l s :
  besideLed f ->
  setLeds l (set_PORTA (f (PORTA s)) s)
  = set_PORTA (f (PORTA (setLeds l s))) (setLeds l s).
Proof.
  intros [Hs Hc].
  destruct l; cbn -[Z.land Z.lor Z.lnot BITVAL PortANearLedBit];
    rewrite ?Hs, ?Hc; reflexivity.
Qed.

Lemma applyEntry_beside f e adc s :
  besideLed f ->
  applyEntry e adc (set_PORTA (f (PORTA s)) s)
  = (fst (applyEntry e adc s),
     set_PORTA (f (PORTA (snd (applyEntry e adc s)))) (snd (applyEntry e adc s))).
Proof.
  intros Hf. unfold applyEntry. cbv zeta. cbn [fst snd].
  change (logOf e adc (set_PORTA (f (PORTA s)) s)) with (logOf e adc s).
  rewrite storeLog_beside, setLeds_beside by exact Hf.
  destruct (mux e); reflexivity.
Qed.

Lemma ISR_beside f adc s :
  besideLed f ->
  ISR adc (set_PORTA (f (PORTA s)) s)
  = (fst (ISR adc s), set_PORTA (f (PORTA (snd (ISR adc s)))) (snd (ISR adc s))).
Proof.
  intros Hf. rewrite !ISR_phaseTable.
  change (phaseOf (set_PORTA (f (PORTA s)) s)) with (phaseOf s).
  change (bit4Of (set_PORTA (f (PORTA s)) s)) with (bit4Of s).
  change (running (set_PORTA (f (PORTA s)) s)) with (running s).
  change (fan1Kmode (set_PORTA (f (PORTA s)) s)) with (fan1Kmode s).
  apply applyEntry_beside. exact Hf.
Qed.

Lemma runISR_beside f adcs :
  besideLed f ->
  forall s,
    runISR adcs (set_PORTA (f (PORTA s)) s)
    = set_PORTA (f (PORTA (runISR adcs s))) (runISR adcs s).
Proof.
  intros Hf. induction adcs as [|adc adcs IH]; intros s; [reflexivity|].
  rewrite !runISR_cons, ISR_beside by exact Hf. cbn [snd]. apply IH.
Qed.

Lemma runISR_PORTA_other adcs :
  forall s n, n <> PortANearLedBit ->
              Z.testbit (PORTA (runISR adcs s)) n = Z.testbit (PORTA s) n.
Proof.
  induction adcs as [|adc adcs IH]; intros s n Hn; [reflexivity|].
  rewrite runISR_cons, IH by exact Hn. apply ISR_PORTA_other. exact Hn.
Qed.

Lemma firstOp_beside l :
  exists f, besideLed f /\ forall s, firstOp l s = set_PORTA (f (PORTA s)) s.
Proof.
  destruct l; cbn [firstOp].
  - exists (fun p => Z.land p (Z.lnot (BITVAL PortADuet10KOutputBit))).
    split; [apply besideLed_clear; discriminate|reflexivity].
  - exists (fun p => Z.land p (Z.lnot (BITVAL PortADuet10KOutputBit))).
    split; [apply besideLed_clear; discriminate|reflexivity].
  - exists (fun p => Z.land p (Z.lnot (BITVAL PortADuet13KOutputBit))).
    split; [apply besideLed_clear; discriminate|reflexivity].
  - exists (fun p => Z.lor p (BITVAL PortADuet10KOutputBit)).
    split; [apply besideLed_set; discriminate|reflexivity].
Qed.

Lemma outputLevel_firstOp l s :
  outputLevel (firstOp l s)
  = match l, outputLevel s with
    | (Off | Approaching), (Off | On) => Off
    | (Off | Approaching), (Approaching | Saturated) => Approaching
    | On, (Off | Approaching) => Off
    | On, (On | Saturated) => On
    | Saturated, (Off | On) => On
    | Saturated, (Approaching | Saturated) => Saturated
    end.
Proof.
  unfold outputLevel.
  destruct l; cbn [firstOp clearPORTA setPORTA PORTA set_PORTA];
    rewrite ?testbit_set', ?testbit_clear' by discriminate;
    destruct (Z.testbit (PORTA s) PortADuet13KOutputBit),
      (Z.testbit (PORTA s) PortADuet10KOutputBit); reflexivity.
Qed.

(** X17.  The output functions and the interrupt.  Each function is its two
    operations in sequence, and interrupts served between the two change
    nothing in the outcome: the state reached is the one the function gives
    when it runs after those interrupts, so the level is the one asked for and
    the near LED pin is as the handler left it.  While the function is
    half-way the level shown is never above both the old and the new level;
    between Approaching and On, in either direction, it is Off. *)
Theorem output_two_operations (l : Level) (adcs : list Z) (s : State) :
  SetOutput l s = secondOp l (firstOp l s)
  /\ secondOp l (runISR adcs (firstOp l s)) = SetOutput l (runISR adcs s)
  /\ outputLevel (secondOp l (runISR adcs (firstOp l s))) = l
  /\ nearLed (secondOp l (runISR adcs (firstOp l s))) = nearLed (runISR adcs s)
  /\ outputLevel (runISR adcs (firstOp l s)) = outputLevel (firstOp l s)
  /\ g31Reading (outputLevel (firstOp l s))
     <= Z.max (g31Reading (outputLevel s)) (g31Reading l)
  /\ (outputLevel s = Approaching -> outputLevel (firstOp On s) = Off)
  /\ (outputLevel s = On -> outputLevel (firstOp Approaching s) = Off).
Proof.
  assert (H1 : forall x, SetOutput l x = secondOp l (firstOp l x)) by (destruct l; reflexivity).
  assert (H2 : secondOp l (runISR adcs (firstOp l s)) = SetOutput l (runISR adcs s)).
  { destruct (firstOp_beside l) as (f & Hf & E).
    rewrite H1, !E, runISR_beside by exact Hf. reflexivity. }
  split; [apply H1|]. split; [exact H2|]. rewrite H2.
  destruct (outputLevel_SetOutput (runISR adcs s)) as (L0 & L1 & L2 & L3).
  destruct (nearLed_SetOutput (runISR adcs s)) as (N0 & N1 & N2 & N3).
  split; [destruct l; assumption|]. split; [destruct l; assumption|].
  split; [apply outputLevel_same_bits; apply runISR_PORTA_other; discriminate|].
  rewrite !outputLevel_firstOp.
  split; [destruct l, (outputLevel s); cbn; lia|].
  split; intros ->; reflexivity.
Qed.

(** From Approaching to On with an interrupt between the two operations, at
    tick 16 in 1K mode. *)
Lemma output_two_operations_witness :
  let s := SetOutputApproaching tick16_1K in
  outputLevel s = Approaching
  /\ outputLevel (firstOp On s) = Off
  /\ outputLevel (secondOp On (runISR [700; 0] (firstOp On s))) = On
  /\ nearLed (secondOp On (runISR [700; 0] (firstOp On s))) = true.
Proof.
  cbv zeta.
  pose proof (output_two_operations On [700; 0] (SetOutputApproaching tick16_1K))
    as (_ & _ & H3 & H4 & _ & _ & H7 & _).
  assert (H0 : outputLevel (SetOutputApproaching tick16_1K) = Approaching)
    by (vm_compute; reflexivity).
  split; [exact H0|]. split; [exact (H7 H0)|]. split; [exact H3|].
  rewrite H4. vm_compute. reflexivity.
Defined.

(** ** The fan decision on the integers *)





(** ** The reference in 4K7 mode *)






(** ** The snapshot of the IR sums *)

Lemma Inv_ir_bounds s a :
  Inv s -> accSize a = cyclesAveragedIR ->
  accSum a s = sumZ (accSlots a s) /\ 0 <= accSum a s <= 8184.
Proof.
  intros HI Ha. destruct (Inv_ring a s HI) as [(L & F & S) _].
  pose proof (sumZ_bounds _ _ F) as B. rewrite L, Ha, <- S in B.
  change (1023 * Z.of_nat (Z.to_nat cyclesAveragedIR)) with 8184 in B.
  split; [exact S|exact B].
Qed.

(** X20.  The snapshot of lines 426-430 is atomic.  Whatever interrupts
    arrive while the loop reads the three IR sums, and whenever they arrive,
    the three values read are the sums of one state: the state reached when
    [cli()] takes effect, after the interrupts that arrived before it;
    arrivals after that stay pending until [sei()].  The values are therefore
    the exact sums of the three arrays at one instant, each within 0 .. 8184.
    The same holds of the tick read at lines 474-476, and of any sequence of
    reads made with interrupts disabled. *)
Theorem ir_snapshot_atomic (sched : list (list Z)) (s : State) :
  reachable s ->
  let s0 := runISR (hd [] sched) s in
  fst (exec snapshotOps sched [] true s) = [nearSumIR s0; farSumIR s0; offSumIR s0]
  /\ (nearSumIR s0 = sumZ (nearLedReadings s0) /\ farSumIR s0 = sumZ (farLedReadings s0)
      /\ offSumIR s0 = sumZ (offReadings s0))
  /\ (0 <= nearSumIR s0 <= 8184 /\ 0 <= farSumIR s0 <= 8184 /\ 0 <= offSumIR s0 <= 8184)
  /\ fst (exec tickReadOps sched [] true s) = [tickCounter s0]
  /\ (forall ops pending,
         forallb (fun op => match op with OpSei => false | _ => true end) ops = true ->
         fst (exec ops sched pending false s)
         = omap (fun op => match op with OpRead x => Some (readVar x s) | _ => None end) ops).
Proof.
  intros Hr. cbv zeta. pose proof (runISR_Inv (hd [] sched) s (reachable_Inv s Hr)) as HI.
  destruct (Inv_ir_bounds _ AccNear HI eq_refl) as [N1 N2].
  destruct (Inv_ir_bounds _ AccFar HI eq_refl) as [F1 F2].
  destruct (Inv_ir_bounds _ AccOff HI eq_refl) as [O1 O2].
  cbn [accSum accSlots] in *.
  split; [apply snapshot_consistent|]. split; [auto|]. split; [auto|].
  split; [apply tickRead_consistent|].
  intros ops pending H. apply exec_masked. exact H.
Qed.

(** 1K mode at tick 4000 of the example: an interrupt arrives before the
    [cli()] and two more during the three reads; the values read are those of
    the state after the first. *)
Lemma ir_snapshot_atomic_witness :
  reachable tornStart
  /\ fst (exec snapshotOps [[700]; [900]; []; [5]; []] [] true tornStart)
     = [nearSumIR (runISR [700] tornStart); farSumIR (runISR [700] tornStart);
        offSumIR (runISR [700] tornStart)]
  /\ 0 <= nearSumIR (runISR [700] tornStart) <= 8184.
Proof.
  assert (Hr : reachable tornStart) by (exists 16, tornRun; reflexivity).
  pose proof (ir_snapshot_atomic [[700]; [900]; []; [5]; []] tornStart Hr)
    as (H1 & _ & (H3 & _) & _).
  split; [exact Hr|]. split; [exact H1|exact H3].
Defined.
